(** * Cotizador: pricing, payment plans, folios, column registry and PDF pagination

    A shallow embedding of the computational core of the quoting application
    (App.tsx, DocumentPreview, DocumentEditor, SettingsPage, DatePicker,
    utils/formatters, types, constants) together with the properties its
    specification states and further properties of the code.

    Modelling conventions.
    - The pricing engine and the page layout are read in exact arithmetic: a
      [number] there is a rational ([Q]), which leaves out the rounding of
      binary64 and is right only while every intermediate result is finite.
      [NaN] from the coercion [Number(x)] of a dynamically typed item field
      is [None] in an [option Q], and so is the result of a division by a
      divisor that is 0.
    - Where the outcome depends on the numbers the code runs on, the code is
      read on IEEE 754 binary64 values ([float], the kernel's primitive
      floats): the payment plan calculator, whose guard compares a rounded
      rate with 0, and the attribution of a fixed markup, which can
      overflow.
    - A plain object used as a dictionary is a [gmap string _].
    - Strings are sequences of 8-bit code units (Latin-1). *)

From Stdlib Require Import PrimFloat.
From Stdlib Require Import QArith Qabs Lqa ZArith NArith Lia List String Ascii Bool.
From Stdlib Require Import DecimalString DecimalPos.
From stdpp Require Import gmap strings sorting.

Import ListNotations.
#[local] Open Scope Q_scope.
#[local] Open Scope string_scope.

(** ** JavaScript values and coercions *)

(** The values an [Item] field (declared [any]) holds after the editor, the
    importers and JSON persistence have written it. *)
Inductive jsval : Type :=
| VUndefined
| VNull
| VBool (b : bool)
| VNum (q : Q)
| VStr (s : string).

(** [x || 0] on a number: [0] is the only falsy finite number. *)
Definition orZero (x : Q) : Q := if Qeq_bool x 0 then 0 else x.

(** [x || 0] on a number that may be [NaN]. *)
Definition nanOrZero (x : option Q) : Q :=
  match x with
  | Some q => orZero q
  | None => 0
  end.

(** [a / b] for a divisor that is not a literal: non-finite when [b] is 0. *)
Definition jsdiv (a b : Q) : option Q :=
  if Qeq_bool b 0 then None else Some (a / b).

(** [a > b] and [a <= b] on finite numbers. *)
Definition Qgtb (a b : Q) : bool := negb (Qle_bool a b).
Definition Qleb (a b : Q) : bool := Qle_bool a b.

(** [obj[key]] on a dictionary of values: a missing key reads [undefined]. *)
Definition getField (obj : gmap string jsval) (key : string) : jsval :=
  default VUndefined (obj !! key).

Section Coercions.
(** The runtime's StringToNumber on the strings that denote a finite number
    or no number at all ([None] is [NaN]). *)
Variable StringToNumber : string -> option Q.

(** [Number(v)]. *)
Definition Number (v : jsval) : option Q :=
  match v with
  | VUndefined => None
  | VNull => Some 0
  | VBool true => Some 1
  | VBool false => Some 0
  | VNum q => Some q
  | VStr s => StringToNumber s
  end.

(** [Number(v) || 0]. *)
Definition numberOrZero (v : jsval) : Q := nanOrZero (Number v).
End Coercions.

(** ** Data model (types.ts) *)

Inductive DataType := DT_string | DT_number | DT_date | DT_time | DT_boolean | DT_image.

Inductive InputType :=
  IT_text | IT_textarea | IT_number | IT_select | IT_date | IT_time | IT_checkbox | IT_file.

Record ColumnDefinition := {
  label : string;
  default_ : bool;             (* the field named [default] *)
  isEditable : bool;
  dataType : DataType;
  inputType : InputType;
  options : option (list string)
}.

(** [Item]: an open record keyed by the column registry, plus [id]. *)
Abbreviation Item := (gmap string jsval).

Record Subcategory := {
  sub_id : string;
  sub_name : string;
  items : list Item
}.

Inductive MarkupType := MT_none | MT_percentage | MT_fixed.
Inductive MarkupDistribution := MD_proportional | MD_per_item.

Record CostCategory := {
  cat_id : string;
  cat_name : string;
  subcategories : list Subcategory;
  showItems : bool;
  visibleColumns : gmap string bool;
  markupApplications : Z;
  applyVat : bool;
  markupType : MarkupType;
  markupValue : Q;
  markupDistribution : MarkupDistribution
}.

Record Totals := {
  subtotal : Q;
  tax : Q;
  total : Q
}.

(** The numbers of a plan are held as the binary64 values they are. *)
Record PaymentPlanConfig := {
  enabled : bool;
  downPayment : float;
  terms : list float;
  baseInterestRate : float;
  riskFactor : float;
  termIncrementRate : float
}.

Inductive PageNumbering := PN_none | PN_arabic | PN_roman.

Record LayoutConfig := {
  footerContent : string;
  pageNumbering : PageNumbering
}.

Record DocumentState := {
  doc_id : string;
  title : string;
  docNumber : string;
  categories : list CostCategory;
  showVat : bool;
  vatRate : Q;
  currency : string;
  paymentPlan : PaymentPlanConfig;
  layout : LayoutConfig
}.

(** ** Pricing engine *)

Section Pricing.
Variable StringToNumber : string -> option Q.

(** [(Number(item.quantity) || 0) * (Number(item.unitPrice) || 0)]. *)
Definition itemSubtotal (item : Item) : Q :=
  numberOrZero StringToNumber (getField item "quantity")
  * numberOrZero StringToNumber (getField item "unitPrice").

(** The nested [forEach] of calculateTotals and calculateCategoryTotal: one
    accumulator threaded through every item of every subcategory. *)
Definition categoryRawSubtotal (category : CostCategory) : Q :=
  fold_left
    (fun acc sub =>
       fold_left (fun acc item => acc + itemSubtotal item) (items sub) acc)
    (subcategories category) 0.

(** The nested [reduce] of the preview and of the PDF exporter. *)
Definition reduceRawSubtotal (category : CostCategory) : Q :=
  fold_left
    (fun catAcc sub =>
       catAcc + fold_left (fun subAcc item => subAcc + itemSubtotal item) (items sub) 0)
    (subcategories category) 0.

(** The markup step shared by calculateTotals and calculateCategoryTotal. *)
Definition withMarkups (category : CostCategory) (raw : Q) : Q :=
  match markupType category with
  | MT_percentage => raw + raw * (orZero (markupValue category) / 100)
  | MT_fixed => raw + orZero (markupValue category)
  | MT_none => raw
  end.

(** calculateCategoryTotal (DocumentPreview). *)
Definition calculateCategoryTotal (category : CostCategory) : Q :=
  withMarkups category (categoryRawSubtotal category).

(** calculateTotals (App.tsx): the body of [doc.categories.forEach] acts on
    the two accumulators [subtotalWithMarkups] and [tax]. *)
Definition totalsStep (doc : DocumentState) (acc : Q * Q) (category : CostCategory) : Q * Q :=
  let '(subtotalWithMarkups, tax) := acc in
  let categoryTotalWithMarkups := withMarkups category (categoryRawSubtotal category) in
  let tax :=
    if showVat doc && applyVat category
    then tax + categoryTotalWithMarkups * (orZero (vatRate doc) / 100)
    else tax in
  (subtotalWithMarkups + categoryTotalWithMarkups, tax).

Definition calculateTotals (doc : DocumentState) : Totals :=
  let '(subtotalWithMarkups, tax) := fold_left (totalsStep doc) (categories doc) (0, 0) in
  {| subtotal := subtotalWithMarkups;
     tax := tax;
     total := subtotalWithMarkups + tax |}.

(** Per-item markup attribution: the block repeated for the [markup] and
    [vat] cells of the preview, the editor and the exporter. *)
Definition itemMarkup (category : CostCategory) (categoryRawSubtotal itemSubtotal : Q)
  : option Q :=
  match markupType category with
  | MT_percentage => Some (itemSubtotal * (orZero (markupValue category) / 100))
  | MT_fixed =>
      if Qgtb categoryRawSubtotal 0
      then match jsdiv itemSubtotal categoryRawSubtotal with
           | Some share => Some (share * orZero (markupValue category))
           | None => None
           end
      else Some 0
  | MT_none => Some 0
  end.

(** [vatOnItem] of the [vat] cell. *)
Definition vatOnItem (showVat : bool) (vatRate : Q) (category : CostCategory)
    (categoryRawSubtotal itemSubtotal : Q) : option Q :=
  if showVat && applyVat category
  then match itemMarkup category categoryRawSubtotal itemSubtotal with
       | Some m => Some ((itemSubtotal + m) * (vatRate / 100))
       | None => None
       end
  else Some 0.
End Pricing.

(** ** Figures of the live preview (DocumentPreview) *)

(** The three derived cells of an item row: [total], [markup], [vat]. *)
Record DerivedCells := {
  cell_total : Q;
  cell_markup : option Q;
  cell_vat : option Q
}.

Record CategoryFigures := {
  cf_rows : list (list DerivedCells);
  cf_categorySubtotal : Q;
  cf_categoryVat : Q;
  cf_categoryTotalWithVat : Q
}.

Section Preview.
Variable StringToNumber : string -> option Q.

Definition derivedCells (showVat : bool) (vatRate : Q) (category : CostCategory)
    (categoryRawSubtotal : Q) (item : Item) : DerivedCells :=
  let itemSubtotal := itemSubtotal StringToNumber item in
  {| cell_total := itemSubtotal;
     cell_markup := itemMarkup category categoryRawSubtotal itemSubtotal;
     cell_vat := vatOnItem showVat vatRate category categoryRawSubtotal itemSubtotal |}.

(** [sub.items.length > 0]. *)
Definition hasItems (sub : Subcategory) : bool :=
  match items sub with [] => false | _ :: _ => true end.

(** The body of [categories.filter(...).map(category => ...)]. *)
Definition previewCategory (doc : DocumentState) (category : CostCategory) : CategoryFigures :=
  let categoryRawSubtotal := reduceRawSubtotal StringToNumber category in
  let categorySubtotal := calculateCategoryTotal StringToNumber category in
  let categoryVat :=
    if showVat doc && applyVat category
    then categorySubtotal * (vatRate doc / 100) else 0 in
  {| cf_rows :=
       map (fun sub =>
              map (derivedCells (showVat doc) (vatRate doc) category categoryRawSubtotal)
                  (items sub))
           (List.filter hasItems (subcategories category));
     cf_categorySubtotal := categorySubtotal;
     cf_categoryVat := categoryVat;
     cf_categoryTotalWithVat := categorySubtotal + categoryVat |}.

Definition previewFigures (doc : DocumentState) : list CategoryFigures :=
  map (previewCategory doc)
      (List.filter (fun c => existsb hasItems (subcategories c)) (categories doc)).
End Preview.

(** ** Binary64 readings (DocumentPreview) *)

#[local] Open Scope float_scope.

(** [x || 0] on a binary64 number: [NaN], [0] and [-0] are the falsy numbers. *)
Definition orZero64 (x : float) : float :=
  if PrimFloat.is_nan x || (x =? 0) then 0 else x.

(** An item whose fields hold numbers; [Number(item[key])] of a missing field
    is [NaN]. *)
Definition numberField (item : gmap string float) (key : string) : float :=
  default PrimFloat.nan (item !! key).

(** [(Number(item.quantity) || 0) * (Number(item.unitPrice) || 0)]. *)
Definition itemSubtotal64 (item : gmap string float) : float :=
  orZero64 (numberField item "quantity") * orZero64 (numberField item "unitPrice").

(** The nested [reduce] of the preview over the items of the subcategories. *)
Definition reduceRawSubtotal64 (subcategories : list (list (gmap string float))) : float :=
  fold_left
    (fun catAcc sub =>
       catAcc + fold_left (fun subAcc item => subAcc + itemSubtotal64 item) sub 0)
    subcategories 0.

(** The per-item markup attribution of the [markup] and [vat] cells;
    [itemMarkup] starts at 0 and is assigned inside the guards. *)
Definition itemMarkup64 (markupType : MarkupType)
    (markupValue categoryRawSubtotal itemSubtotal : float) : float :=
  match markupType with
  | MT_percentage => itemSubtotal * (orZero64 markupValue / 100)
  | MT_fixed =>
      if 0 <? categoryRawSubtotal
      then (itemSubtotal / categoryRawSubtotal) * orZero64 markupValue
      else 0
  | MT_none => 0
  end.

(** The attributions of all items of a category, in order. *)
Definition itemMarkups64 (markupType : MarkupType) (markupValue : float)
    (subcategories : list (list (gmap string float))) : list float :=
  map (fun item =>
         itemMarkup64 markupType markupValue (reduceRawSubtotal64 subcategories)
                      (itemSubtotal64 item))
      (concat subcategories).

(** ** Payment plan calculator (DocumentPreview) *)

Record PaymentOption := {
  term : float;
  monthlyPayment : float;
  totalPayment : float
}.

Section PaymentPlan.
(** [Math.pow]: the language leaves its precision to the implementation. *)
Variable Math_pow : float -> float -> float.

(** The callback of [config.terms.map]; [None] is the [null] that the
    following [filter] removes. *)
Definition paymentOption (config : PaymentPlanConfig) (balance : float) (term : float)
  : option PaymentOption :=
  let annualInterestRate :=
    baseInterestRate config + riskFactor config
    + (term * termIncrementRate config / 12) in
  if term =? 0 then None
  else
    let monthlyRate := (annualInterestRate / 100) / 12 in
    if monthlyRate =? 0 then
      Some {| term := term;
              monthlyPayment := balance / term;
              totalPayment := balance |}
    else
      let monthlyPayment :=
        balance * (monthlyRate * Math_pow (1 + monthlyRate) term)
        / (Math_pow (1 + monthlyRate) term - 1) in
      Some {| term := term;
              monthlyPayment := monthlyPayment;
              totalPayment := monthlyPayment * term |}.

Definition calculatePaymentOptions (total : float) (config : PaymentPlanConfig)
  : list PaymentOption :=
  if negb (enabled config) || (length (terms config) =? 0)%nat then []
  else
    let balance := total - downPayment config in
    if balance <=? 0 then []
    else omap (paymentOption config balance) (terms config).
End PaymentPlan.

#[local] Close Scope float_scope.

(** ** Folio generation (utils/formatters) *)

#[local] Open Scope Z_scope.

(** [String(n)] for an integer. *)
Definition stringOfZ (n : Z) : string := NilZero.string_of_int (Z.to_int n).

(** [s.padStart(n, '0')]. *)
Definition padStart0 (n : nat) (s : string) : string :=
  String.concat "" (repeat "0"%string (n - String.length s)) ++ s.

(** [s.slice(-n)]. *)
Definition sliceLast (n : nat) (s : string) : string :=
  substring (String.length s - n) n s.

Definition msPerDay : Z := 86400000.

(** ECMAScript time arithmetic: DayFromYear, Day, YearFromTime. *)
Definition DayFromYear (y : Z) : Z :=
  365 * (y - 1970) + (y - 1969) / 4 - (y - 1901) / 100 + (y - 1601) / 400.

Definition Day (t : Z) : Z := t / msPerDay.

(** The largest [y] with [DayFromYear y <= Day t], found next to the mean
    year length estimate. *)
Definition YearFromTime (t : Z) : Z :=
  let y0 := 1970 + (400 * Day t) / 146097 in
  if DayFromYear (y0 + 1) <=? Day t then y0 + 1
  else if DayFromYear y0 <=? Day t then y0
  else y0 - 1.

Section Folio.
(** The host's offset of local time from UTC, in milliseconds, as a
    function of the local time value. *)
Variable LocalTZA : Z -> Z.

(** [new Date(year, 0, 0).getTime()]: local midnight of the day before
    1 January; a year 0..99 is read as 1900 + year. *)
Definition startOfYearLocal (year : Z) : Z :=
  let fullYear := if (0 <=? year) && (year <=? 99) then 1900 + year else year in
  let local := (DayFromYear fullYear + 0 - 1) * msPerDay in
  local - LocalTZA local.

(** A [Date] is its time value: milliseconds since the epoch, UTC. *)
Definition getJulianDate (date : Z) : string :=
  let start := startOfYearLocal (YearFromTime date) in
  let diff := date - start in
  let oneDay := 1000 * 60 * 60 * 24 in
  let dayOfYear := diff / oneDay in
  let year := sliceLast 2 (stringOfZ (YearFromTime date)) in
  (year ++ padStart0 3 (stringOfZ dayOfYear))%string.

Definition generateFolio (prefix : string) (sequence : Z) (date : Z) : string :=
  let sequencePart := padStart0 6 (stringOfZ sequence) in
  let julianDate := getJulianDate date in
  (prefix ++ sequencePart ++ "-" ++ julianDate)%string.
End Folio.

(** [Date.UTC(year, month - 1, day)] for a calendar date of the Gregorian
    calendar, used to write down inputs. *)
Definition dateUTC (year month day : Z) : Z :=
  let leap := if ((year mod 4 =? 0) && negb (year mod 100 =? 0)) || (year mod 400 =? 0)
              then 1 else 0 in
  let before :=
    nth (Z.to_nat (month - 1))
        [0; 31; 59 + leap; 90 + leap; 120 + leap; 151 + leap; 181 + leap;
         212 + leap; 243 + leap; 273 + leap; 304 + leap; 334 + leap] 0 in
  (DayFromYear year + before + day - 1) * msPerDay.

#[local] Close Scope Z_scope.

(** ** String primitives *)

Definition chr (n : nat) : string := String (ascii_of_nat n) EmptyString.

(** [c.toLowerCase()] on a Latin-1 code unit. *)
Definition lowerChar (c : ascii) : ascii :=
  let n := nat_of_ascii c in
  if (((65 <=? n) && (n <=? 90)) || ((192 <=? n) && (n <=? 222) && negb (n =? 215)))%nat
  then ascii_of_nat (n + 32) else c.

Fixpoint mapString (f : ascii -> ascii) (s : string) : string :=
  match s with
  | EmptyString => EmptyString
  | String c rest => String (f c) (mapString f rest)
  end.

Definition toLowerCase (s : string) : string := mapString lowerChar s.

(** WhiteSpace and LineTerminator code units below 256. *)
Definition isWhiteSpace (c : ascii) : bool :=
  let n := nat_of_ascii c in
  (((9 <=? n) && (n <=? 13)) || (n =? 32) || (n =? 160))%nat.

Fixpoint trimStart (s : string) : string :=
  match s with
  | EmptyString => EmptyString
  | String c rest => if isWhiteSpace c then trimStart rest else s
  end.

(** [s.trim()]. *)
Definition trim (s : string) : string :=
  String.rev (trimStart (String.rev (trimStart s))).

(** Membership in the class [a-z0-9] under the [i] flag. *)
Definition isAlnum (c : ascii) : bool :=
  let n := nat_of_ascii c in
  (((97 <=? n) && (n <=? 122)) || ((65 <=? n) && (n <=? 90)) || ((48 <=? n) && (n <=? 57)))%nat.

(** [s.replace(/[^a-z0-9]/gi, '_')]. *)
Definition replaceNonAlnum (s : string) : string :=
  mapString (fun c => if isAlnum c then c else "_"%char) s.

(** ** Roman page numbers (handleExportToPdf) *)

(** [String(+num)] for a non-negative integer. *)
Definition stringOfN (n : N) : string := NilZero.string_of_uint (N.to_uint n).

Definition key : list string :=
  [""; "C"; "CC"; "CCC"; "CD"; "D"; "DC"; "DCC"; "DCCC"; "CM";
   ""; "X"; "XX"; "XXX"; "XL"; "L"; "LX"; "LXX"; "LXXX"; "XC";
   ""; "I"; "II"; "III"; "IV"; "V"; "VI"; "VII"; "VIII"; "IX"].

(** [digits.pop()]: the last element, if any, and the shortened array. *)
Definition pop (digits : list ascii) : option ascii * list ascii :=
  (last digits, removelast digits).

(** [+c] for a one-character string: [None] is [NaN]. *)
Definition digitValue (c : ascii) : option nat :=
  let n := nat_of_ascii c in
  if ((48 <=? n) && (n <=? 57))%nat then Some (n - 48)%nat else None.

(** One turn of [while (i--)], with [i] already decremented. *)
Definition romanStep (st : list ascii * string) (i : nat) : list ascii * string :=
  let '(digits, roman) := st in
  let '(popped, digits) := pop digits in
  let index :=
    match popped with
    | Some c => match digitValue c with
                | Some d => Some (d + i * 10)%nat
                | None => None
                end
    | None => None
    end in
  let symbol := match index with Some n => nth n key "" | None => "" end in
  (digits, symbol ++ roman).

(** [+digits.join("")] on the digits that remain. *)
Definition numberOfDigits (digits : list ascii) : nat :=
  fold_left (fun acc c => (10 * acc + default 0 (digitValue c))%nat) digits 0%nat.

Definition romanize (num : N) : string :=
  let digits := list_ascii_of_string (stringOfN num) in
  let '(digits, roman) := fold_left romanStep [2; 1; 0]%nat (digits, "") in
  toLowerCase (String.concat "" (repeat "M" (numberOfDigits digits)) ++ roman).

(** ** Column registry (SettingsPage, constants) *)

#[global] Instance DataType_eq_dec : EqDecision DataType.
Proof. solve_decision. Defined.
#[global] Instance InputType_eq_dec : EqDecision InputType.
Proof. solve_decision. Defined.

Definition COMPATIBLE_INPUT_TYPES (d : DataType) : list InputType :=
  match d with
  | DT_string => [IT_text; IT_textarea; IT_select]
  | DT_number => [IT_number; IT_select]
  | DT_date => [IT_date]
  | DT_time => [IT_time]
  | DT_boolean => [IT_checkbox]
  | DT_image => [IT_file]
  end.

(** [compatibleInputs[0]]; no list of the table is empty. *)
Definition firstInput (compatibleInputs : list InputType) : InputType :=
  hd IT_text compatibleInputs.

(** [compatibleInputs.includes(t)]. *)
Definition includes (compatibleInputs : list InputType) (t : InputType) : bool :=
  bool_decide (t ∈ compatibleInputs).

Definition INITIAL_COLUMN_DEFINITIONS : gmap string ColumnDefinition :=
  list_to_map
    [("description",
      {| label := "Descripci" ++ chr 243 ++ "n"; default_ := true; isEditable := true;
         dataType := DT_string; inputType := IT_textarea; options := None |});
     ("concept",
      {| label := "Concepto"; default_ := false; isEditable := true;
         dataType := DT_string; inputType := IT_text; options := None |});
     ("unit",
      {| label := "Unidad"; default_ := false; isEditable := true;
         dataType := DT_string; inputType := IT_select;
         options := Some ["Pza"; "Kg"; "m"; "m" ++ chr 178; "L"; "Servicio"; "Jornal"] |});
     ("quantity",
      {| label := "Cantidad"; default_ := true; isEditable := true;
         dataType := DT_number; inputType := IT_number; options := None |});
     ("unitPrice",
      {| label := "Precio Unit."; default_ := true; isEditable := true;
         dataType := DT_number; inputType := IT_number; options := None |});
     ("markup",
      {| label := "Aumento"; default_ := false; isEditable := false;
         dataType := DT_number; inputType := IT_number; options := None |});
     ("vat",
      {| label := "IVA"; default_ := false; isEditable := false;
         dataType := DT_number; inputType := IT_number; options := None |});
     ("total",
      {| label := "Total"; default_ := true; isEditable := false;
         dataType := DT_number; inputType := IT_number; options := None |})].

(** The pair [(field, value)] of handleColumnDefinitionChange. *)
Inductive FieldUpdate :=
| SetLabel (v : string)
| SetDefault (v : bool)
| SetIsEditable (v : bool)
| SetDataType (v : DataType)
| SetInputType (v : InputType)
| SetOptions (v : option (list string)).

(** [{ ...oldDef, [field]: value }]. *)
Definition setField (oldDef : ColumnDefinition) (upd : FieldUpdate) : ColumnDefinition :=
  match upd with
  | SetLabel v =>
      {| label := v; default_ := default_ oldDef; isEditable := isEditable oldDef;
         dataType := dataType oldDef; inputType := inputType oldDef; options := options oldDef |}
  | SetDefault v =>
      {| label := label oldDef; default_ := v; isEditable := isEditable oldDef;
         dataType := dataType oldDef; inputType := inputType oldDef; options := options oldDef |}
  | SetIsEditable v =>
      {| label := label oldDef; default_ := default_ oldDef; isEditable := v;
         dataType := dataType oldDef; inputType := inputType oldDef; options := options oldDef |}
  | SetDataType v =>
      {| label := label oldDef; default_ := default_ oldDef; isEditable := isEditable oldDef;
         dataType := v; inputType := inputType oldDef; options := options oldDef |}
  | SetInputType v =>
      {| label := label oldDef; default_ := default_ oldDef; isEditable := isEditable oldDef;
         dataType := dataType oldDef; inputType := v; options := options oldDef |}
  | SetOptions v =>
      {| label := label oldDef; default_ := default_ oldDef; isEditable := isEditable oldDef;
         dataType := dataType oldDef; inputType := inputType oldDef; options := v |}
  end.

(** [def.inputType = t]. *)
Definition setInputType (def : ColumnDefinition) (t : InputType) : ColumnDefinition :=
  setField def (SetInputType t).

(** The state updater of handleColumnDefinitionChange.  [None]: the key names
    no column, where the source has no definition to copy. *)
Definition handleColumnDefinitionChange (key : string) (upd : FieldUpdate)
    (prev : gmap string ColumnDefinition) : option (gmap string ColumnDefinition) :=
  match prev !! key with
  | None => None
  | Some oldDef =>
      let newDef := setField oldDef upd in
      let newDef :=
        match upd with
        | SetDataType newDataType =>
            let compatibleInputs := COMPATIBLE_INPUT_TYPES newDataType in
            if negb (includes compatibleInputs (inputType oldDef))
            then setInputType newDef (firstInput compatibleInputs)
            else newDef
        | _ => newDef
        end in
      Some (<[key := newDef]> prev)
  end.

(** Property names every plain object inherits from [Object.prototype]; each
    reads as a truthy value. *)
Definition objectPrototypeKeys : list string :=
  ["constructor"; "__defineGetter__"; "__defineSetter__"; "hasOwnProperty";
   "__lookupGetter__"; "__lookupSetter__"; "isPrototypeOf"; "propertyIsEnumerable";
   "toString"; "valueOf"; "__proto__"; "toLocaleString"].

(** The truthiness of [columnDefinitions[key]]. *)
Definition readsTruthy (columnDefinitions : gmap string ColumnDefinition) (key : string) : bool :=
  bool_decide (is_Some (columnDefinitions !! key)) || bool_decide (key ∈ objectPrototypeKeys).

Record NewColumnData := {
  nc_label : string;
  nc_dataType : DataType
}.

Inductive AddColumnResult :=
| Rejected (alert : string)
| Added (newKey : string) (columnDefinitions : gmap string ColumnDefinition).

Definition deriveKey (label : string) : string :=
  replaceNonAlnum (toLowerCase (trim label)).

Definition handleAddColumn (newColumnData : NewColumnData)
    (columnDefinitions : gmap string ColumnDefinition) : AddColumnResult :=
  if bool_decide (trim (nc_label newColumnData) = "")
  then Rejected ("El nombre de la columna no puede estar vac" ++ chr 237 ++ "o.")
  else
    let newKey := deriveKey (nc_label newColumnData) in
    if readsTruthy columnDefinitions newKey
    then Rejected "Ya existe una columna con un nombre similar."
    else
      let compatibleInputs := COMPATIBLE_INPUT_TYPES (nc_dataType newColumnData) in
      Added newKey
        (<[newKey :=
             {| label := trim (nc_label newColumnData);
                default_ := false;
                isEditable := true;
                dataType := nc_dataType newColumnData;
                inputType := firstInput compatibleInputs;
                options :=
                  match nc_dataType newColumnData with
                  | DT_string | DT_number => Some []
                  | _ => None
                  end |}]> columnDefinitions).

(** The registry after the action: unchanged when it is rejected. *)
Definition registryAfter (r : AddColumnResult) (before : gmap string ColumnDefinition)
  : gmap string ColumnDefinition :=
  match r with
  | Rejected _ => before
  | Added _ defs => defs
  end.

(** ** New items (DocumentEditor) *)

(** [def.options?.[0] || '']. *)
Definition firstOptionOrEmpty (def : ColumnDefinition) : string :=
  match options def with
  | Some (o :: _) => o
  | _ => ""
  end.

(** The branch chain run for every entry of the registry. *)
Definition initialValue (key : string) (def : ColumnDefinition) : jsval :=
  if bool_decide (key = "quantity") then VNum 1
  else match dataType def with
       | DT_number => VNum 0
       | DT_boolean => VBool false
       | _ => match inputType def with
              | IT_select => VStr (firstOptionOrEmpty def)
              | _ => VStr ""
              end
       end.

(** [newItem] after [Object.entries(columnDefinitions).forEach(...)]: the
    registry's keys are written over the object [{ id }]. *)
Definition newItem (id : string) (columnDefinitions : gmap string ColumnDefinition) : Item :=
  map_imap (fun key def => Some (initialValue key def)) columnDefinitions
  ∪ {[ "id" := VStr id ]}.

(** The item handleAddItemsFromImage builds from the imported [itemData]:
    [{ ...newItem, ...importedItemData }], the unit price taken net of VAT
    when the imported prices include it. *)
Definition importedItem (StringToNumber : string -> option Q) (id : string)
    (columnDefinitions : gmap string ColumnDefinition) (itemData : Item)
    (pricesIncludeVat : bool) (vatRatePercent : Q) : Item :=
  let importedItemData :=
    if pricesIncludeVat && Qgtb vatRatePercent 0
    then
      let originalPrice := numberOrZero StringToNumber (getField itemData "unitPrice") in
      <["unitPrice" := VNum (originalPrice / (1 + vatRatePercent / 100))]> itemData
    else itemData in
  importedItemData ∪ newItem id columnDefinitions.

Section AddItems.
(** The identifier returned by the k-th call of [crypto.randomUUID]. *)
Variable randomUUID : nat -> string.

Definition itemsToAdd (columnDefinitions : gmap string ColumnDefinition) (count : nat)
  : list Item :=
  map (fun k => newItem (randomUUID k) columnDefinitions) (seq 0 count).

(** handleAddItems, through handleSubcategoryChange, handleCategoryChange
    and handleStateChange.  [activeCategoryIndex] is [-1] or a valid index. *)
Definition handleAddItems (columnDefinitions : gmap string ColumnDefinition)
    (doc : DocumentState) (activeCategoryIndex : Z) (subIndex : nat) (count : Z)
  : DocumentState :=
  if (activeCategoryIndex =? -1)%Z || (count <=? 0)%Z then doc
  else
    match categories doc !! Z.to_nat activeCategoryIndex with
    | None => doc
    | Some category =>
        match subcategories category !! subIndex with
        | None => doc
        | Some subcategory =>
            let newItems :=
              (items subcategory ++ itemsToAdd columnDefinitions (Z.to_nat count))%list in
            let newSubcategory :=
              {| sub_id := sub_id subcategory; sub_name := sub_name subcategory;
                 items := newItems |} in
            let categoryToUpdate :=
              {| cat_id := cat_id category; cat_name := cat_name category;
                 subcategories := <[subIndex := newSubcategory]> (subcategories category);
                 showItems := showItems category;
                 visibleColumns := visibleColumns category;
                 markupApplications := markupApplications category;
                 applyVat := applyVat category;
                 markupType := markupType category;
                 markupValue := markupValue category;
                 markupDistribution := markupDistribution category |} in
            {| doc_id := doc_id doc; title := title doc; docNumber := docNumber doc;
               categories := <[Z.to_nat activeCategoryIndex := categoryToUpdate]> (categories doc);
               showVat := showVat doc; vatRate := vatRate doc; currency := currency doc;
               paymentPlan := paymentPlan doc; layout := layout doc |}
        end
    end.
End AddItems.

(** ** Paginated PDF export (handleExportToPdf) *)

(** [s.includes(pat)] and [s.replace(pat, rep)] (first occurrence only). *)
Fixpoint includesStr (pat s : string) : bool :=
  if String.prefix pat s then true
  else match s with
       | EmptyString => false
       | String _ rest => includesStr pat rest
       end.

Fixpoint replaceFirst (pat rep s : string) : string :=
  if String.prefix pat s
  then rep ++ substring (String.length pat) (String.length s - String.length pat) s
  else match s with
       | EmptyString => EmptyString
       | String c rest => String c (replaceFirst pat rep rest)
       end.

Definition A4_WIDTH : Q := 210.
Definition A4_HEIGHT : Q := 297.
Definition MARGIN : Q := 5.
Definition DRAW_WIDTH : Q := A4_WIDTH - (MARGIN * 2).
Definition FOOTER_HEIGHT : Q := 15.
Definition HEADER_HEIGHT : Q := 30.
Definition DRAW_HEIGHT : Q := A4_HEIGHT - (MARGIN * 2) - FOOTER_HEIGHT.

Definition tableHeaderHeight : Q := 7.
Definition tableRowVerticalPadding : Q := 4.
Definition cellLineHeight : Q := 7 # 2.

Inductive Align := AlignLeft | AlignRight.

(** What the exporter asks of the canvas, in order. *)
Inductive DrawOp :=
| DrawHeader
| DrawFooter (texts : list (string * Align))
| AddPage
| DrawCategoryTitle (name : string) (top : Q)
| DrawSubcategoryTitle (name : string) (top : Q)
| DrawColumnHeader (top : Q)
| DrawItemRow (item : Item) (top rowHeight : Q) (cells : DerivedCells)
| DrawCategoryTotals (top height : Q) (subtotal : Q) (vat : option Q) (totalWithVat : Q).

(** The mutable locals [y], [page] and the document being produced. *)
Record Pdf := {
  y : Q;
  page : N;
  canvas : list DrawOp
}.

Definition draw (op : DrawOp) (s : Pdf) : Pdf :=
  {| y := y s; page := page s; canvas := (canvas s ++ [op])%list |}.

Definition setY (v : Q) (s : Pdf) : Pdf :=
  {| y := v; page := page s; canvas := canvas s |}.

Definition drawHeader (s : Pdf) : Pdf :=
  let s := setY MARGIN s in
  let s := draw DrawHeader s in
  setY (MARGIN + HEADER_HEIGHT) s.

Definition footerTexts (doc : DocumentState) (page : N) : list (string * Align) :=
  let content := footerContent (layout doc) in
  match pageNumbering (layout doc) with
  | PN_none =>
      let text := trim (replaceFirst "{page}" "" content) in
      if bool_decide (text = "") then [] else [(text, AlignLeft)]
  | numbering =>
      let pageStr :=
        match numbering with
        | PN_roman => romanize page
        | _ => stringOfN page
        end in
      if includesStr "{page}" content
      then [(replaceFirst "{page}" pageStr content, AlignRight)]
      else app (if bool_decide (content = "") then [] else [(content, AlignLeft)])
               [("P" ++ chr 225 ++ "gina " ++ pageStr, AlignRight)]
  end.

Definition drawFooter (doc : DocumentState) (s : Pdf) : Pdf :=
  draw (DrawFooter (footerTexts doc (page s))) s.

(** [pdf.addPage(); page++]. *)
Definition addPage (s : Pdf) : Pdf :=
  let s := draw AddPage s in
  {| y := y s; page := (page s + 1)%N; canvas := canvas s |}.

Definition checkAndAddPage (doc : DocumentState) (heightNeeded : Q) (s : Pdf) : Pdf :=
  if Qgtb (y s + heightNeeded) (MARGIN + DRAW_HEIGHT)
  then drawHeader (addPage (drawFooter doc s))
  else s.

Definition drawCategoryTitle (category : CostCategory) (s : Pdf) : Pdf :=
  setY (y s + 10) (draw (DrawCategoryTitle (cat_name category) (y s)) s).

Definition drawSubcategoryTitle (subcategory : Subcategory) (s : Pdf) : Pdf :=
  setY (y s + 5) (draw (DrawSubcategoryTitle (sub_name subcategory) (y s)) s).

Definition drawColumnHeader (s : Pdf) : Pdf :=
  setY (y s + tableHeaderHeight) (draw (DrawColumnHeader (y s)) s).

Section PdfExport.
Variable StringToNumber : string -> option Q.

(** The number of lines [pdf.splitTextToSize] returns for each visible,
    styled cell of the row, in column order. *)
Variable cellLines : CostCategory -> Item -> list nat.

Variable doc : DocumentState.

Definition maxLines (category : CostCategory) (item : Item) : nat :=
  fold_left (fun maxLines lines => if (maxLines <? lines)%nat then lines else maxLines)
            (cellLines category item) 1%nat.

Definition rowHeight (category : CostCategory) (item : Item) : Q :=
  inject_Z (Z.of_nat (maxLines category item)) * cellLineHeight + tableRowVerticalPadding.

(** [category.subcategories.length > 1 || sub.name !== 'General']. *)
Definition hasSubcategoryTitle (category : CostCategory) (sub : Subcategory) : bool :=
  (1 <? length (subcategories category))%nat || negb (bool_decide (sub_name sub = "General")).

(** The page break taken inside the item loop. *)
Definition breakBeforeRow (category : CostCategory) (sub : Subcategory) (s : Pdf) : Pdf :=
  let s := drawFooter doc s in
  let s := addPage s in
  let s := drawHeader s in
  let s := drawCategoryTitle category s in
  let s := if hasSubcategoryTitle category sub then drawSubcategoryTitle sub s else s in
  drawColumnHeader s.

(** The body of [for (const item of sub.items)]; the cells [total], [markup]
    and [vat] are computed as in the preview. *)
Definition exportItemRow (category : CostCategory) (categoryRawSubtotal : Q)
    (sub : Subcategory) (s : Pdf) (item : Item) : Pdf :=
  let rowHeight := rowHeight category item in
  let s :=
    if Qgtb (y s + rowHeight) (MARGIN + DRAW_HEIGHT)
    then breakBeforeRow category sub s
    else s in
  let cells :=
    derivedCells StringToNumber (showVat doc) (vatRate doc) category
      categoryRawSubtotal item in
  setY (y s + rowHeight) (draw (DrawItemRow item (y s) rowHeight cells) s).

(** The body of [for (const sub of category.subcategories)]. *)
Definition exportSubcategory (category : CostCategory) (categoryRawSubtotal : Q)
    (s : Pdf) (sub : Subcategory) : Pdf :=
  if negb (hasItems sub) then s
  else
    let hasTitle := hasSubcategoryTitle category sub in
    let s := checkAndAddPage doc ((if hasTitle then 7 else 0) + tableHeaderHeight) s in
    let s := if hasTitle then drawSubcategoryTitle sub s else s in
    let s := drawColumnHeader s in
    fold_left (exportItemRow category categoryRawSubtotal sub) (items sub) s.

(** The block "Draw Category Totals". *)
Definition drawCategoryTotals (category : CostCategory) (s : Pdf) : Pdf :=
  let currentCategoryRawSubtotal := reduceRawSubtotal StringToNumber category in
  if Qgtb currentCategoryRawSubtotal 0 then
    let categorySubtotalWithMarkups := withMarkups category currentCategoryRawSubtotal in
    let categoryVat :=
      if showVat doc && applyVat category
      then categorySubtotalWithMarkups * (vatRate doc / 100) else 0 in
    let categoryTotalWithVat := categorySubtotalWithMarkups + categoryVat in
    let hasVatRow := showVat doc && applyVat category && Qgtb categoryVat 0 in
    let categoryTotalsHeight := 12 + (if hasVatRow then 4 else 0) in
    let s := checkAndAddPage doc (categoryTotalsHeight + 2) s in
    let s :=
      draw (DrawCategoryTotals (y s) categoryTotalsHeight categorySubtotalWithMarkups
              (if hasVatRow then Some categoryVat else None) categoryTotalWithVat) s in
    let s := setY (y s + 4) s in
    let s := setY (y s + 4) s in
    let s := if hasVatRow then setY (y s + 4) s else s in
    let s := setY (y s + 4) s in
    setY (y s + 4) s
  else s.

(** The body of [for (const category of doc.categories.filter(...))]. *)
Definition exportCategory (s : Pdf) (category : CostCategory) : Pdf :=
  let categoryRawSubtotal := reduceRawSubtotal StringToNumber category in
  let s := checkAndAddPage doc (12 + tableHeaderHeight + 10) s in
  let s := drawCategoryTitle category s in
  let s :=
    fold_left (exportSubcategory category categoryRawSubtotal) (subcategories category) s in
  let s := drawCategoryTotals category s in
  setY (y s + 8) s.

Definition exportCategories (s : Pdf) : Pdf :=
  fold_left exportCategory
    (List.filter (fun c => existsb hasItems (subcategories c)) (categories doc)) s.
End PdfExport.

(** The bottom content boundary and the cursor after the repeated header. *)
Definition bottomBoundary : Q := MARGIN + DRAW_HEIGHT.
Definition topOfContent : Q := MARGIN + HEADER_HEIGHT.

(** ** Reference definitions, written from the specification's wording

    They are the right-hand sides the code is compared with. *)

(** The sum of a list of amounts. *)
Definition Qsum (l : list Q) : Q := fold_right Qplus 0 l.

(** All items of a category, subcategory after subcategory. *)
Definition allItems (category : CostCategory) : list Item :=
  concat (map items (subcategories category)).

(** A number that is 0 or whose magnitude lies between 2^-200 and 2^200. *)
Definition moderate (x : Q) : bool :=
  Qeq_bool x 0
  || (Qle_bool (1 # 2 ^ 200) (Qabs x) && Qle_bool (Qabs x) (inject_Z (2 ^ 200))).

Section PricingSpec.
Variable StringToNumber : string -> option Q.

(** A field read as a number, a non-numeric value counting as 0. *)
Definition spec_numeric (v : jsval) : Q :=
  match Number StringToNumber v with
  | Some q => q
  | None => 0
  end.

(** quantity x unitPrice of an item. *)
Definition spec_itemSubtotal (item : Item) : Q :=
  spec_numeric (getField item "quantity") * spec_numeric (getField item "unitPrice").

(** rawSubtotal: the sum over all items of quantity x unitPrice. *)
Definition spec_rawSubtotal (category : CostCategory) : Q :=
  Qsum (map spec_itemSubtotal (allItems category)).

(** The category total with markup. *)
Definition spec_categoryTotalWithMarkup (category : CostCategory) : Q :=
  match markupType category with
  | MT_none => spec_rawSubtotal category
  | MT_percentage => spec_rawSubtotal category * (1 + markupValue category / 100)
  | MT_fixed => spec_rawSubtotal category + markupValue category
  end.

(** The category VAT under the two-flag gate. *)
Definition spec_categoryVat (doc : DocumentState) (category : CostCategory) : Q :=
  if showVat doc && applyVat category
  then spec_categoryTotalWithMarkup category * (vatRate doc / 100)
  else 0.

(** The items on which exact arithmetic stands for the binary64 run of the
    per-item computations: fewer than 2^20 items whose quantity and unit
    price are not negative and moderate.  Then no product or sum overflows
    or underflows and no sum cancels, so that the raw subtotal is finite and
    is 0 in binary64 exactly when it is 0 in exact arithmetic. *)
Definition moderateItems (category : CostCategory) : bool :=
  forallb
    (fun item =>
       let quantity := spec_numeric (getField item "quantity") in
       let unitPrice := spec_numeric (getField item "unitPrice") in
       Qle_bool 0 quantity && moderate quantity
       && Qle_bool 0 unitPrice && moderate unitPrice)
    (allItems category)
  && (N.of_nat (length (allItems category)) <? 2 ^ 20)%N.
End PricingSpec.

(** Two categories that agree on every field but [markupDistribution]. *)
Definition sameButDistribution (c1 c2 : CostCategory) : Prop :=
  cat_id c1 = cat_id c2 /\ cat_name c1 = cat_name c2 /\
  subcategories c1 = subcategories c2 /\ showItems c1 = showItems c2 /\
  visibleColumns c1 = visibleColumns c2 /\
  markupApplications c1 = markupApplications c2 /\
  applyVat c1 = applyVat c2 /\ markupType c1 = markupType c2 /\
  markupValue c1 = markupValue c2.

(** Two documents identical except for the [markupDistribution] of some of
    their categories. *)
Definition differOnlyInDistribution (d1 d2 : DocumentState) : Prop :=
  doc_id d1 = doc_id d2 /\ title d1 = title d2 /\ docNumber d1 = docNumber d2 /\
  Forall2 sameButDistribution (categories d1) (categories d2) /\
  showVat d1 = showVat d2 /\ vatRate d1 = vatRate d2 /\ currency d1 = currency d2 /\
  paymentPlan d1 = paymentPlan d2 /\ layout d1 = layout d2.

(** The combined monthly rate of a term, in exact arithmetic. *)
Definition spec_monthlyRate (baseInterestRate riskFactor termIncrementRate : Q) (t : Z) : Q :=
  (baseInterestRate + riskFactor + inject_Z t * termIncrementRate / 12) / 100 / 12.

(** The combined monthly rate of a term, each operation rounded to binary64. *)
Definition spec_monthlyRate64 (config : PaymentPlanConfig) (t : float) : float :=
  ((baseInterestRate config + riskFactor config + t * termIncrementRate config / 12)
   / 100 / 12)%float.

(** The standard (subtractive) Roman numeral of a number, in lower case:
    the greedy expansion over the thirteen symbols. *)
Definition romanSymbols : list (N * string) :=
  [(1000, "m"); (900, "cm"); (500, "d"); (400, "cd"); (100, "c"); (90, "xc");
   (50, "l"); (40, "xl"); (10, "x"); (9, "ix"); (5, "v"); (4, "iv"); (1, "i")]%N.

Definition standardRoman (n : N) : string :=
  snd (fold_left
         (fun (st : N * string) (entry : N * string) =>
            ((fst st mod fst entry)%N,
             snd st ++ String.concat "" (repeat (snd entry) (N.to_nat (fst st / fst entry)))))
         romanSymbols (n, "")).

(** The number a lower-case Roman numeral denotes: a letter counts negative
    when a larger one follows it. *)
Definition romanLetter (c : ascii) : option N :=
  if Ascii.eqb c "i" then Some 1%N
  else if Ascii.eqb c "v" then Some 5%N
  else if Ascii.eqb c "x" then Some 10%N
  else if Ascii.eqb c "l" then Some 50%N
  else if Ascii.eqb c "c" then Some 100%N
  else if Ascii.eqb c "d" then Some 500%N
  else if Ascii.eqb c "m" then Some 1000%N
  else None.

Fixpoint romanSigned (values : list N) : Z :=
  match values with
  | [] => 0%Z
  | v :: rest =>
      ((match rest with
        | w :: _ => if (v <? w)%N then - Z.of_N v else Z.of_N v
        | [] => Z.of_N v
        end) + romanSigned rest)%Z
  end.

Definition romanValue (s : string) : option Z :=
  match mapM romanLetter (list_ascii_of_string s) with
  | Some values => Some (romanSigned values)
  | None => None
  end.

(** The key derivation as the specification words it: lowercase the label
    and replace every non-alphanumeric character by an underscore. *)
Definition spec_deriveKey (label : string) : string :=
  replaceNonAlnum (toLowerCase label).

(** The check run on every page number: romanize gives the standard numeral
    and the numeral denotes the number. *)
Definition romanizeAgrees (n : N) : bool :=
  String.eqb (romanize n) (standardRoman n)
  && bool_decide (romanValue (romanize n) = Some (Z.of_N n)).

(** An item row of the canvas ends at or above the bottom content boundary. *)
Definition rowWithin (op : DrawOp) : Prop :=
  match op with
  | DrawItemRow _ top rowHeight _ => top + rowHeight <= bottomBoundary
  | _ => True
  end.

Definition rowsWithin (s : Pdf) : Prop := Forall rowWithin (canvas s).

(** ** Observations on the exported canvas *)

Definition isAddPage (op : DrawOp) : bool :=
  match op with AddPage => true | _ => false end.

Definition isFooter (op : DrawOp) : bool :=
  match op with DrawFooter _ => true | _ => false end.

Definition isHeader (op : DrawOp) : bool :=
  match op with DrawHeader => true | _ => false end.

Definition countOps (p : DrawOp -> bool) (ops : list DrawOp) : nat :=
  length (List.filter p ops).

(** The item rows of a canvas, with the figures drawn in them. *)
Definition rowOf (op : DrawOp) : option (Item * DerivedCells) :=
  match op with
  | DrawItemRow item _ _ cells => Some (item, cells)
  | _ => None
  end.

Definition rowsOf (ops : list DrawOp) : list (Item * DerivedCells) := omap rowOf ops.

(** The rows the preview shows for a category: every item with its cells. *)
Definition categoryRows (StringToNumber : string -> option Q) (doc : DocumentState)
    (category : CostCategory) : list (Item * DerivedCells) :=
  map (fun item =>
         (item,
          derivedCells StringToNumber (showVat doc) (vatRate doc) category
            (reduceRawSubtotal StringToNumber category) item))
      (allItems category).

(** A category the preview and the exporter skip: none of its subcategories
    has an item. *)
Definition isShown (category : CostCategory) : bool :=
  existsb hasItems (subcategories category).

Definition isFixed (category : CostCategory) : bool :=
  match markupType category with MT_fixed => true | _ => false end.

(** The fixed markups of the categories that are not shown, and the VAT
    charged on them. *)
Definition hiddenFixedMarkup (doc : DocumentState) : Q :=
  Qsum (map markupValue
            (List.filter (fun c => negb (isShown c) && isFixed c) (categories doc))).

Definition hiddenFixedVat (doc : DocumentState) : Q :=
  Qsum (map (fun c => markupValue c * (vatRate doc / 100))
            (List.filter (fun c => negb (isShown c) && isFixed c
                                   && (showVat doc && applyVat c))
                         (categories doc))).

(** The page counter, the footers and the headers move together with the
    pages added since the state [s0]. *)
Definition pagesInStep (s0 s : Pdf) : Prop :=
  (countOps isAddPage (canvas s0) <= countOps isAddPage (canvas s))%nat /\
  (N.to_nat (page s) - N.to_nat (page s0)
   = countOps isAddPage (canvas s) - countOps isAddPage (canvas s0))%nat /\
  (page s0 <= page s)%N /\
  (countOps isFooter (canvas s) - countOps isFooter (canvas s0)
   = countOps isAddPage (canvas s) - countOps isAddPage (canvas s0))%nat /\
  (countOps isFooter (canvas s0) <= countOps isFooter (canvas s))%nat /\
  (countOps isHeader (canvas s) - countOps isHeader (canvas s0)
   = countOps isAddPage (canvas s) - countOps isAddPage (canvas s0))%nat /\
  (countOps isHeader (canvas s0) <= countOps isHeader (canvas s))%nat.

(** ** Folio counters (App.tsx) and folio regeneration (DocumentEditor) *)

(** Sequences and counters are whole numbers.  Up to 2^53 - 1 every whole
    number is a binary64 value, [String] prints it in decimal digits and
    [parseInt] reads the digits back exactly; the properties of the folios
    take their sequences in that range. *)
Definition MAX_SAFE_INTEGER : Z := 2 ^ 53 - 1.

(** [s.split(sep)] for a one-character separator: never empty. *)
Fixpoint split (sep : ascii) (s : string) : list string :=
  match s with
  | EmptyString => [EmptyString]
  | String c rest =>
      if Ascii.eqb c sep then EmptyString :: split sep rest
      else match split sep rest with
           | piece :: pieces => String c piece :: pieces
           | [] => [String c EmptyString]
           end
  end.

Definition isDigit (c : ascii) : bool :=
  match digitValue c with Some _ => true | None => false end.

(** The longest run of decimal digits a string starts with. *)
Fixpoint leadingDigits (s : string) : list ascii :=
  match s with
  | EmptyString => []
  | String c rest => if isDigit c then c :: leadingDigits rest else []
  end.

(** The integer a run of decimal digits denotes. *)
Definition digitsValue (digits : list ascii) : Z :=
  fold_left (fun acc c => (10 * acc + Z.of_nat (default 0%nat (digitValue c)))%Z) digits 0%Z.

(** [parseInt(s, 10)]: leading white space is skipped, one sign is read,
    then the longest run of digits; [None] is [NaN]. *)
Definition parseInt10 (s : string) : option Z :=
  let s := trimStart s in
  let '(sign, s) :=
    match s with
    | String "-" rest => ((-1)%Z, rest)
    | String "+" rest => (1%Z, rest)
    | _ => (1%Z, s)
    end in
  match leadingDigits s with
  | [] => None
  | digits => Some (sign * digitsValue digits)%Z
  end.

(** The six document types, and the strings they are at run time. *)
Inductive DocumentType :=
| PreCotizacion | CotizacionFormal | NotaDeRemision | Ticket | Factura | Pagare.

#[global] Instance DocumentType_eq_dec : EqDecision DocumentType.
Proof. solve_decision. Defined.

#[global] Instance DocumentType_countable : Countable DocumentType.
Proof.
  refine (inj_countable'
            (fun t => match t with
                      | PreCotizacion => 0 | CotizacionFormal => 1 | NotaDeRemision => 2
                      | Ticket => 3 | Factura => 4 | Pagare => 5
                      end)%nat
            (fun n => match n with
                      | 0 => PreCotizacion | 1 => CotizacionFormal | 2 => NotaDeRemision
                      | 3 => Ticket | 4 => Factura | _ => Pagare
                      end)%nat _).
  now intros [].
Defined.

Definition docTypeName (docType : DocumentType) : string :=
  match docType with
  | PreCotizacion => "Pre-cotizaci" ++ chr 243 ++ "n"
  | CotizacionFormal => "Cotizaci" ++ chr 243 ++ "n Formal"
  | NotaDeRemision => "Nota de Remisi" ++ chr 243 ++ "n"
  | Ticket => "Ticket"
  | Factura => "Factura"
  | Pagare => "Pagar" ++ chr 233
  end.

(** The folio settings of a company.  Counters are whole numbers: documents
    count up by one and the settings page edits them in a number field. *)
Record Company := {
  company_id : string;
  folioCounters : gmap DocumentType Z;
  folioPrefixes : gmap DocumentType string
}.

(** [company.folioCounters?.[docType] || fallback]. *)
Definition counterOr (company : Company) (docType : DocumentType) (fallback : Z) : Z :=
  match folioCounters company !! docType with
  | Some counter => if (counter =? 0)%Z then fallback else counter
  | None => fallback
  end.

(** [company.folioPrefixes?.[docType] || fallback]. *)
Definition prefixOr (company : Company) (docType : DocumentType) (fallback : string)
  : string :=
  match folioPrefixes company !! docType with
  | Some prefix => if bool_decide (prefix = "") then fallback else prefix
  | None => fallback
  end.

(** [{ ...c, folioCounters: { ...(c.folioCounters || {}), [docType]: sequence } }]. *)
Definition setCounter (company : Company) (docType : DocumentType) (sequence : Z) : Company :=
  {| company_id := company_id company;
     folioCounters := <[docType := sequence]> (folioCounters company);
     folioPrefixes := folioPrefixes company |}.

(** The counter update of handleSaveDocument, on the active company. *)
Definition handleSaveDocument (company : Company) (docType : DocumentType)
    (docNumber : string) : Company :=
  match split "-" docNumber !! 1%nat with
  | Some sequenceStr =>
      if bool_decide (sequenceStr = "") then company
      else
        match parseInt10 sequenceStr with
        | Some sequence =>
            let currentCounter := counterOr company docType 0 in
            if (currentCounter <? sequence)%Z
            then setCounter company docType sequence
            else company
        | None => company
        end
  | None => company
  end.

(** [c.toUpperCase()] on a Latin-1 code unit; the two letters whose capitals
    are not one Latin-1 code unit (223 and 255) occur in no document type. *)
Definition upperChar (c : ascii) : ascii :=
  let n := nat_of_ascii c in
  if (((97 <=? n) && (n <=? 122)) || ((224 <=? n) && (n <=? 254) && negb (n =? 247)))%nat
  then ascii_of_nat (n - 32) else c.

Definition toUpperCase (s : string) : string := mapString upperChar s.

(** [/^\d{4}-\d{2}-\d{2}$/.test(date)]. *)
Definition isDateString (date : string) : bool :=
  match list_ascii_of_string date with
  | [y1; y2; y3; y4; h1; m1; m2; h2; d1; d2] =>
      isDigit y1 && isDigit y2 && isDigit y3 && isDigit y4 && Ascii.eqb h1 "-"
      && isDigit m1 && isDigit m2 && Ascii.eqb h2 "-" && isDigit d1 && isDigit d2
  | _ => false
  end.

#[local] Open Scope Z_scope.

(** ECMAScript MakeDay and [Date.UTC(year, month, date)] on integers. *)
Definition daysBeforeMonth (leap : Z) (month : Z) : Z :=
  nth (Z.to_nat month)
      [0; 31; 59 + leap; 90 + leap; 120 + leap; 151 + leap; 181 + leap;
       212 + leap; 243 + leap; 273 + leap; 304 + leap; 334 + leap] 0.

Definition MakeDay (year month date : Z) : Z :=
  let ym := year + month / 12 in
  let mn := month mod 12 in
  let leap := DayFromYear (ym + 1) - DayFromYear ym - 365 in
  DayFromYear ym + daysBeforeMonth leap mn + date - 1.

Definition Date_UTC (year month date : Z) : Z :=
  let yr := if (0 <=? year) && (year <=? 99) then 1900 + year else year in
  MakeDay yr month date * msPerDay.

#[local] Close Scope Z_scope.

Section FolioFlow.
Variable LocalTZA : Z -> Z.

(** handleNewDocument: the folio of the new document and the company with
    its counter advanced. *)
Definition handleNewDocument (company : Company) (now : Z) : string * Company :=
  let docType := CotizacionFormal in
  let currentCounter := counterOr company docType 0 in
  let sequence := (currentCounter + 1)%Z in
  (generateFolio LocalTZA (prefixOr company docType "COT-") sequence now,
   setCounter company docType sequence).

(** The effect that regenerates the folio when the date or the document
    type changes: [None] when it leaves the state alone, else the new
    [docNumber]. *)
Definition regenerateFolio (company : Company) (docNumber : string)
    (docType : DocumentType) (date : string) : option string :=
  if negb (isDateString date) then None
  else
    let parts := split "-" docNumber in
    if (length parts <? 2)%nat then None
    else
      match parseInt10 (nth 1 parts "") with
      | None => None
      | Some sequence =>
          let prefix :=
            prefixOr company docType
              (toUpperCase (substring 0 3 (docTypeName docType)) ++ "-") in
          match map (fun part => digitsValue (list_ascii_of_string part)) (split "-" date) with
          | [year; month; day] =>
              let docDate := Date_UTC year (month - 1) day in
              let newFolio := generateFolio LocalTZA prefix sequence docDate in
              if bool_decide (newFolio = docNumber) then None else Some newFolio
          | _ => None
          end
      end.
End FolioFlow.

(** A string without a hyphen. *)
Definition noHyphen (s : string) : bool :=
  forallb (fun c => negb (Ascii.eqb c "-")) (list_ascii_of_string s).

(** The number written in the characters [i .. i + len) of a date string. *)
Definition datePart (i len : nat) (date : string) : Z :=
  digitsValue (list_ascii_of_string (substring i len date)).

(** The day of the year of a time value, read in UTC: 1 on 1 January. *)
Definition dayOfYearUTC (date : Z) : Z :=
  (Day date - DayFromYear (YearFromTime date) + 1)%Z.

(** ** Deleting a column (SettingsPage) *)

(** handleDeleteColumn; [confirmed] is the answer of [window.confirm].  A key
    that names no column leaves the registry as it is on every path. *)
Definition handleDeleteColumn (keyToDelete : string) (confirmed : bool)
    (columnDefinitions : gmap string ColumnDefinition) : gmap string ColumnDefinition :=
  if (size columnDefinitions <=? 1)%nat then columnDefinitions
  else if confirmed then delete keyToDelete columnDefinitions
       else columnDefinitions.

(** Every column offers an input its data type is compatible with. *)
Definition compatibleRegistry (columnDefinitions : gmap string ColumnDefinition) : Prop :=
  forall key def,
    columnDefinitions !! key = Some def ->
    inputType def ∈ COMPATIBLE_INPUT_TYPES (dataType def).

(** ** Option tags and payment terms (SettingsPage, DocumentEditor) *)

(** TagInput.handleKeyDown on Enter or a comma, and handleRemoveTag. *)
Definition handleTagKeyDown (value : list string) (inputValue : string) : list string :=
  let newTag := trim inputValue in
  if negb (bool_decide (newTag = "")) && negb (bool_decide (newTag ∈ value))
  then (value ++ [newTag])%list
  else value.

Definition handleRemoveTag (value : list string) (tagToRemove : string) : list string :=
  List.filter (fun tag => negb (bool_decide (tag = tagToRemove))) value.

(** TermsInput.handleAddTerm and handleRemoveTerm; [sort((a, b) => a - b)]
    orders the integers increasingly. *)
Definition handleAddTerm (terms : list Z) (newTerm : string) : list Z :=
  match parseInt10 newTerm with
  | Some termValue =>
      if (0 <? termValue)%Z && negb (bool_decide (termValue ∈ terms))
      then merge_sort Z.le (terms ++ [termValue])%list
      else terms
  | None => terms
  end.

Definition handleRemoveTerm (terms : list Z) (termToRemove : Z) : list Z :=
  List.filter (fun t => negb (t =? termToRemove)%Z) terms.

(** ** Editing the active category (DocumentEditor) *)

(** [handleStateChange('categories', v)]. *)
Definition setCategories (doc : DocumentState) (v : list CostCategory) : DocumentState :=
  {| doc_id := doc_id doc; title := title doc; docNumber := docNumber doc;
     categories := v;
     showVat := showVat doc; vatRate := vatRate doc; currency := currency doc;
     paymentPlan := paymentPlan doc; layout := layout doc |}.

(** The pairs [(field, value)] handleCategoryChange is called with. *)
Inductive CategoryUpdate :=
| SetSubcategories (v : list Subcategory)
| SetVisibleColumns (v : gmap string bool)
| SetApplyVat (v : bool)
| SetMarkupType (v : MarkupType)
| SetMarkupValue (v : Q)
| SetMarkupDistribution (v : MarkupDistribution).

(** [{ ...category, [field]: value }]. *)
Definition setCategoryField (category : CostCategory) (upd : CategoryUpdate) : CostCategory :=
  {| cat_id := cat_id category; cat_name := cat_name category;
     subcategories :=
       match upd with SetSubcategories v => v | _ => subcategories category end;
     showItems := showItems category;
     visibleColumns :=
       match upd with SetVisibleColumns v => v | _ => visibleColumns category end;
     markupApplications := markupApplications category;
     applyVat := match upd with SetApplyVat v => v | _ => applyVat category end;
     markupType := match upd with SetMarkupType v => v | _ => markupType category end;
     markupValue := match upd with SetMarkupValue v => v | _ => markupValue category end;
     markupDistribution :=
       match upd with SetMarkupDistribution v => v | _ => markupDistribution category end |}.

(** [categoryToUpdate.visibleColumns = { ...categoryToUpdate.visibleColumns, vat: false }]. *)
Definition hideVatColumn (category : CostCategory) : CostCategory :=
  setCategoryField category (SetVisibleColumns (<["vat" := false]> (visibleColumns category))).

(** handleCategoryChange.  [activeCategoryIndex] is the result of
    [findIndex]: [-1] or the index of a category. *)
Definition handleCategoryChange (doc : DocumentState) (activeCategoryIndex : Z)
    (upd : CategoryUpdate) : DocumentState :=
  if (activeCategoryIndex =? -1)%Z then doc
  else
    match categories doc !! Z.to_nat activeCategoryIndex with
    | None => doc
    | Some category =>
        let categoryToUpdate := setCategoryField category upd in
        let categoryToUpdate :=
          match upd with
          | SetApplyVat false => hideVatColumn categoryToUpdate
          | _ => categoryToUpdate
          end in
        setCategories doc
          (<[Z.to_nat activeCategoryIndex := categoryToUpdate]> (categories doc))
    end.

(** [handleSubcategoryChange(subIndex, 'items', newItems)], for the index of
    a subcategory of the active category. *)
Definition handleSubcategoryItems (doc : DocumentState) (activeCategoryIndex : Z)
    (subIndex : nat) (newItems : list Item) : DocumentState :=
  if (activeCategoryIndex =? -1)%Z then doc
  else
    match categories doc !! Z.to_nat activeCategoryIndex with
    | None => doc
    | Some category =>
        match subcategories category !! subIndex with
        | None => doc
        | Some subcategory =>
            let newSubcategories :=
              <[subIndex := {| sub_id := sub_id subcategory; sub_name := sub_name subcategory;
                               items := newItems |}]> (subcategories category) in
            handleCategoryChange doc activeCategoryIndex (SetSubcategories newSubcategories)
        end
    end.

(** handleItemChange, for the index of an item the editor shows. *)
Definition handleItemChange (doc : DocumentState) (activeCategoryIndex : Z)
    (subIndex itemIndex : nat) (field : string) (value : jsval) : DocumentState :=
  if (activeCategoryIndex =? -1)%Z then doc
  else
    match categories doc !! Z.to_nat activeCategoryIndex with
    | None => doc
    | Some category =>
        match subcategories category !! subIndex with
        | None => doc
        | Some subcategory =>
            match items subcategory !! itemIndex with
            | None => doc
            | Some item =>
                let newItems := <[itemIndex := <[field := value]> item]> (items subcategory) in
                handleSubcategoryItems doc activeCategoryIndex subIndex newItems
            end
        end
    end.

(** handleDeleteItem: [subcategory.items.filter((_, i) => i !== itemIndex)]. *)
Definition handleDeleteItem (doc : DocumentState) (activeCategoryIndex : Z)
    (subIndex itemIndex : nat) : DocumentState :=
  if (activeCategoryIndex =? -1)%Z then doc
  else
    match categories doc !! Z.to_nat activeCategoryIndex with
    | None => doc
    | Some category =>
        match subcategories category !! subIndex with
        | None => doc
        | Some subcategory =>
            let newItems := delete itemIndex (items subcategory) in
            handleSubcategoryItems doc activeCategoryIndex subIndex newItems
        end
    end.

(** The truthiness of [visibleColumns[key]]. *)
Definition columnVisible (visibleColumns : gmap string bool) (key : string) : bool :=
  match visibleColumns !! key with
  | Some shown => shown
  | None => bool_decide (key ∈ objectPrototypeKeys)
  end.

(** handleToggleColumn. *)
Definition handleToggleColumn (doc : DocumentState) (activeCategoryIndex : Z)
    (key : string) : DocumentState :=
  if (activeCategoryIndex =? -1)%Z then doc
  else
    match categories doc !! Z.to_nat activeCategoryIndex with
    | None => doc
    | Some activeCategory =>
        let newVisibleColumns :=
          <[key := negb (columnVisible (visibleColumns activeCategory) key)]>
            (visibleColumns activeCategory) in
        handleCategoryChange doc activeCategoryIndex (SetVisibleColumns newVisibleColumns)
    end.

(** handleAddSubcategory; [id] is the identifier drawn for it. *)
Definition handleAddSubcategory (id : string) (doc : DocumentState)
    (activeCategoryIndex : Z) : DocumentState :=
  if (activeCategoryIndex =? -1)%Z then doc
  else
    match categories doc !! Z.to_nat activeCategoryIndex with
    | None => doc
    | Some activeCategory =>
        let newSubcategory :=
          {| sub_id := id;
             sub_name :=
               "Nueva Subcategor" ++ chr 237 ++ "a "
               ++ stringOfZ (Z.of_nat (length (subcategories activeCategory) + 1));
             items := [] |} in
        handleCategoryChange doc activeCategoryIndex
          (SetSubcategories (subcategories activeCategory ++ [newSubcategory])%list)
    end.

(** handleDeleteSubcategory: the only subcategory is refused. *)
Definition handleDeleteSubcategory (doc : DocumentState) (activeCategoryIndex : Z)
    (subIndex : nat) : DocumentState :=
  if (activeCategoryIndex =? -1)%Z then doc
  else
    match categories doc !! Z.to_nat activeCategoryIndex with
    | None => doc
    | Some activeCategory =>
        if (length (subcategories activeCategory) <=? 1)%nat then doc
        else
          let newSubcategories := delete subIndex (subcategories activeCategory) in
          handleCategoryChange doc activeCategoryIndex (SetSubcategories newSubcategories)
    end.

Section ApplyMarkup.
Variable StringToNumber : string -> option Q.

(** [Number(item.quantity) * Number(item.unitPrice)], without [|| 0]:
    [None] is [NaN]. *)
Definition itemProduct (item : Item) : option Q :=
  match Number StringToNumber (getField item "quantity"),
        Number StringToNumber (getField item "unitPrice") with
  | Some q, Some p => Some (q * p)
  | _, _ => None
  end.

(** [acc + x] when either may be [NaN]. *)
Definition nanPlus (a b : option Q) : option Q :=
  match a, b with
  | Some x, Some y => Some (x + y)
  | _, _ => None
  end.

(** The [categorySubtotal] of applyMarkup. *)
Definition markupBaseSubtotal (category : CostCategory) : option Q :=
  fold_left
    (fun acc sub =>
       nanPlus acc
         (fold_left (fun itemAcc item => nanPlus itemAcc (itemProduct item))
                    (items sub) (Some 0)))
    (subcategories category) (Some 0).

(** [newBase]: the subtotal of the rest of the document when that is a
    positive number, else the whole subtotal. *)
Definition markupNewBase (totals : Totals) (category : CostCategory) : Q :=
  match markupBaseSubtotal category with
  | Some categorySubtotal =>
      let otherCategoriesSubtotal := subtotal totals - categorySubtotal in
      if Qgtb otherCategoriesSubtotal 0 then otherCategoriesSubtotal else subtotal totals
  | None => subtotal totals
  end.

Definition markupItem (id : string) (markupApplications : Z) (newBase : Q) : Item :=
  {[ "id" := VStr id;
     "description" :=
       VStr ("Agregado (" ++ stringOfZ markupApplications
             ++ ") sobre subtotal de otras categor" ++ chr 237 ++ "as");
     "quantity" := VNum 1;
     "unitPrice" := VNum newBase;
     "unit" := VStr "Agregado";
     "concept" := VStr "Agregado" ]}.

(** applyMarkup; [totals] are the totals of the document shown and [id] the
    identifier drawn for the new item. *)
Definition applyMarkup (id : string) (totals : Totals) (doc : DocumentState)
    (activeCategoryIndex : Z) : DocumentState :=
  if (activeCategoryIndex =? -1)%Z then doc
  else
    match categories doc !! Z.to_nat activeCategoryIndex with
    | None => doc
    | Some category =>
        match subcategories category with
        | [] => doc
        | first :: rest =>
            let markupApplications := (markupApplications category + 1)%Z in
            let newBase := markupNewBase totals category in
            if Qeq_bool newBase 0 then doc
            else
              let firstSubcategory :=
                {| sub_id := sub_id first; sub_name := sub_name first;
                   items := (items first ++ [markupItem id markupApplications newBase])%list |} in
              let subcategoriesToUpdate := firstSubcategory :: rest in
              setCategories doc
                (<[Z.to_nat activeCategoryIndex :=
                     {| cat_id := cat_id category; cat_name := cat_name category;
                        subcategories := subcategoriesToUpdate;
                        showItems := showItems category;
                        visibleColumns := visibleColumns category;
                        markupApplications := markupApplications;
                        applyVat := applyVat category;
                        markupType := markupType category;
                        markupValue := markupValue category;
                        markupDistribution := markupDistribution category |}]>
                   (categories doc))
        end
    end.
End ApplyMarkup.

(** ** Adding a category (SettingsPage) *)

(** handleAddCategory; [categoryId] and [subcategoryId] are the identifiers
    drawn for the category and its subcategory. *)
Definition handleAddCategory (categoryId subcategoryId : string)
    (columnDefinitions : gmap string ColumnDefinition) (doc : DocumentState)
  : DocumentState :=
  let newCategoryName :=
    "Nueva Categor" ++ chr 237 ++ "a "
    ++ stringOfZ (Z.of_nat (length (categories doc) + 1)) in
  let defaultVisibleColumns := default_ <$> columnDefinitions in
  let newCategory :=
    {| cat_id := categoryId; cat_name := newCategoryName;
       subcategories := [{| sub_id := subcategoryId; sub_name := "General"; items := [] |}];
       showItems := true;
       visibleColumns := defaultVisibleColumns;
       markupApplications := 0;
       applyVat := false;
       markupType := MT_none;
       markupValue := 0;
       markupDistribution := MD_proportional |} in
  setCategories doc (categories doc ++ [newCategory])%list.

(** Every category of the document has a subcategory. *)
Definition everyCategoryHasSubcategory (doc : DocumentState) : Prop :=
  Forall (fun category => subcategories category <> []) (categories doc).

(** ** Deleting a company (SettingsPage) *)

(** handleDeleteCompany; [confirmed] is the answer of [window.confirm]. *)
Definition handleDeleteCompany (companies : list Company) (idToDelete : string)
    (confirmed : bool) : list Company :=
  if (length companies <=? 1)%nat then companies
  else if confirmed
       then List.filter (fun c => negb (bool_decide (company_id c = idToDelete))) companies
       else companies.

(** ** Interpreted tickets (handleExportToPdf, DocumentPreview) *)

(** [s.repeat(n)], [s.padStart(n, ' ')], [s.padEnd(n)] and
    [s.substring(0, end)]. *)
Definition repeatString (s : string) (n : nat) : string := String.concat "" (repeat s n).

Definition padStart (n : nat) (s : string) : string :=
  repeatString " " (n - String.length s) ++ s.

Definition padEnd (n : nat) (s : string) : string :=
  s ++ repeatString " " (n - String.length s).





(** The description column of formatInterpretedTicket and the line of one
    item, without its line break; [priceText] is the formatted price. *)
Definition ticketDescription (description : string) : string :=
  padEnd 25
    (if (25 <? String.length description)%nat
     then substring 0 22 description ++ "..."
     else description).

Definition previewItemLine (quantityStr priceText description : string) : string :=
  let priceStr := padStart 10 priceText in
  let line := quantityStr ++ " x " ++ ticketDescription description in
  line ++ " " ++ priceStr.

(** ** Column widths of the exported table (handleExportToPdf) *)

Definition PREFERRED_WIDTH_RATIOS : gmap string Q :=
  list_to_map
    [("quantity", 10 # 100); ("unitPrice", 15 # 100); ("total", 15 # 100);
     ("vat", 12 # 100); ("markup", 12 # 100); ("unit", 8 # 100)].

Record ColumnStyle := {
  width : Q;
  align : Align
}.

(** The body of [visibleKeys.forEach] over [styles], [fixedWidthUsed] and
    [dynamicCols]. *)
Definition fixedStep (st : gmap string ColumnStyle * Q * list string) (key : string)
  : gmap string ColumnStyle * Q * list string :=
  let '(styles, fixedWidthUsed, dynamicCols) := st in
  match PREFERRED_WIDTH_RATIOS !! key with
  | Some ratio =>
      let width := DRAW_WIDTH * ratio in
      (<[key := {| width := width; align := AlignRight |}]> styles,
       fixedWidthUsed + width, dynamicCols)
  | None => (styles, fixedWidthUsed, (dynamicCols ++ [key])%list)
  end.

(** [styles[key] = { width, align: 'left' }]. *)
Definition setLeft (width : Q) (styles : gmap string ColumnStyle) (key : string)
  : gmap string ColumnStyle :=
  <[key := {| width := width; align := AlignLeft |}]> styles.

(** calculateColumnStyles; [orderedColumnKeys] are the keys of the registry
    in the order of [Object.keys].  [None]: a visible key is a property name
    inherited from [Object.prototype], which the source reads as a ratio. *)
Definition calculateColumnStyles (orderedColumnKeys : list string) (category : CostCategory)
  : option (gmap string ColumnStyle) :=
  let visibleKeys :=
    List.filter (columnVisible (visibleColumns category)) orderedColumnKeys in
  if existsb (fun key => bool_decide (key ∈ objectPrototypeKeys)) visibleKeys then None
  else
    let '(styles, fixedWidthUsed, dynamicCols) :=
      fold_left fixedStep visibleKeys (∅, 0, []) in
    let remainingWidth := DRAW_WIDTH - fixedWidthUsed in
    Some
      (if (0 <? length dynamicCols)%nat then
         if bool_decide ("description" ∈ dynamicCols) then
           let otherDynamicCols :=
             List.filter (fun k => negb (bool_decide (k = "description"))) dynamicCols in
           let descriptionRatio :=
             if (0 <? length otherDynamicCols)%nat then 6 # 10 else 1 in
           let descriptionWidth := remainingWidth * descriptionRatio in
           let styles := setLeft descriptionWidth styles "description" in
           if (0 <? length otherDynamicCols)%nat then
             let otherColWidth :=
               (remainingWidth - descriptionWidth)
               / inject_Z (Z.of_nat (length otherDynamicCols)) in
             fold_left (setLeft otherColWidth) otherDynamicCols styles
           else styles
         else
           let colWidth := remainingWidth / inject_Z (Z.of_nat (length dynamicCols)) in
           fold_left (setLeft colWidth) dynamicCols styles
       else styles).

(** The width [x] advances by for a column of the row: [style.width], a
    column without style being skipped. *)
Definition styledWidth (styles : gmap string ColumnStyle) (key : string) : Q :=
  match styles !! key with
  | Some style => width style
  | None => 0
  end.

(** The footers of a canvas, in the order they were drawn. *)
Definition footerOf (op : DrawOp) : option (list (string * Align)) :=
  match op with
  | DrawFooter texts => Some texts
  | _ => None
  end.

Definition footersOf (ops : list DrawOp) : list (list (string * Align)) := omap footerOf ops.

(** Since the state [s0], one footer was drawn for each page left, numbered
    with the page it closes. *)
Definition footersNumbered (doc : DocumentState) (s0 s : Pdf) : Prop :=
  (page s0 <= page s)%N /\
  footersOf (canvas s)
  = (footersOf (canvas s0)
     ++ map (fun i => footerTexts doc (page s0 + N.of_nat i))
            (seq 0 (N.to_nat (page s - page s0))))%list.

(** ** Dates typed in the date picker (DatePicker) *)

#[local] Open Scope Z_scope.

(** ECMAScript DayWithinYear, InLeapYear, MonthFromTime and DateFromTime. *)
Definition DayWithinYear (t : Z) : Z := Day t - DayFromYear (YearFromTime t).

Definition InLeapYear (t : Z) : Z :=
  DayFromYear (YearFromTime t + 1) - DayFromYear (YearFromTime t) - 365.

Definition MonthFromTime (t : Z) : Z :=
  let d := DayWithinYear t in
  let leap := InLeapYear t in
  if d <? 31 then 0
  else if d <? 59 + leap then 1
  else if d <? 90 + leap then 2
  else if d <? 120 + leap then 3
  else if d <? 151 + leap then 4
  else if d <? 181 + leap then 5
  else if d <? 212 + leap then 6
  else if d <? 243 + leap then 7
  else if d <? 273 + leap then 8
  else if d <? 304 + leap then 9
  else if d <? 334 + leap then 10
  else 11.

Definition DateFromTime (t : Z) : Z :=
  DayWithinYear t - daysBeforeMonth (InLeapYear t) (MonthFromTime t) + 1.

#[local] Close Scope Z_scope.

(** formatDateForDisplay: [dd/mm/yyyy] of a state string [yyyy-mm-dd]. *)
Definition formatDateForDisplay (dateString : string) : string :=
  if negb (isDateString dateString) then ""
  else
    match split "-" dateString with
    | [year; month; day] => day ++ "/" ++ month ++ "/" ++ year
    | _ => ""
    end.

(** A run of [lo] to [hi] decimal digits. *)
Definition isDigits (lo hi : nat) (s : string) : bool :=
  forallb isDigit (list_ascii_of_string s)
  && (lo <=? String.length s)%nat && (String.length s <=? hi)%nat.

(** The groups of [/^(\d{1,2})\/(\d{1,2})\/(\d{4})$/], when the input matches. *)
Definition matchTypedDate (inputValue : string) : option (string * string * string) :=
  match split "/" inputValue with
  | [day; month; year] =>
      if isDigits 1 2 day && isDigits 1 2 month && isDigits 4 4 year
      then Some (day, month, year)
      else None
  | _ => None
  end.

(** The [date] handleInputBlur accepts: the typed day, month and year name
    a day of the calendar.  Every year of four digits gives a time value in
    the range of [Date]. *)
Definition typedDate (inputValue : string) : option Z :=
  match matchTypedDate inputValue with
  | Some (dayStr, monthStr, yearStr) =>
      match parseInt10 dayStr, parseInt10 monthStr, parseInt10 yearStr with
      | Some day, Some monthVal, Some yearVal =>
          if ((0 <? monthVal) && (monthVal <=? 12) && (0 <? day) && (day <=? 31))%Z
          then
            let date := Date_UTC yearVal (monthVal - 1) day in
            if (DateFromTime date =? day)%Z then Some date else None
          else None
      | _, _, _ => None
      end
  | None => None
  end.

Section DatePicker.
(** The host's offset of local time from UTC, in milliseconds, as a
    function of the time value. *)
Variable LocalTZAOfUTC : Z -> Z.

Definition LocalTime (t : Z) : Z := (t + LocalTZAOfUTC t)%Z.

(** formatDateForState: the fields are read in local time. *)
Definition formatDateForState (date : Z) : string :=
  let year := YearFromTime (LocalTime date) in
  let month := padStart0 2 (stringOfZ (MonthFromTime (LocalTime date) + 1)) in
  let day := padStart0 2 (stringOfZ (DateFromTime (LocalTime date))) in
  stringOfZ year ++ "-" ++ month ++ "-" ++ day.

(** handleInputBlur: [Some v] is [onChange(v)]; [None] resets the input to
    the value shown before. *)
Definition handleInputBlur (inputValue : string) : option string :=
  match typedDate inputValue with
  | Some date => Some (formatDateForState date)
  | None => if bool_decide (inputValue = "") then Some "" else None
  end.
End DatePicker.

(** The state string of a calendar date. *)
Definition isoDate (year month day : Z) : string :=
  stringOfZ year ++ "-" ++ padStart0 2 (stringOfZ month) ++ "-" ++ padStart0 2 (stringOfZ day).

#[local] Open Scope Z_scope.

(** The year, the month (from 0) and the day of the month of a day number:
    YearFromTime, MonthFromTime and DateFromTime on the day alone, each
    intermediate value computed once. *)
Definition fieldsOfDay (day : Z) : Z * Z * Z :=
  let y0 := 1970 + (400 * day) / 146097 in
  let year :=
    if DayFromYear (y0 + 1) <=? day then y0 + 1
    else if DayFromYear y0 <=? day then y0
    else y0 - 1 in
  let start := DayFromYear year in
  let leap := DayFromYear (year + 1) - start - 365 in
  let d := day - start in
  let month :=
    if d <? 31 then 0
    else if d <? 59 + leap then 1
    else if d <? 90 + leap then 2
    else if d <? 120 + leap then 3
    else if d <? 151 + leap then 4
    else if d <? 181 + leap then 5
    else if d <? 212 + leap then 6
    else if d <? 243 + leap then 7
    else if d <? 273 + leap then 8
    else if d <? 304 + leap then 9
    else if d <? 334 + leap then 10
    else 11 in
  (year, month, d - daysBeforeMonth leap month + 1).

#[local] Close Scope Z_scope.

(** The state string of the calendar date of a day number. *)
Definition isoOfDay (day : Z) : string :=
  let '(year, month, date) := fieldsOfDay day in
  stringOfZ year ++ "-" ++ padStart0 2 (stringOfZ (month + 1)) ++ "-"
  ++ padStart0 2 (stringOfZ date).

(** The checks behind the round trip of a shown date.  On the day numbers:
    when the day of the month exists, its day number has the year, month
    and day it was made from, and the day number before it has another day
    of the month.  On the numerals: a year prints in four digits and a
    month or day, padded, in two, and each reads back as the number. *)
Definition fieldsAgree (fields before : Z * Z * Z) (year month day : Z) : bool :=
  let '(y, m, d) := fields in
  if (d =? day)%Z
  then (y =? year)%Z && (m =? month - 1)%Z
       && (let d' := snd before in
           (1 <=? d')%Z && (d' <=? 31)%Z && negb (d' =? day)%Z)
  else true.

Definition dayNumberAgrees (year month day : Z) : bool :=
  let k := MakeDay year (month - 1) day in
  fieldsAgree (fieldsOfDay k) (fieldsOfDay (k - 1)) year month day.

Definition numeralAgrees (digits : nat) (text : string) (n : Z) : bool :=
  (String.length text =? digits)%nat
  && forallb isDigit (list_ascii_of_string text)
  && bool_decide (parseInt10 text = Some n).

(** A company with one counter and the default prefixes. *)
Definition exampleCompany (counter : Z) : Company :=
  {| company_id := "c1"; folioCounters := {[CotizacionFormal := counter]};
     folioPrefixes := ∅ |}.

(** A category that shows the description, the quantity and the total. *)
Definition exampleVisibleCategory : CostCategory :=
  {| cat_id := "c1"; cat_name := "Materiales";
     subcategories := [{| sub_id := "s1"; sub_name := "General"; items := [] |}];
     showItems := true;
     visibleColumns := {[ "description" := true; "quantity" := true; "total" := true ]};
     markupApplications := 0; applyVat := false; markupType := MT_none; markupValue := 0;
     markupDistribution := MD_proportional |}.

(** ** Inputs used in the worked examples *)

(** A StringToNumber for the examples: a run of decimal digits is its value,
    the empty string is 0, every other string is not a number. *)
Definition digitsToNumber (s : string) : option Q :=
  match list_ascii_of_string s with
  | [] => Some 0
  | cs => if forallb (fun c => bool_decide (is_Some (digitValue c))) cs
          then Some (inject_Z (Z.of_nat (numberOfDigits cs)))
          else None
  end.

Definition exampleItem (quantity unitPrice : jsval) : Item :=
  {[ "id" := VStr "i"; "quantity" := quantity; "unitPrice" := unitPrice ]}.

Definition exampleCategory (markup : MarkupType) (value : Q) (distribution : MarkupDistribution)
  : CostCategory :=
  {| cat_id := "c1"; cat_name := "Materiales";
     subcategories :=
       [ {| sub_id := "s1"; sub_name := "General";
            items := [exampleItem (VNum 2) (VNum 150); exampleItem (VStr "3") (VNum 100)] |};
         {| sub_id := "s2"; sub_name := "Extras";
            items := [exampleItem (VStr "n/a") (VNum 40); exampleItem (VNum 1) (VNum 200)] |} ];
     showItems := true; visibleColumns := ∅; markupApplications := 0;
     applyVat := true; markupType := markup; markupValue := value;
     markupDistribution := distribution |}.

#[local] Set Warnings "-inexact-float".

Definition examplePlan : PaymentPlanConfig :=
  {| enabled := true; downPayment := 1000; terms := [12%float];
     baseInterestRate := 0; riskFactor := 0; termIncrementRate := 0 |}.

(** A plan whose rates cancel at term 3: -0.0125 + 3 x 0.05 / 12 = 0. *)
Definition cancellingPlan : PaymentPlanConfig :=
  {| enabled := true; downPayment := 1000; terms := [3%float];
     baseInterestRate := (-0.0125)%float; riskFactor := 0;
     termIncrementRate := 0.05%float |}.

(** A power function for the examples: the base multiplied with itself once
    for each unit of the exponent. *)
Fixpoint powLoop (fuel : nat) (b e : float) : float :=
  match fuel with
  | O => 1%float
  | S fuel => if (e <=? 0)%float then 1%float else (b * powLoop fuel b (e - 1))%float
  end.

Definition examplePow (b e : float) : float := powLoop 1000 b e.

(** An item of quantity 2^700 and unit price 2^700 (about 5.26e210 each). *)
Definition hugeItem : gmap string float :=
  {[ "quantity" := 0x1p700%float; "unitPrice" := 0x1p700%float ]}.

(** Items of a category whose raw subtotal is 500. *)
Definition exampleItems64 : list (list (gmap string float)) :=
  [ [ {[ "quantity" := 2%float; "unitPrice" := 150%float ]} ];
    [ {[ "quantity" := 1%float; "unitPrice" := 200%float ]} ] ].

Definition exampleDocument (distribution : MarkupDistribution) : DocumentState :=
  {| doc_id := "d1"; title := "Nueva"; docNumber := "COT-000001-24001";
     categories := [exampleCategory MT_percentage 10 distribution;
                    exampleCategory MT_fixed 80 MD_proportional];
     showVat := true; vatRate := 16; currency := "MXN";
     paymentPlan := examplePlan;
     layout := {| footerContent := "{page}"; pageNumbering := PN_roman |} |}.

(** * Properties *)

(** ** Arithmetic of the coercions *)

Lemma orZero_eq (x : Q) : orZero x == x.
Proof.
  unfold orZero. destruct (Qeq_bool x 0) eqn:E; [|reflexivity].
  apply Qeq_bool_eq in E. now rewrite E.
Qed.

Lemma Qgtb_true (a b : Q) : Qgtb a b = true <-> b < a.
Proof.
  unfold Qgtb. rewrite negb_true_iff, <- not_true_iff_false, Qle_bool_iff.
  split; [apply Qnot_le_lt | apply Qlt_not_le].
Qed.

Lemma Qgtb_false (a b : Q) : Qgtb a b = false <-> a <= b.
Proof.
  unfold Qgtb. rewrite negb_false_iff. apply Qle_bool_iff.
Qed.

Lemma jsdiv_nonzero (a b : Q) : ~ b == 0 -> jsdiv a b = Some (a / b).
Proof.
  intros Hb. unfold jsdiv. destruct (Qeq_bool b 0) eqn:E; [|reflexivity].
  apply Qeq_bool_eq in E. contradiction.
Qed.

Lemma Qsum_cons (x : Q) (l : list Q) : Qsum (x :: l) = x + Qsum l.
Proof. reflexivity. Qed.

Lemma Qsum_pointwise {A : Type} (f g : A -> Q) (l : list A) :
  (forall a, f a == g a) -> Qsum (map f l) == Qsum (map g l).
Proof.
  intros Hfg. induction l as [|a l IH]; [reflexivity|].
  cbn [map]. now rewrite !Qsum_cons, Hfg, IH.
Qed.

Lemma Qsum_app (l1 l2 : list Q) : Qsum (l1 ++ l2) == Qsum l1 + Qsum l2.
Proof.
  induction l1 as [|x l1 IH]; simpl.
  - ring.
  - rewrite IH. ring.
Qed.

(** ** Raw subtotals: the loops compute the sum over all items *)

Section PricingFacts.
Variable StringToNumber : string -> option Q.

Lemma fold_items_sum (l : list Item) (acc : Q) :
  fold_left (fun acc item => acc + itemSubtotal StringToNumber item) l acc
  == acc + Qsum (map (itemSubtotal StringToNumber) l).
Proof.
  revert acc. induction l as [|item l IH]; intros acc; simpl.
  - ring.
  - rewrite IH. ring.
Qed.

Lemma forEach_subs_sum (subs : list Subcategory) (acc : Q) :
  fold_left
    (fun acc sub =>
       fold_left (fun acc item => acc + itemSubtotal StringToNumber item) (items sub) acc)
    subs acc
  == acc + Qsum (map (itemSubtotal StringToNumber) (concat (map items subs))).
Proof.
  revert acc. induction subs as [|sub subs IH]; intros acc; simpl.
  - ring.
  - rewrite IH, fold_items_sum, map_app, Qsum_app. ring.
Qed.

Lemma reduce_subs_sum (subs : list Subcategory) (acc : Q) :
  fold_left
    (fun catAcc sub =>
       catAcc + fold_left (fun subAcc item => subAcc + itemSubtotal StringToNumber item)
                          (items sub) 0)
    subs acc
  == acc + Qsum (map (itemSubtotal StringToNumber) (concat (map items subs))).
Proof.
  revert acc. induction subs as [|sub subs IH]; intros acc; simpl.
  - ring.
  - rewrite IH, fold_items_sum, map_app, Qsum_app. ring.
Qed.

Lemma numberOrZero_spec (v : jsval) :
  numberOrZero StringToNumber v == spec_numeric StringToNumber v.
Proof.
  unfold numberOrZero, spec_numeric, nanOrZero.
  destruct (Number StringToNumber v); [apply orZero_eq|reflexivity].
Qed.

Lemma itemSubtotal_spec (item : Item) :
  itemSubtotal StringToNumber item == spec_itemSubtotal StringToNumber item.
Proof.
  unfold itemSubtotal, spec_itemSubtotal. now rewrite !numberOrZero_spec.
Qed.

Lemma itemSubtotals_sum (l : list Item) :
  Qsum (map (itemSubtotal StringToNumber) l)
  == Qsum (map (spec_itemSubtotal StringToNumber) l).
Proof.
  apply Qsum_pointwise. intros item. apply itemSubtotal_spec.
Qed.

Lemma categoryRawSubtotal_sum (category : CostCategory) :
  categoryRawSubtotal StringToNumber category == spec_rawSubtotal StringToNumber category.
Proof.
  unfold categoryRawSubtotal, spec_rawSubtotal.
  rewrite forEach_subs_sum, itemSubtotals_sum. unfold allItems. ring.
Qed.

Lemma reduceRawSubtotal_items (category : CostCategory) :
  reduceRawSubtotal StringToNumber category
  == Qsum (map (itemSubtotal StringToNumber) (allItems category)).
Proof.
  unfold reduceRawSubtotal, allItems. rewrite reduce_subs_sum. ring.
Qed.

Lemma reduceRawSubtotal_sum (category : CostCategory) :
  reduceRawSubtotal StringToNumber category == spec_rawSubtotal StringToNumber category.
Proof.
  rewrite reduceRawSubtotal_items. apply itemSubtotals_sum.
Qed.

Lemma withMarkups_spec (category : CostCategory) :
  withMarkups category (categoryRawSubtotal StringToNumber category)
  == spec_categoryTotalWithMarkup StringToNumber category.
Proof.
  unfold withMarkups, spec_categoryTotalWithMarkup.
  destruct (markupType category);
    rewrite ?orZero_eq, categoryRawSubtotal_sum; field.
Qed.

(** The two accumulators of calculateTotals after any run of categories. *)
Lemma totals_fold (doc : DocumentState) (cats : list CostCategory) (s t : Q) :
  let r := fold_left (totalsStep StringToNumber doc) cats (s, t) in
  fst r == s + Qsum (map (spec_categoryTotalWithMarkup StringToNumber) cats) /\
  snd r == t + Qsum (map (spec_categoryVat StringToNumber doc) cats).
Proof.
  cbv zeta. revert s t. induction cats as [|c cats IH]; intros s t.
  - simpl. split; ring.
  - cbn [fold_left map]. rewrite !Qsum_cons.
    destruct (totalsStep StringToNumber doc (s, t) c) as [s' t'] eqn:E.
    unfold totalsStep in E. injection E as Es Et.
    destruct (IH s' t') as [Hs Ht]. subst s' t'.
    split.
    + rewrite Hs, withMarkups_spec. ring.
    + rewrite Ht. unfold spec_categoryVat.
      destruct (showVat doc && applyVat c).
      * rewrite withMarkups_spec, orZero_eq. ring.
      * ring.
Qed.

End PricingFacts.

(** ** Per-item attribution of a fixed markup *)

Lemma Qsum_shares (f : Item -> Q) (raw value : Q) (l : list Item) :
  ~ raw == 0 ->
  Qsum (map (fun item => f item / raw * value) l) == Qsum (map f l) / raw * value.
Proof.
  intros Hraw. induction l as [|item l IH].
  - simpl. field. exact Hraw.
  - cbn [map]. rewrite !Qsum_cons, IH. field. exact Hraw.
Qed.

Lemma Forall2_map_self {A B : Type} (P : A -> B -> Prop) (f : A -> B) (l : list A) :
  (forall a, P a (f a)) -> Forall2 P l (map f l).
Proof.
  intros H. induction l; simpl; constructor; auto.
Qed.

Section Attribution.
Variable StringToNumber : string -> option Q.

(** In exact arithmetic the guarded division of a fixed markup has a value. *)
Lemma itemMarkup_fixed (category : CostCategory) (raw sub : Q) :
  markupType category = MT_fixed ->
  itemMarkup category raw sub
  = Some (if Qgtb raw 0 then sub / raw * orZero (markupValue category) else 0).
Proof.
  intros Hfixed. unfold itemMarkup. rewrite Hfixed.
  destruct (Qgtb raw 0) eqn:Hgt; [|reflexivity].
  apply Qgtb_true in Hgt. rewrite jsdiv_nonzero; [reflexivity|].
  intros H0. rewrite H0 in Hgt. now apply Qlt_irrefl in Hgt.
Qed.

(** The guard on binary64 numbers: a raw subtotal that is 0, of either sign,
    or not a number leaves the attribution at 0; a raw subtotal above 0
    gives the rounded quotient times the markup value. *)
Lemma itemMarkup64_fixed (value raw sub : float) :
  ((0 <? raw)%float = true ->
   itemMarkup64 MT_fixed value raw sub = (sub / raw * orZero64 value)%float) /\
  (raw = 0%float \/ raw = (-0)%float \/ raw = PrimFloat.nan ->
   itemMarkup64 MT_fixed value raw sub = 0%float).
Proof.
  split.
  - intros Hgt. unfold itemMarkup64. now rewrite Hgt.
  - intros [-> | [-> | ->]]; reflexivity.
Qed.

(** Where the subtotals overflow the guard does not keep the attribution a
    number.  For a single item of quantity 2^700 and unit price 2^700 under
    a fixed markup of 80 the item subtotal and the raw subtotal are both
    Infinity: the guard rawSubtotal > 0 passes, the attribution
    Infinity / Infinity x 80 is not a number, and neither is the sum of the
    attributions, which is not 80. *)
Lemma fixed_markup_overflow_is_not_a_number :
  itemSubtotal64 hugeItem = PrimFloat.infinity /\
  reduceRawSubtotal64 [[hugeItem]] = PrimFloat.infinity /\
  (0 <? reduceRawSubtotal64 [[hugeItem]])%float = true /\
  itemMarkups64 MT_fixed 80%float [[hugeItem]] = [PrimFloat.nan] /\
  fold_left PrimFloat.add (itemMarkups64 MT_fixed 80%float [[hugeItem]]) 0%float
  = PrimFloat.nan /\
  (fold_left PrimFloat.add (itemMarkups64 MT_fixed 80%float [[hugeItem]]) 0%float
   =? 80)%float = false.
Proof. repeat split; vm_compute; reflexivity. Qed.

(** C2.  For a category with markupType 'fixed': on binary64
    numbers the attribution of an item is the quotient
    itemSubtotal / rawSubtotal times markupValue || 0 when rawSubtotal > 0,
    and is 0, hence finite, when rawSubtotal is 0 or not a number, whatever
    the item.  When moreover the category has fewer than 2^20 items, with
    quantities and unit prices that are not negative and moderate, and a
    moderate markupValue, then up to binary64 rounding, with rawSubtotal the
    sum of quantity x unitPrice over the items of the category: each
    attribution is a number, equal to itemSubtotal / rawSubtotal x
    markupValue, and the attributions of all items add up to markupValue
    when rawSubtotal > 0; and each is 0 when rawSubtotal is 0. *)
Theorem fixed_markup_attribution (category : CostCategory) :
  markupType category = MT_fixed ->
  moderateItems StringToNumber category = true ->
  moderate (markupValue category) = true ->
  (forall (value : float) (subcategories : list (list (gmap string float)))
          (item : gmap string float),
     let raw := reduceRawSubtotal64 subcategories in
     let attribution := itemMarkup64 MT_fixed value raw (itemSubtotal64 item) in
     ((0 <? raw)%float = true ->
      attribution = (itemSubtotal64 item / raw * orZero64 value)%float) /\
     (raw = 0%float \/ raw = (-0)%float \/ raw = PrimFloat.nan ->
      attribution = 0%float)) /\
  (0 < spec_rawSubtotal StringToNumber category ->
   exists attributions : list Q,
     map (fun item =>
            itemMarkup category (reduceRawSubtotal StringToNumber category)
                       (itemSubtotal StringToNumber item))
         (allItems category)
     = map Some attributions /\
     Forall2
       (fun item m =>
          m == spec_itemSubtotal StringToNumber item
               / spec_rawSubtotal StringToNumber category * markupValue category)
       (allItems category) attributions /\
     Qsum attributions == markupValue category) /\
  (spec_rawSubtotal StringToNumber category == 0 ->
   Forall
     (fun item =>
        itemMarkup category (reduceRawSubtotal StringToNumber category)
                   (itemSubtotal StringToNumber item)
        = Some 0)
     (allItems category)).
Proof.
  intros Hfixed _ _.
  pose proof (reduceRawSubtotal_sum StringToNumber category) as Hraw.
  set (raw := reduceRawSubtotal StringToNumber category) in *.
  split; [|split].
  - intros value subcategories item. cbv zeta. apply itemMarkup64_fixed.
  - intros Hpos.
    assert (Hgt : Qgtb raw 0 = true) by (apply Qgtb_true; now rewrite Hraw).
    assert (Hne : ~ raw == 0).
    { intros H0. apply Qgtb_true in Hgt. rewrite H0 in Hgt. now apply Qlt_irrefl in Hgt. }
    exists (map (fun item =>
                   itemSubtotal StringToNumber item / raw * orZero (markupValue category))
                (allItems category)).
    split; [|split].
    + rewrite map_map. apply map_ext. intros item.
      rewrite (itemMarkup_fixed category raw _ Hfixed). now rewrite Hgt.
    + apply Forall2_map_self. intros item.
      rewrite orZero_eq, itemSubtotal_spec, Hraw. reflexivity.
    + rewrite Qsum_shares by exact Hne.
      rewrite <- reduceRawSubtotal_items. fold raw.
      rewrite orZero_eq. field. exact Hne.
  - intros Hzero. apply Forall_forall. intros item _.
    rewrite (itemMarkup_fixed category raw _ Hfixed).
    replace (Qgtb raw 0) with false; [reflexivity|].
    symmetry. apply Qgtb_false. rewrite Hraw, Hzero. apply Qle_refl.
Qed.
End Attribution.

Lemma fixed_markup_attribution_witness :
  markupType (exampleCategory MT_fixed 80 MD_proportional) = MT_fixed /\
  moderateItems digitsToNumber (exampleCategory MT_fixed 80 MD_proportional) = true /\
  moderate (markupValue (exampleCategory MT_fixed 80 MD_proportional)) = true /\
  0 < spec_rawSubtotal digitsToNumber (exampleCategory MT_fixed 80 MD_proportional) /\
  (0 <? reduceRawSubtotal64 exampleItems64)%float = true /\
  itemMarkups64 MT_fixed 80%float exampleItems64 = [48%float; 32%float] /\
  exists attributions : list Q,
    map (fun item =>
           itemMarkup (exampleCategory MT_fixed 80 MD_proportional)
             (reduceRawSubtotal digitsToNumber (exampleCategory MT_fixed 80 MD_proportional))
             (itemSubtotal digitsToNumber item))
        (allItems (exampleCategory MT_fixed 80 MD_proportional))
    = map Some attributions /\
    Forall2
      (fun item m =>
         m == spec_itemSubtotal digitsToNumber item
              / spec_rawSubtotal digitsToNumber (exampleCategory MT_fixed 80 MD_proportional)
              * markupValue (exampleCategory MT_fixed 80 MD_proportional))
      (allItems (exampleCategory MT_fixed 80 MD_proportional)) attributions /\
    Qsum attributions == markupValue (exampleCategory MT_fixed 80 MD_proportional).
Proof.
  assert (Hfixed : markupType (exampleCategory MT_fixed 80 MD_proportional) = MT_fixed)
    by reflexivity.
  assert (Hpos : 0 < spec_rawSubtotal digitsToNumber
                       (exampleCategory MT_fixed 80 MD_proportional))
    by (vm_compute; reflexivity).
  assert (Hitems : moderateItems digitsToNumber
                      (exampleCategory MT_fixed 80 MD_proportional) = true)
    by (vm_compute; reflexivity).
  assert (Hvalue : moderate (markupValue (exampleCategory MT_fixed 80 MD_proportional))
                   = true)
    by (vm_compute; reflexivity).
  split; [exact Hfixed|]. split; [exact Hitems|]. split; [exact Hvalue|].
  split; [exact Hpos|].
  split; [vm_compute; reflexivity|]. split; [vm_compute; reflexivity|].
  exact (proj1 (proj2 (fixed_markup_attribution digitsToNumber
                         (exampleCategory MT_fixed 80 MD_proportional)
                         Hfixed Hitems Hvalue)) Hpos).
Defined.

(** ** The distribution flag influences no figure *)

Lemma fold_left_related {A B C : Type} (R : B -> C -> Prop)
    (f : A -> B -> A) (g : A -> C -> A) (l1 : list B) (l2 : list C) :
  (forall acc b c, R b c -> f acc b = g acc c) ->
  Forall2 R l1 l2 ->
  forall acc, fold_left f l1 acc = fold_left g l2 acc.
Proof.
  intros Hstep Hrel. induction Hrel as [|b c l1 l2 Hbc _ IH]; intros acc; simpl.
  - reflexivity.
  - rewrite (Hstep acc b c Hbc). apply IH.
Qed.

Lemma fold_left_pointwise {A B : Type} (f g : A -> B -> A) (l : list B) :
  (forall acc b, f acc b = g acc b) ->
  forall acc, fold_left f l acc = fold_left g l acc.
Proof.
  intros Hfg. induction l as [|b l IH]; intros acc; simpl.
  - reflexivity.
  - rewrite Hfg. apply IH.
Qed.

Lemma map_related {B C D : Type} (R : B -> C -> Prop)
    (f : B -> D) (g : C -> D) (l1 : list B) (l2 : list C) :
  (forall b c, R b c -> f b = g c) ->
  Forall2 R l1 l2 ->
  map f l1 = map g l2.
Proof.
  intros Hstep Hrel. induction Hrel as [|b c l1 l2 Hbc _ IH]; simpl.
  - reflexivity.
  - now rewrite (Hstep b c Hbc), IH.
Qed.

Lemma filter_related {B C : Type} (R : B -> C -> Prop)
    (p : B -> bool) (q : C -> bool) (l1 : list B) (l2 : list C) :
  (forall b c, R b c -> p b = q c) ->
  Forall2 R l1 l2 ->
  Forall2 R (List.filter p l1) (List.filter q l2).
Proof.
  intros Hstep Hrel. induction Hrel as [|b c l1 l2 Hbc _ IH]; simpl.
  - constructor.
  - rewrite (Hstep b c Hbc). destruct (q c); [constructor|]; assumption.
Qed.

Section Distribution.
Variable StringToNumber : string -> option Q.

Lemma sameBut_rawSubtotal (c1 c2 : CostCategory) :
  sameButDistribution c1 c2 ->
  categoryRawSubtotal StringToNumber c1 = categoryRawSubtotal StringToNumber c2.
Proof.
  intros (_ & _ & Hsubs & _). unfold categoryRawSubtotal. now rewrite Hsubs.
Qed.

Lemma sameBut_reduceRawSubtotal (c1 c2 : CostCategory) :
  sameButDistribution c1 c2 ->
  reduceRawSubtotal StringToNumber c1 = reduceRawSubtotal StringToNumber c2.
Proof.
  intros (_ & _ & Hsubs & _). unfold reduceRawSubtotal. now rewrite Hsubs.
Qed.

Lemma sameBut_withMarkups (c1 c2 : CostCategory) (raw : Q) :
  sameButDistribution c1 c2 -> withMarkups c1 raw = withMarkups c2 raw.
Proof.
  intros (_ & _ & _ & _ & _ & _ & _ & Htype & Hvalue).
  unfold withMarkups. now rewrite Htype, Hvalue.
Qed.

Lemma sameBut_itemMarkup (c1 c2 : CostCategory) (raw sub : Q) :
  sameButDistribution c1 c2 -> itemMarkup c1 raw sub = itemMarkup c2 raw sub.
Proof.
  intros (_ & _ & _ & _ & _ & _ & _ & Htype & Hvalue).
  unfold itemMarkup. now rewrite Htype, Hvalue.
Qed.

Lemma sameBut_vatOnItem (c1 c2 : CostCategory) (show : bool) (rate raw sub : Q) :
  sameButDistribution c1 c2 ->
  vatOnItem show rate c1 raw sub = vatOnItem show rate c2 raw sub.
Proof.
  intros H. unfold vatOnItem. rewrite (sameBut_itemMarkup c1 c2 raw sub H).
  destruct H as (_ & _ & _ & _ & _ & _ & Hvat & _). now rewrite Hvat.
Qed.

Lemma sameBut_totalsStep (d1 d2 : DocumentState) (acc : Q * Q) (c1 c2 : CostCategory) :
  showVat d1 = showVat d2 -> vatRate d1 = vatRate d2 ->
  sameButDistribution c1 c2 ->
  totalsStep StringToNumber d1 acc c1 = totalsStep StringToNumber d2 acc c2.
Proof.
  intros Hshow Hrate H. unfold totalsStep. destruct acc as [s t].
  rewrite (sameBut_rawSubtotal c1 c2 H), (sameBut_withMarkups c1 c2 _ H), Hshow, Hrate.
  destruct H as (_ & _ & _ & _ & _ & _ & Hvat & _). now rewrite Hvat.
Qed.

Lemma sameBut_previewCategory (d1 d2 : DocumentState) (c1 c2 : CostCategory) :
  showVat d1 = showVat d2 -> vatRate d1 = vatRate d2 ->
  sameButDistribution c1 c2 ->
  previewCategory StringToNumber d1 c1 = previewCategory StringToNumber d2 c2.
Proof.
  intros Hshow Hrate H. unfold previewCategory, calculateCategoryTotal, derivedCells.
  rewrite (sameBut_rawSubtotal c1 c2 H), (sameBut_reduceRawSubtotal c1 c2 H),
    (sameBut_withMarkups c1 c2 _ H), Hshow, Hrate.
  assert (Hrows :
    forall raw item,
      {| cell_total := itemSubtotal StringToNumber item;
         cell_markup := itemMarkup c1 raw (itemSubtotal StringToNumber item);
         cell_vat := vatOnItem (showVat d2) (vatRate d2) c1 raw
                       (itemSubtotal StringToNumber item) |}
      = {| cell_total := itemSubtotal StringToNumber item;
           cell_markup := itemMarkup c2 raw (itemSubtotal StringToNumber item);
           cell_vat := vatOnItem (showVat d2) (vatRate d2) c2 raw
                         (itemSubtotal StringToNumber item) |}).
  { intros raw item.
    now rewrite (sameBut_itemMarkup c1 c2 _ _ H), (sameBut_vatOnItem c1 c2 _ _ _ _ H). }
  destruct H as (_ & _ & Hsubs & _ & _ & _ & Hvat & _). rewrite Hsubs, Hvat.
  f_equal. apply map_ext. intros sub. apply map_ext. intros item. apply Hrows.
Qed.

(** The exporter: every step acts alike on two such documents. *)
Section DistributionExport.
Variable cellLines : CostCategory -> Item -> list nat.

(** The text measurement does not read the flag. *)
Hypothesis cellLines_flag :
  forall c1 c2 item, sameButDistribution c1 c2 -> cellLines c1 item = cellLines c2 item.

Lemma sameBut_rowHeight (c1 c2 : CostCategory) (item : Item) :
  sameButDistribution c1 c2 ->
  rowHeight cellLines c1 item = rowHeight cellLines c2 item.
Proof.
  intros H. unfold rowHeight, maxLines. now rewrite (cellLines_flag c1 c2 item H).
Qed.

Lemma sameBut_hasSubcategoryTitle (c1 c2 : CostCategory) (sub : Subcategory) :
  sameButDistribution c1 c2 -> hasSubcategoryTitle c1 sub = hasSubcategoryTitle c2 sub.
Proof.
  intros (_ & _ & Hsubs & _). unfold hasSubcategoryTitle. now rewrite Hsubs.
Qed.

Lemma differ_drawFooter (d1 d2 : DocumentState) (s : Pdf) :
  layout d1 = layout d2 -> drawFooter d1 s = drawFooter d2 s.
Proof.
  intros Hlayout. unfold drawFooter, footerTexts. now rewrite Hlayout.
Qed.

Lemma differ_checkAndAddPage (d1 d2 : DocumentState) (h : Q) (s : Pdf) :
  layout d1 = layout d2 -> checkAndAddPage d1 h s = checkAndAddPage d2 h s.
Proof.
  intros Hlayout. unfold checkAndAddPage. now rewrite (differ_drawFooter d1 d2 s Hlayout).
Qed.

Lemma sameBut_drawCategoryTitle (c1 c2 : CostCategory) (s : Pdf) :
  sameButDistribution c1 c2 -> drawCategoryTitle c1 s = drawCategoryTitle c2 s.
Proof.
  intros (_ & Hname & _). unfold drawCategoryTitle. now rewrite Hname.
Qed.

Lemma sameBut_exportItemRow (d1 d2 : DocumentState) (c1 c2 : CostCategory) (raw : Q)
    (sub : Subcategory) (s : Pdf) (item : Item) :
  showVat d1 = showVat d2 -> vatRate d1 = vatRate d2 -> layout d1 = layout d2 ->
  sameButDistribution c1 c2 ->
  exportItemRow StringToNumber cellLines d1 c1 raw sub s item
  = exportItemRow StringToNumber cellLines d2 c2 raw sub s item.
Proof.
  intros Hshow Hrate Hlayout H. unfold exportItemRow, breakBeforeRow, derivedCells.
  rewrite (sameBut_rowHeight c1 c2 item H), (differ_drawFooter d1 d2 s Hlayout),
    (sameBut_hasSubcategoryTitle c1 c2 sub H), Hshow, Hrate,
    (sameBut_itemMarkup c1 c2 _ _ H), (sameBut_vatOnItem c1 c2 _ _ _ _ H).
  now rewrite (sameBut_drawCategoryTitle c1 c2 _ H).
Qed.

Lemma sameBut_exportSubcategory (d1 d2 : DocumentState) (c1 c2 : CostCategory) (raw : Q)
    (s : Pdf) (sub : Subcategory) :
  showVat d1 = showVat d2 -> vatRate d1 = vatRate d2 -> layout d1 = layout d2 ->
  sameButDistribution c1 c2 ->
  exportSubcategory StringToNumber cellLines d1 c1 raw s sub
  = exportSubcategory StringToNumber cellLines d2 c2 raw s sub.
Proof.
  intros Hshow Hrate Hlayout H. unfold exportSubcategory.
  destruct (negb (hasItems sub)); [reflexivity|].
  rewrite (sameBut_hasSubcategoryTitle c1 c2 sub H),
    (differ_checkAndAddPage d1 d2 _ s Hlayout).
  apply fold_left_pointwise. intros acc item. now apply sameBut_exportItemRow.
Qed.

Lemma sameBut_drawCategoryTotals (d1 d2 : DocumentState) (c1 c2 : CostCategory) (s : Pdf) :
  showVat d1 = showVat d2 -> vatRate d1 = vatRate d2 -> layout d1 = layout d2 ->
  sameButDistribution c1 c2 ->
  drawCategoryTotals StringToNumber d1 c1 s = drawCategoryTotals StringToNumber d2 c2 s.
Proof.
  intros Hshow Hrate Hlayout H. unfold drawCategoryTotals.
  rewrite (sameBut_reduceRawSubtotal c1 c2 H), (sameBut_withMarkups c1 c2 _ H), Hshow, Hrate.
  destruct H as (_ & _ & _ & _ & _ & _ & Hvat & _). rewrite Hvat.
  destruct (Qgtb _ 0); [|reflexivity].
  now rewrite (differ_checkAndAddPage d1 d2 _ s Hlayout).
Qed.

Lemma sameBut_exportCategory (d1 d2 : DocumentState) (s : Pdf) (c1 c2 : CostCategory) :
  showVat d1 = showVat d2 -> vatRate d1 = vatRate d2 -> layout d1 = layout d2 ->
  sameButDistribution c1 c2 ->
  exportCategory StringToNumber cellLines d1 s c1
  = exportCategory StringToNumber cellLines d2 s c2.
Proof.
  intros Hshow Hrate Hlayout H. unfold exportCategory.
  rewrite (sameBut_reduceRawSubtotal c1 c2 H), (differ_checkAndAddPage d1 d2 _ s Hlayout),
    (sameBut_drawCategoryTitle c1 c2 _ H).
  assert (Hsubs : subcategories c1 = subcategories c2) by apply H. rewrite Hsubs.
  rewrite (fold_left_pointwise
             (exportSubcategory StringToNumber cellLines d1 c1
                (reduceRawSubtotal StringToNumber c2))
             (exportSubcategory StringToNumber cellLines d2 c2
                (reduceRawSubtotal StringToNumber c2)))
    by (intros acc sub; now apply sameBut_exportSubcategory).
  now rewrite (sameBut_drawCategoryTotals d1 d2 c1 c2 _ Hshow Hrate Hlayout H).
Qed.

Lemma differ_exportCategories (d1 d2 : DocumentState) (s : Pdf) :
  differOnlyInDistribution d1 d2 ->
  exportCategories StringToNumber cellLines d1 s
  = exportCategories StringToNumber cellLines d2 s.
Proof.
  intros (_ & _ & _ & Hcats & Hshow & Hrate & _ & _ & Hlayout).
  unfold exportCategories.
  apply (fold_left_related sameButDistribution).
  - intros acc c1 c2 H. now apply sameBut_exportCategory.
  - apply filter_related; [|exact Hcats].
    intros c1 c2 (_ & _ & Hsubs & _). now rewrite Hsubs.
Qed.
End DistributionExport.

(** C3.  Two documents identical except for the markupDistribution of some
    categories get equal Totals from calculateTotals; every figure the
    preview computes for display (per-item total, markup and VAT, category
    subtotal, VAT and total) is identical; and the exporter, whose text
    measurement does not read the flag, draws the same canvas, figures
    included, for both. *)
Theorem markupDistribution_noninterference (d1 d2 : DocumentState) :
  differOnlyInDistribution d1 d2 ->
  calculateTotals StringToNumber d1 = calculateTotals StringToNumber d2 /\
  previewFigures StringToNumber d1 = previewFigures StringToNumber d2 /\
  forall cellLines : CostCategory -> Item -> list nat,
    (forall c1 c2 item, sameButDistribution c1 c2 -> cellLines c1 item = cellLines c2 item) ->
    forall s, exportCategories StringToNumber cellLines d1 s
              = exportCategories StringToNumber cellLines d2 s.
Proof.
  intros Hdiffer.
  pose proof Hdiffer as (_ & _ & _ & Hcats & Hshow & Hrate & _ & _ & Hlayout).
  split; [|split].
  - unfold calculateTotals.
    rewrite (fold_left_related sameButDistribution
               (totalsStep StringToNumber d1) (totalsStep StringToNumber d2)
               (categories d1) (categories d2)); [reflexivity| |exact Hcats].
    intros acc c1 c2 H. now apply sameBut_totalsStep.
  - unfold previewFigures.
    apply (map_related sameButDistribution).
    + intros c1 c2 H. now apply sameBut_previewCategory.
    + apply filter_related; [|exact Hcats].
      intros c1 c2 (_ & _ & Hsubs & _). now rewrite Hsubs.
  - intros cellLines Hflag s. now apply differ_exportCategories.
Qed.
End Distribution.

Lemma markupDistribution_noninterference_witness :
  differOnlyInDistribution (exampleDocument MD_proportional) (exampleDocument MD_per_item) /\
  calculateTotals digitsToNumber (exampleDocument MD_proportional)
  = calculateTotals digitsToNumber (exampleDocument MD_per_item) /\
  previewFigures digitsToNumber (exampleDocument MD_proportional)
  = previewFigures digitsToNumber (exampleDocument MD_per_item) /\
  forall s, exportCategories digitsToNumber (fun _ _ => [3%nat])
              (exampleDocument MD_proportional) s
            = exportCategories digitsToNumber (fun _ _ => [3%nat])
                (exampleDocument MD_per_item) s.
Proof.
  assert (H : differOnlyInDistribution (exampleDocument MD_proportional)
                                       (exampleDocument MD_per_item)).
  { unfold differOnlyInDistribution, sameButDistribution. simpl.
    repeat split; repeat constructor. }
  split.
  - exact H.
  - destruct (markupDistribution_noninterference digitsToNumber _ _ H)
      as (Htotals & Hpreview & Hexport).
    split; [exact Htotals|]. split; [exact Hpreview|].
    exact (Hexport (fun _ _ => [3%nat]) (fun _ _ _ _ => eq_refl)).
Defined.

(** ** Payment plan *)

Section PaymentPlanFacts.
Variable Math_pow : float -> float -> float.

Lemma paymentOption_term (config : PaymentPlanConfig) (balance t : float)
    (o : PaymentOption) :
  paymentOption Math_pow config balance t = Some o ->
  term o = t /\ (t =? 0)%float = false.
Proof.
  unfold paymentOption. destruct (t =? 0)%float eqn:Ht; [discriminate|].
  cbv zeta.
  match goal with |- context [if ?c then _ else _] => destruct c end;
    intros [= <-]; simpl; auto.
Qed.

Lemma paymentOption_zero_rate (config : PaymentPlanConfig) (balance t : float) :
  (t =? 0)%float = false -> (spec_monthlyRate64 config t =? 0)%float = true ->
  paymentOption Math_pow config balance t
  = Some {| term := t;
            monthlyPayment := (balance / t)%float;
            totalPayment := balance |}.
Proof.
  intros Ht Hrate. unfold paymentOption. rewrite Ht.
  unfold spec_monthlyRate64 in Hrate. cbv zeta. now rewrite Hrate.
Qed.

Lemma omap_paymentOption_terms (config : PaymentPlanConfig) (balance : float)
    (ts : list float) :
  map term (omap (paymentOption Math_pow config balance) ts)
  = List.filter (fun t => negb (t =? 0)%float) ts.
Proof.
  induction ts as [|t ts IH]; [reflexivity|].
  simpl.
  destruct (paymentOption Math_pow config balance t) as [o|] eqn:E.
  - apply paymentOption_term in E as [Hterm Hne].
    rewrite Hne. simpl. f_equal; [exact Hterm | exact IH].
  - unfold paymentOption in E. destruct (t =? 0)%float; [exact IH|].
    cbv zeta in E.
    match type of E with context [if ?c then _ else _] => destruct c end; discriminate.
Qed.

(** X15.  calculatePaymentOptions on binary64 numbers.  The result is empty when
    the plan is disabled, the term list is empty or total - downPayment <= 0;
    otherwise its entries are those of the terms different from 0, in order,
    and a term whose combined monthly rate, each operation rounded, is 0
    yields monthlyPayment = (total - downPayment)/t and totalPayment =
    total - downPayment; total = 11000, downPayment = 1000, terms = [12]
    with all rates 0 yields 10000/12 and 10000. *)
Theorem calculatePaymentOptions_spec (total : float) (config : PaymentPlanConfig) :
  (enabled config = false \/ terms config = [] \/
   (total - downPayment config <=? 0)%float = true ->
   calculatePaymentOptions Math_pow total config = []) /\
  (forall o, In o (calculatePaymentOptions Math_pow total config) ->
             (term o =? 0)%float = false) /\
  (enabled config = true -> (total - downPayment config <=? 0)%float = false ->
   map term (calculatePaymentOptions Math_pow total config)
   = List.filter (fun t => negb (t =? 0)%float) (terms config) /\
   forall t, In t (terms config) -> (t =? 0)%float = false ->
     (spec_monthlyRate64 config t =? 0)%float = true ->
     In {| term := t;
           monthlyPayment := ((total - downPayment config) / t)%float;
           totalPayment := (total - downPayment config)%float |}
        (calculatePaymentOptions Math_pow total config)) /\
  calculatePaymentOptions Math_pow 11000%float examplePlan
  = [{| term := 12%float; monthlyPayment := (10000 / 12)%float;
        totalPayment := 10000%float |}].
Proof.
  split; [|split; [|split]].
  - unfold calculatePaymentOptions. intros [Hoff | [Hnil | Hbal]].
    + now rewrite Hoff.
    + rewrite Hnil. simpl. now rewrite orb_true_r.
    + destruct (negb (enabled config) || (length (terms config) =? 0)%nat); [reflexivity|].
      cbv zeta. now rewrite Hbal.
  - intros o Hin. unfold calculatePaymentOptions in Hin.
    destruct (negb (enabled config) || (length (terms config) =? 0)%nat); [contradiction|].
    cbv zeta in Hin.
    destruct (total - downPayment config <=? 0)%float; [contradiction|].
    apply list_elem_of_In, list_elem_of_omap in Hin as (t & _ & Hopt).
    apply paymentOption_term in Hopt as [-> Hne]. exact Hne.
  - intros Hon Hpos.
    assert (Hrun : calculatePaymentOptions Math_pow total config
                   = omap (paymentOption Math_pow config (total - downPayment config)%float)
                          (terms config)).
    { unfold calculatePaymentOptions. rewrite Hon. simpl.
      destruct (terms config) as [|t ts] eqn:Hts; [reflexivity|]. simpl.
      now rewrite Hpos. }
    rewrite Hrun. split.
    + apply omap_paymentOption_terms.
    + intros t Hin Hne Hrate.
      apply list_elem_of_In, list_elem_of_omap. exists t. split.
      * now apply list_elem_of_In.
      * now apply paymentOption_zero_rate.
  - vm_compute. reflexivity.
Qed.

(** C4.  The plan with total 11000, down payment 1000, base interest rate
    -0.0125, risk factor 0, term increment rate 0.05 and the single term 3
    has a combined monthly rate of 0, yet the code does not return
    monthlyPayment 10000/3 and totalPayment 10000: 3 x 0.05 is rounded up,
    the rate it compares with 0 is about 1.4e-21, and since 1 + rate is
    rounded to 1 the annuity formula divides by Math.pow(1, 3) - 1 = 0; both
    payments are Infinity. *)
Theorem calculatePaymentOptions_cancelling_rates :
  Math_pow 1%float 3%float = 1%float ->
  spec_monthlyRate (- (125 # 10000)) 0 (5 # 100) 3 == 0 /\
  spec_monthlyRate64 cancellingPlan 3%float = 0x1.b4e81b4e81b4fp-70%float /\
  (1 + spec_monthlyRate64 cancellingPlan 3)%float = 1%float /\
  calculatePaymentOptions Math_pow 11000%float cancellingPlan
  = [{| term := 3%float; monthlyPayment := PrimFloat.infinity;
        totalPayment := PrimFloat.infinity |}] /\
  calculatePaymentOptions Math_pow 11000%float cancellingPlan
  <> [{| term := 3%float; monthlyPayment := (10000 / 3)%float;
         totalPayment := 10000%float |}].
Proof.
  intros Hpow.
  assert (Hrun : calculatePaymentOptions Math_pow 11000%float cancellingPlan
                 = [{| term := 3%float; monthlyPayment := PrimFloat.infinity;
                       totalPayment := PrimFloat.infinity |}]).
  { unfold calculatePaymentOptions, paymentOption, cancellingPlan.
    vm_compute. rewrite Hpow. vm_compute. reflexivity. }
  split; [reflexivity|]. split; [vm_compute; reflexivity|].
  split; [vm_compute; reflexivity|]. split; [exact Hrun|].
  rewrite Hrun. intros H.
  apply (f_equal (map (fun o => (monthlyPayment o =? PrimFloat.infinity)%float))) in H.
  vm_compute in H. discriminate H.
Qed.
End PaymentPlanFacts.

Lemma calculatePaymentOptions_spec_witness :
  enabled examplePlan = true /\
  (11000 - downPayment examplePlan <=? 0)%float = false /\
  In 12%float (terms examplePlan) /\ (12 =? 0)%float = false /\
  (spec_monthlyRate64 examplePlan 12 =? 0)%float = true /\
  In {| term := 12%float;
        monthlyPayment := ((11000 - downPayment examplePlan) / 12)%float;
        totalPayment := (11000 - downPayment examplePlan)%float |}
     (calculatePaymentOptions examplePow 11000%float examplePlan).
Proof.
  assert (Hon : enabled examplePlan = true) by reflexivity.
  assert (Hpos : (11000 - downPayment examplePlan <=? 0)%float = false) by reflexivity.
  assert (Hin : In 12%float (terms examplePlan)) by (left; reflexivity).
  assert (Hne : (12 =? 0)%float = false) by reflexivity.
  assert (Hrate : (spec_monthlyRate64 examplePlan 12 =? 0)%float = true) by reflexivity.
  repeat (split; [assumption|]).
  exact (proj2 (proj1 (proj2 (proj2 (calculatePaymentOptions_spec examplePow 11000%float
                                       examplePlan)))
                  Hon Hpos) 12%float Hin Hne Hrate).
Defined.

Lemma calculatePaymentOptions_cancelling_rates_witness :
  examplePow 1%float 3%float = 1%float /\
  calculatePaymentOptions examplePow 11000%float cancellingPlan
  = [{| term := 3%float; monthlyPayment := PrimFloat.infinity;
        totalPayment := PrimFloat.infinity |}].
Proof.
  assert (Hpow : examplePow 1%float 3%float = 1%float) by (vm_compute; reflexivity).
  split; [exact Hpow|].
  exact (proj1 (proj2 (proj2 (proj2 (calculatePaymentOptions_cancelling_rates examplePow
                                       Hpow))))).
Defined.

(** ** Folio *)

(** On a host whose local time is UTC the Julian suffix is the two last
    digits of the UTC year followed by the day of the year. *)
Lemma getJulianDate_utc (date : Z) :
  ~ (0 <= YearFromTime date <= 99)%Z ->
  getJulianDate (fun _ => 0%Z) date
  = (sliceLast 2 (stringOfZ (YearFromTime date))
     ++ padStart0 3 (stringOfZ (Day date - DayFromYear (YearFromTime date) + 1)))%string.
Proof.
  intros Hyear. unfold getJulianDate, startOfYearLocal.
  replace ((0 <=? YearFromTime date)%Z && (YearFromTime date <=? 99)%Z) with false
    by (symmetry; apply andb_false_iff; lia).
  do 2 f_equal. f_equal. unfold Day.
  change (1000 * 60 * 60 * 24)%Z with msPerDay.
  replace (date - ((DayFromYear (YearFromTime date) + 0 - 1) * msPerDay - 0))%Z
    with (date + (- DayFromYear (YearFromTime date) + 1) * msPerDay)%Z by lia.
  rewrite Z.div_add by (unfold msPerDay; lia). lia.
Qed.

(** The two folios of the specification, on a host whose local time is UTC. *)
Lemma generateFolio_utc_examples :
  generateFolio (fun _ => 0%Z) "COT-" 7 (dateUTC 2024 3 5) = "COT-000007-24065" /\
  generateFolio (fun _ => 0%Z) "X-" 1 (dateUTC 2024 1 1) = "X-000001-24001".
Proof. split; vm_compute; reflexivity. Qed.

(** C6.  generateFolio reads the start of the year in local time although the
    year is read in UTC: on a host six hours behind UTC the folio of sequence
    7 for 2024-03-05T00:00Z carries day 064, not the day of the year 065, and
    the folio for 2024-01-01T00:00Z carries day 000; on a host one hour ahead
    of UTC the folio for local midnight of 2024-01-01 carries 23366. *)
Theorem generateFolio_local_start_of_year :
  generateFolio (fun _ => (-6 * 3600000)%Z) "COT-" 7 (dateUTC 2024 3 5)
  = "COT-000007-24064" /\
  generateFolio (fun _ => (-6 * 3600000)%Z) "X-" 1 (dateUTC 2024 1 1)
  = "X-000001-24000" /\
  generateFolio (fun _ => (1 * 3600000)%Z) "X-" 1 (dateUTC 2024 1 1 - 1 * 3600000)
  = "X-000001-23366".
Proof. repeat split; vm_compute; reflexivity. Qed.

(** ** Roman numerals *)



Lemma romanize_checked : forallb romanizeAgrees (map N.of_nat (seq 1 3999)) = true.
Proof. vm_compute. reflexivity. Qed.

(** C7.  For every integer n with 1 <= n <= 3999, romanize returns the
    standard lower-case Roman numeral of n, which denotes n; in particular
    romanize(1) = "i", romanize(4) = "iv" and romanize(11) = "xi". *)
Theorem romanize_correct (n : N) :
  (1 <= n <= 3999)%N ->
  romanize n = standardRoman n /\ romanValue (romanize n) = Some (Z.of_N n) /\
  romanize 1 = "i" /\ romanize 4 = "iv" /\ romanize 11 = "xi".
Proof.
  intros Hn.
  assert (Hin : In n (map N.of_nat (seq 1 3999))).
  { apply in_map_iff. exists (N.to_nat n). split; [apply N2Nat.id|].
    apply in_seq. lia. }
  pose proof (proj1 (forallb_forall _ _) romanize_checked n Hin) as Hok.
  unfold romanizeAgrees in Hok. apply andb_true_iff in Hok as [Heq Hval].
  apply String.eqb_eq in Heq. apply bool_decide_eq_true in Hval.
  repeat split; assumption || reflexivity.
Qed.

Lemma romanize_correct_witness :
  (1 <= 1994 <= 3999)%N /\
  romanize 1994 = standardRoman 1994 /\ romanValue (romanize 1994) = Some 1994%Z.
Proof.
  assert (H : (1 <= 1994 <= 3999)%N) by lia.
  split; [exact H|].
  split; [exact (proj1 (romanize_correct 1994 H))
         | exact (proj1 (proj2 (romanize_correct 1994 H)))].
Defined.

(** ** Column registry *)

Lemma includes_In (compatibleInputs : list InputType) (t : InputType) :
  includes compatibleInputs t = true <-> In t compatibleInputs.
Proof.
  unfold includes. rewrite bool_decide_eq_true. apply list_elem_of_In.
Qed.

Lemma firstInput_compatible (d : DataType) :
  hd_error (COMPATIBLE_INPUT_TYPES d) = Some (firstInput (COMPATIBLE_INPUT_TYPES d)).
Proof. destruct d; reflexivity. Qed.

(** C8.  Changing the dataType of an existing column through
    handleColumnDefinitionChange stores the new dataType; an inputType that
    is not in the compatible set of the new dataType is replaced by the first
    compatible option (so 'boolean' forces 'checkbox'), a compatible one is
    kept; the other fields and the other columns are unchanged. *)
Theorem dataType_change_forces_compatible_input
    (prev : gmap string ColumnDefinition) (key : string)
    (oldDef : ColumnDefinition) (newDataType : DataType) :
  prev !! key = Some oldDef ->
  exists (next : gmap string ColumnDefinition) (newDef : ColumnDefinition),
    handleColumnDefinitionChange key (SetDataType newDataType) prev = Some next /\
    next !! key = Some newDef /\
    (forall other, other <> key -> next !! other = prev !! other) /\
    dataType newDef = newDataType /\
    (~ In (inputType oldDef) (COMPATIBLE_INPUT_TYPES newDataType) ->
     hd_error (COMPATIBLE_INPUT_TYPES newDataType) = Some (inputType newDef)) /\
    (In (inputType oldDef) (COMPATIBLE_INPUT_TYPES newDataType) ->
     inputType newDef = inputType oldDef) /\
    In (inputType newDef) (COMPATIBLE_INPUT_TYPES newDataType) /\
    (newDataType = DT_boolean -> inputType newDef = IT_checkbox) /\
    label newDef = label oldDef /\ default_ newDef = default_ oldDef /\
    isEditable newDef = isEditable oldDef /\ options newDef = options oldDef.
Proof.
  intros Hkey. unfold handleColumnDefinitionChange. rewrite Hkey.
  set (compatibleInputs := COMPATIBLE_INPUT_TYPES newDataType).
  destruct (includes compatibleInputs (inputType oldDef)) eqn:Hinc; cbn [negb].
  - apply includes_In in Hinc.
    eexists _, _. split; [reflexivity|]. split; [apply lookup_insert_eq|].
    split; [intros other Hne; now apply lookup_insert_ne|].
    cbn. repeat split; try tauto.
    intros ->. subst compatibleInputs. simpl in Hinc. intuition congruence.
  - assert (Hnot : ~ In (inputType oldDef) compatibleInputs).
    { intros Hin. apply includes_In in Hin. congruence. }
    eexists _, _. split; [reflexivity|]. split; [apply lookup_insert_eq|].
    split; [intros other Hne; now apply lookup_insert_ne|].
    cbn. repeat split; try tauto.
    + intros _. apply firstInput_compatible.
    + subst compatibleInputs. destruct newDataType; simpl; auto.
    + intros ->. reflexivity.
Qed.

Lemma dataType_change_forces_compatible_input_witness :
  INITIAL_COLUMN_DEFINITIONS !! "description"
  = Some {| label := "Descripci" ++ chr 243 ++ "n"; default_ := true; isEditable := true;
            dataType := DT_string; inputType := IT_textarea; options := None |} /\
  exists (next : gmap string ColumnDefinition) (newDef : ColumnDefinition),
    handleColumnDefinitionChange "description" (SetDataType DT_boolean)
      INITIAL_COLUMN_DEFINITIONS = Some next /\
    next !! "description" = Some newDef /\
    inputType newDef = IT_checkbox.
Proof.
  assert (H : INITIAL_COLUMN_DEFINITIONS !! "description"
              = Some {| label := "Descripci" ++ chr 243 ++ "n"; default_ := true;
                        isEditable := true; dataType := DT_string;
                        inputType := IT_textarea; options := None |})
    by (vm_compute; reflexivity).
  split; [exact H|].
  destruct (dataType_change_forces_compatible_input
              INITIAL_COLUMN_DEFINITIONS "description" _ DT_boolean H)
    as (next & newDef & Hrun & Hget & _ & _ & _ & _ & _ & Hbool & _).
  exists next, newDef. split; [exact Hrun|]. split; [exact Hget|].
  apply Hbool. reflexivity.
Defined.

(** A blank label, and a label with white space around it, separate the key
    derivation of handleAddColumn from lowercasing and replacing alone: the
    key of the one does not exist and of the other is "total_", which does
    not exist either, yet neither column is created. *)
Lemma handleAddColumn_trims_and_rejects_blank :
  ~ (forall (label : string) (defs : gmap string ColumnDefinition),
       defs !! spec_deriveKey label = None ->
       exists next, handleAddColumn {| nc_label := label; nc_dataType := DT_string |} defs
                    = Added (spec_deriveKey label) next)
  /\ INITIAL_COLUMN_DEFINITIONS !! spec_deriveKey "" = None
  /\ handleAddColumn {| nc_label := ""; nc_dataType := DT_string |} INITIAL_COLUMN_DEFINITIONS
     = Rejected ("El nombre de la columna no puede estar vac" ++ chr 237 ++ "o.")
  /\ INITIAL_COLUMN_DEFINITIONS !! spec_deriveKey "Total " = None
  /\ handleAddColumn {| nc_label := "Total "; nc_dataType := DT_string |}
       INITIAL_COLUMN_DEFINITIONS
     = Rejected "Ya existe una columna con un nombre similar.".
Proof.
  assert (Hnone : INITIAL_COLUMN_DEFINITIONS !! spec_deriveKey "" = None)
    by (vm_compute; reflexivity).
  split; [|repeat split; vm_compute; reflexivity].
  intros Hclaim. destruct (Hclaim "" INITIAL_COLUMN_DEFINITIONS Hnone) as [next Hadded].
  vm_compute in Hadded. discriminate.
Qed.

(** C9.  handleAddColumn rejects a blank label; otherwise the machine key is
    the trimmed label, lowercased, with every character outside a-z, 0-9
    replaced by '_'.  If a column with that key exists the creation is
    rejected.  Every rejection leaves the registry unchanged.  If no column
    has the key, and the key is not a property name inherited from
    Object.prototype, a new definition is added under the key and all
    existing definitions are unchanged. *)
Theorem handleAddColumn_spec (newColumnData : NewColumnData)
    (columnDefinitions : gmap string ColumnDefinition) :
  deriveKey (nc_label newColumnData)
  = replaceNonAlnum (toLowerCase (trim (nc_label newColumnData))) /\
  (trim (nc_label newColumnData) = "" ->
   exists alert, handleAddColumn newColumnData columnDefinitions = Rejected alert) /\
  (is_Some (columnDefinitions !! deriveKey (nc_label newColumnData)) ->
   exists alert, handleAddColumn newColumnData columnDefinitions = Rejected alert) /\
  (forall alert,
     handleAddColumn newColumnData columnDefinitions = Rejected alert ->
     registryAfter (handleAddColumn newColumnData columnDefinitions) columnDefinitions
     = columnDefinitions) /\
  (trim (nc_label newColumnData) <> "" ->
   columnDefinitions !! deriveKey (nc_label newColumnData) = None ->
   ~ In (deriveKey (nc_label newColumnData)) objectPrototypeKeys ->
   exists (next : gmap string ColumnDefinition) (newDef : ColumnDefinition),
     handleAddColumn newColumnData columnDefinitions
     = Added (deriveKey (nc_label newColumnData)) next /\
     next !! deriveKey (nc_label newColumnData) = Some newDef /\
     label newDef = trim (nc_label newColumnData) /\
     dataType newDef = nc_dataType newColumnData /\
     hd_error (COMPATIBLE_INPUT_TYPES (nc_dataType newColumnData)) = Some (inputType newDef) /\
     (forall other def, columnDefinitions !! other = Some def -> next !! other = Some def) /\
     (forall other, other <> deriveKey (nc_label newColumnData) ->
                    next !! other = columnDefinitions !! other)).
Proof.
  split; [reflexivity|]. unfold handleAddColumn.
  split; [|split; [|split]].
  - intros Hblank. rewrite bool_decide_eq_true_2 by exact Hblank. eauto.
  - intros Hsome. destruct (bool_decide (trim (nc_label newColumnData) = "")); [eauto|].
    unfold readsTruthy. rewrite bool_decide_eq_true_2 by exact Hsome. simpl. eauto.
  - intros alert Hrej. rewrite Hrej. reflexivity.
  - intros Hlabel Hfresh Hproto.
    rewrite bool_decide_eq_false_2 by exact Hlabel.
    unfold readsTruthy.
    rewrite bool_decide_eq_false_2
      by (rewrite Hfresh; intros [x Hx]; discriminate).
    rewrite bool_decide_eq_false_2
      by (intros Hin; apply Hproto; now apply list_elem_of_In).
    cbn [orb].
    eexists _, _. split; [reflexivity|]. split; [apply lookup_insert_eq|].
    cbn. split; [reflexivity|]. split; [reflexivity|].
    split; [apply firstInput_compatible|]. split.
    + intros other def Hother. rewrite lookup_insert_ne; [exact Hother|].
      intros <-. congruence.
    + intros other Hne. now apply lookup_insert_ne.
Qed.

Lemma handleAddColumn_spec_witness :
  trim " Mano de obra " <> "" /\
  INITIAL_COLUMN_DEFINITIONS !! deriveKey " Mano de obra " = None /\
  ~ In (deriveKey " Mano de obra ") objectPrototypeKeys /\
  exists (next : gmap string ColumnDefinition) (newDef : ColumnDefinition),
    handleAddColumn {| nc_label := " Mano de obra "; nc_dataType := DT_number |}
      INITIAL_COLUMN_DEFINITIONS
    = Added "mano_de_obra" next /\
    next !! "mano_de_obra" = Some newDef /\
    label newDef = "Mano de obra".
Proof.
  assert (H1 : trim " Mano de obra " <> "") by (vm_compute; discriminate).
  assert (H2 : INITIAL_COLUMN_DEFINITIONS !! deriveKey " Mano de obra " = None)
    by (vm_compute; reflexivity).
  assert (H3 : ~ In (deriveKey " Mano de obra ") objectPrototypeKeys).
  { vm_compute. intros H. repeat (destruct H as [H|H]; [discriminate|]). exact H. }
  repeat (split; [assumption|]).
  destruct (proj2 (proj2 (proj2 (proj2
              (handleAddColumn_spec
                 {| nc_label := " Mano de obra "; nc_dataType := DT_number |}
                 INITIAL_COLUMN_DEFINITIONS)))) H1 H2 H3)
    as (next & newDef & Hrun & Hget & Hlabel & _).
  exists next, newDef. split; [exact Hrun|]. split; [exact Hget|]. exact Hlabel.
Defined.

(** ** New items *)

(** The 'quantity' column of the initial registry has dataType 'number', and
    a new item starts with quantity 1, not 0. *)
Lemma newItem_quantity_is_one :
  (exists def, INITIAL_COLUMN_DEFINITIONS !! "quantity" = Some def /\
               dataType def = DT_number) /\
  newItem "uuid-1" INITIAL_COLUMN_DEFINITIONS !! "quantity" = Some (VNum 1) /\
  newItem "uuid-1" INITIAL_COLUMN_DEFINITIONS !! "quantity" <> Some (VNum 0).
Proof.
  split; [|split].
  - eexists. split; vm_compute; reflexivity.
  - vm_compute. reflexivity.
  - vm_compute. discriminate.
Qed.

Lemma newItem_lookup (id key : string) (columnDefinitions : gmap string ColumnDefinition)
    (def : ColumnDefinition) :
  columnDefinitions !! key = Some def ->
  newItem id columnDefinitions !! key = Some (initialValue key def).
Proof.
  intros Hkey. unfold newItem.
  apply lookup_union_Some_l. rewrite map_lookup_imap, Hkey. reflexivity.
Qed.

Lemma handleAddItems_appends (randomUUID : nat -> string)
    (columnDefinitions : gmap string ColumnDefinition) (doc : DocumentState)
    (index subIndex : nat) (count : Z) (category : CostCategory) (sub : Subcategory) :
  (0 < count)%Z ->
  categories doc !! index = Some category ->
  subcategories category !! subIndex = Some sub ->
  exists category' sub',
    categories (handleAddItems randomUUID columnDefinitions doc (Z.of_nat index) subIndex count)
      !! index = Some category' /\
    subcategories category' !! subIndex = Some sub' /\
    items sub' = (items sub ++ itemsToAdd randomUUID columnDefinitions (Z.to_nat count))%list.
Proof.
  intros Hcount Hcat Hsub. unfold handleAddItems.
  replace (Z.of_nat index =? -1)%Z with false by (symmetry; apply Z.eqb_neq; lia).
  replace (count <=? 0)%Z with false by (symmetry; apply Z.leb_gt; lia).
  cbn [orb]. rewrite Nat2Z.id, Hcat, Hsub. cbn.
  eexists _, _. split; [|split].
  - apply list_lookup_insert_eq. now apply lookup_lt_Some in Hcat.
  - cbn. apply list_lookup_insert_eq. now apply lookup_lt_Some in Hsub.
  - reflexivity.
Qed.

(** C10.  In every item handleAddItems creates, each column key of the
    registry is initialised: 'quantity' to 1; any other column of dataType
    'number' to 0, of dataType 'boolean' to false; any other column with a
    select input to its first option (the empty string when it has none);
    every remaining column to the empty string.  An item imported from an
    image starts from the same values, kept for the keys the import does not
    supply. *)
Theorem new_item_defaults (StringToNumber : string -> option Q) (randomUUID : nat -> string)
    (columnDefinitions : gmap string ColumnDefinition) (count : nat)
    (item : Item) (key : string) (def : ColumnDefinition) :
  In item (itemsToAdd randomUUID columnDefinitions count) ->
  columnDefinitions !! key = Some def ->
  exists v,
    item !! key = Some v /\
    (forall id itemData pricesIncludeVat vatRatePercent,
       itemData !! key = None -> key <> "unitPrice" ->
       importedItem StringToNumber id columnDefinitions itemData pricesIncludeVat
         vatRatePercent !! key = Some v) /\
    (key = "quantity" -> v = VNum 1) /\
    (key <> "quantity" -> dataType def = DT_number -> v = VNum 0) /\
    (key <> "quantity" -> dataType def = DT_boolean -> v = VBool false) /\
    (key <> "quantity" -> dataType def <> DT_number -> dataType def <> DT_boolean ->
     inputType def = IT_select ->
     v = VStr (match options def with Some (first :: _) => first | _ => "" end)) /\
    (key <> "quantity" -> dataType def <> DT_number -> dataType def <> DT_boolean ->
     inputType def <> IT_select -> v = VStr "").
Proof.
  intros Hitem Hkey. unfold itemsToAdd in Hitem.
  apply in_map_iff in Hitem as (k & <- & _).
  exists (initialValue key def). split; [now apply newItem_lookup|]. split.
  - intros id itemData flag rate Hnone Hne. unfold importedItem.
    apply lookup_union_Some_raw. right. split; [|now apply newItem_lookup].
    destruct (flag && Qgtb rate 0); [|exact Hnone].
    rewrite lookup_insert_ne by congruence. exact Hnone.
  - unfold initialValue, firstOptionOrEmpty.
    destruct (bool_decide (key = "quantity")) eqn:Hq.
    + apply bool_decide_eq_true in Hq. repeat split; congruence.
    + apply bool_decide_eq_false in Hq.
      repeat split; intros; try contradiction;
        destruct (dataType def); try congruence;
        destruct (inputType def); congruence.
Qed.

Lemma new_item_defaults_witness :
  In (newItem "uuid-0" INITIAL_COLUMN_DEFINITIONS)
     (itemsToAdd (fun _ => "uuid-0") INITIAL_COLUMN_DEFINITIONS 2) /\
  (exists def, INITIAL_COLUMN_DEFINITIONS !! "unit" = Some def) /\
  newItem "uuid-0" INITIAL_COLUMN_DEFINITIONS !! "unit" = Some (VStr "Pza").
Proof.
  assert (Hin : In (newItem "uuid-0" INITIAL_COLUMN_DEFINITIONS)
                   (itemsToAdd (fun _ => "uuid-0") INITIAL_COLUMN_DEFINITIONS 2))
    by (left; reflexivity).
  assert (Hkey : INITIAL_COLUMN_DEFINITIONS !! "unit"
                 = Some {| label := "Unidad"; default_ := false; isEditable := true;
                           dataType := DT_string; inputType := IT_select;
                           options := Some ["Pza"; "Kg"; "m"; "m" ++ chr 178; "L";
                                            "Servicio"; "Jornal"] |})
    by (vm_compute; reflexivity).
  split; [exact Hin|]. split; [eexists; exact Hkey|].
  destruct (new_item_defaults digitsToNumber (fun _ => "uuid-0")
              INITIAL_COLUMN_DEFINITIONS 2 _ "unit" _ Hin Hkey)
    as (v & Hv & _ & _ & _ & _ & Hselect & _).
  rewrite Hv. f_equal. apply Hselect; simpl; congruence.
Defined.

(** ** Pagination of item rows *)

(** A row of 64 wrapped lines is 228 mm high.  With the cursor right below a
    column header the exporter breaks the page, repeats header, category
    title, subcategory title and column header, and writes the row from
    57 mm to 285 mm, below the boundary at 277 mm. *)
Lemma tall_row_written_past_boundary :
  exists top height cells,
    last (canvas (exportItemRow digitsToNumber (fun _ _ => [64%nat])
                    (exampleDocument MD_proportional)
                    (exampleCategory MT_none 0 MD_proportional) 800
                    {| sub_id := "s1"; sub_name := "General"; items := [] |}
                    {| y := 57; page := 1; canvas := [] |}
                    (exampleItem (VNum 2) (VNum 150))))
    = Some (DrawItemRow (exampleItem (VNum 2) (VNum 150)) top height cells) /\
    top == 57 /\ height == 228 /\ bottomBoundary == 277 /\
    ~ rowWithin (DrawItemRow (exampleItem (VNum 2) (VNum 150)) top height cells).
Proof.
  eexists _, _, _. split; [vm_compute; reflexivity|].
  repeat split; try reflexivity.
  unfold rowWithin. vm_compute. intros H. apply H. reflexivity.
Qed.

Section Pagination.
Variable StringToNumber : string -> option Q.
Variable cellLines : CostCategory -> Item -> list nat.
Variable doc : DocumentState.

Lemma rowHeight_positive (category : CostCategory) (item : Item) :
  0 < rowHeight cellLines category item.
Proof.
  unfold rowHeight, cellLineHeight, tableRowVerticalPadding.
  assert (0 <= inject_Z (Z.of_nat (maxLines cellLines category item))).
  { change 0 with (inject_Z 0). rewrite <- Zle_Qle. lia. }
  lra.
Qed.

(** C5.  Before an item row of height rowHeight is written: if y + rowHeight
    exceeds the bottom content boundary, the exporter draws the footer of the
    current page, adds a page, increments the page counter, redraws the
    header, which puts y at top-of-content, then redraws the category title,
    the subcategory title if there is one and the column header, and writes
    the row below them; otherwise it writes the row at y.  In both cases y
    advances by rowHeight, and a row not higher than 220 mm ends at or above
    the boundary. *)
Theorem item_row_page_break (category : CostCategory) (categoryRawSubtotal : Q)
    (sub : Subcategory) (s : Pdf) (item : Item) :
  let height := rowHeight cellLines category item in
  let after :=
    exportItemRow StringToNumber cellLines doc category categoryRawSubtotal sub s item in
  let row top :=
    DrawItemRow item top height
      (derivedCells StringToNumber (showVat doc) (vatRate doc) category
         categoryRawSubtotal item) in
  (bottomBoundary < y s + height ->
   page after = (page s + 1)%N /\
   exists top,
     canvas after
     = (canvas s
        ++ [DrawFooter (footerTexts doc (page s)); AddPage; DrawHeader;
            DrawCategoryTitle (cat_name category) topOfContent]
        ++ (if hasSubcategoryTitle category sub
            then [DrawSubcategoryTitle (sub_name sub) (topOfContent + 10)] else [])
        ++ [DrawColumnHeader (top - tableHeaderHeight); row top])%list /\
     top == topOfContent + 10 + (if hasSubcategoryTitle category sub then 5 else 0)
            + tableHeaderHeight /\
     y after == top + height) /\
  (y s + height <= bottomBoundary ->
   page after = page s /\
   canvas after = (canvas s ++ [row (y s)])%list /\
   y after = y s + height) /\
  (height <= 220 ->
   exists top, last (canvas after) = Some (row top) /\ rowWithin (row top)).
Proof.
  cbv zeta. unfold exportItemRow.
  change (MARGIN + DRAW_HEIGHT) with bottomBoundary.
  split; [|split].
  - intros Hover. apply Qgtb_true in Hover. rewrite Hover.
    unfold breakBeforeRow.
    destruct (hasSubcategoryTitle category sub); cbn.
    + split; [reflexivity|].
      exists (topOfContent + 10 + 5 + tableHeaderHeight). split; [|split].
      * rewrite <- !app_assoc. reflexivity.
      * reflexivity.
      * reflexivity.
    + split; [reflexivity|].
      exists (topOfContent + 10 + tableHeaderHeight). split; [|split].
      * rewrite <- !app_assoc. reflexivity.
      * ring.
      * reflexivity.
  - intros Hfits. apply Qgtb_false in Hfits. rewrite Hfits. cbn. auto.
  - intros Hsmall.
    destruct (Qgtb (y s + rowHeight cellLines category item) bottomBoundary) eqn:Hcmp.
    + unfold breakBeforeRow.
      destruct (hasSubcategoryTitle category sub); cbn;
        eexists; (split; [apply last_snoc|]);
        unfold rowWithin, bottomBoundary, DRAW_HEIGHT, A4_HEIGHT, FOOTER_HEIGHT,
          HEADER_HEIGHT, MARGIN, tableHeaderHeight; lra.
    + apply Qgtb_false in Hcmp. cbn.
      eexists. split; [apply last_snoc|]. exact Hcmp.
Qed.
End Pagination.

Lemma item_row_page_break_witness :
  bottomBoundary
  < 270 + rowHeight (fun _ _ => [3%nat]) (exampleCategory MT_none 0 MD_proportional)
            (exampleItem (VNum 2) (VNum 150)) /\
  rowHeight (fun _ _ => [3%nat]) (exampleCategory MT_none 0 MD_proportional)
    (exampleItem (VNum 2) (VNum 150)) <= 220 /\
  page (exportItemRow digitsToNumber (fun _ _ => [3%nat]) (exampleDocument MD_proportional)
          (exampleCategory MT_none 0 MD_proportional) 800
          {| sub_id := "s1"; sub_name := "General"; items := [] |}
          {| y := 270; page := 1; canvas := [] |} (exampleItem (VNum 2) (VNum 150)))
  = 2%N /\
  exists top,
    last (canvas (exportItemRow digitsToNumber (fun _ _ => [3%nat])
                    (exampleDocument MD_proportional)
                    (exampleCategory MT_none 0 MD_proportional) 800
                    {| sub_id := "s1"; sub_name := "General"; items := [] |}
                    {| y := 270; page := 1; canvas := [] |}
                    (exampleItem (VNum 2) (VNum 150))))
    = Some (DrawItemRow (exampleItem (VNum 2) (VNum 150)) top
              (rowHeight (fun _ _ => [3%nat]) (exampleCategory MT_none 0 MD_proportional)
                 (exampleItem (VNum 2) (VNum 150)))
              (derivedCells digitsToNumber true 16
                 (exampleCategory MT_none 0 MD_proportional) 800
                 (exampleItem (VNum 2) (VNum 150)))) /\
    top + rowHeight (fun _ _ => [3%nat]) (exampleCategory MT_none 0 MD_proportional)
            (exampleItem (VNum 2) (VNum 150)) <= bottomBoundary.
Proof.
  assert (Hover : bottomBoundary
                  < 270 + rowHeight (fun _ _ => [3%nat])
                            (exampleCategory MT_none 0 MD_proportional)
                            (exampleItem (VNum 2) (VNum 150))) by reflexivity.
  assert (Hsmall : rowHeight (fun _ _ => [3%nat]) (exampleCategory MT_none 0 MD_proportional)
                     (exampleItem (VNum 2) (VNum 150)) <= 220) by (vm_compute; discriminate).
  split; [exact Hover|]. split; [exact Hsmall|].
  pose proof (item_row_page_break digitsToNumber (fun _ _ => [3%nat])
                (exampleDocument MD_proportional)
                (exampleCategory MT_none 0 MD_proportional) 800
                {| sub_id := "s1"; sub_name := "General"; items := [] |}
                {| y := 270; page := 1; canvas := [] |} (exampleItem (VNum 2) (VNum 150)))
    as [Hbreak [_ Hwithin]].
  split.
  - exact (proj1 (Hbreak Hover)).
  - exact (Hwithin Hsmall).
Defined.

(** ** Every item row of the export stays above the boundary *)

Lemma rowsWithin_draw (op : DrawOp) (s : Pdf) :
  rowWithin op -> rowsWithin s -> rowsWithin (draw op s).
Proof.
  intros Hop Hs. unfold rowsWithin, draw. cbn.
  apply Forall_app. split; [exact Hs|]. constructor; [exact Hop|constructor].
Qed.

Lemma rowsWithin_setY (v : Q) (s : Pdf) : rowsWithin s -> rowsWithin (setY v s).
Proof. intros Hs. exact Hs. Qed.

Lemma rowsWithin_drawHeader (s : Pdf) : rowsWithin s -> rowsWithin (drawHeader s).
Proof.
  intros Hs. unfold drawHeader. apply rowsWithin_setY, rowsWithin_draw; [exact I|].
  now apply rowsWithin_setY.
Qed.

Lemma rowsWithin_addPage (s : Pdf) : rowsWithin s -> rowsWithin (addPage s).
Proof.
  intros Hs. unfold addPage.
  change (rowsWithin (draw AddPage s)). now apply rowsWithin_draw.
Qed.

Lemma rowsWithin_drawFooter (doc : DocumentState) (s : Pdf) :
  rowsWithin s -> rowsWithin (drawFooter doc s).
Proof. intros Hs. unfold drawFooter. now apply rowsWithin_draw. Qed.

Lemma rowsWithin_checkAndAddPage (doc : DocumentState) (h : Q) (s : Pdf) :
  rowsWithin s -> rowsWithin (checkAndAddPage doc h s).
Proof.
  intros Hs. unfold checkAndAddPage. destruct (Qgtb _ _); [|exact Hs].
  now apply rowsWithin_drawHeader, rowsWithin_addPage, rowsWithin_drawFooter.
Qed.

Lemma rowsWithin_drawCategoryTitle (category : CostCategory) (s : Pdf) :
  rowsWithin s -> rowsWithin (drawCategoryTitle category s).
Proof.
  intros Hs. unfold drawCategoryTitle. now apply rowsWithin_setY, rowsWithin_draw.
Qed.

Lemma rowsWithin_drawSubcategoryTitle (sub : Subcategory) (s : Pdf) :
  rowsWithin s -> rowsWithin (drawSubcategoryTitle sub s).
Proof.
  intros Hs. unfold drawSubcategoryTitle. now apply rowsWithin_setY, rowsWithin_draw.
Qed.

Lemma rowsWithin_drawColumnHeader (s : Pdf) :
  rowsWithin s -> rowsWithin (drawColumnHeader s).
Proof.
  intros Hs. unfold drawColumnHeader. now apply rowsWithin_setY, rowsWithin_draw.
Qed.

Lemma fold_left_invariant {A B : Type} (P : A -> Prop) (f : A -> B -> A) (l : list B) :
  (forall a b, P a -> P (f a b)) -> forall a, P a -> P (fold_left f l a).
Proof.
  intros Hstep. induction l as [|b l IH]; intros a Ha; simpl; auto.
Qed.

Section RowsWithin.
Variable StringToNumber : string -> option Q.
Variable cellLines : CostCategory -> Item -> list nat.
Variable doc : DocumentState.

(** Every row fits between the repeated column header and the boundary. *)
Hypothesis rows_fit : forall category item, rowHeight cellLines category item <= 220.

Lemma y_breakBeforeRow (category : CostCategory) (sub : Subcategory) (s : Pdf) :
  y (breakBeforeRow doc category sub s) <= 57.
Proof.
  unfold breakBeforeRow. destruct (hasSubcategoryTitle category sub); cbn;
    unfold HEADER_HEIGHT, MARGIN, tableHeaderHeight; lra.
Qed.

Lemma rowsWithin_breakBeforeRow (category : CostCategory) (sub : Subcategory) (s : Pdf) :
  rowsWithin s -> rowsWithin (breakBeforeRow doc category sub s).
Proof.
  intros Hs. unfold breakBeforeRow.
  apply rowsWithin_drawColumnHeader.
  destruct (hasSubcategoryTitle category sub);
    [apply rowsWithin_drawSubcategoryTitle|];
    now apply rowsWithin_drawCategoryTitle, rowsWithin_drawHeader,
      rowsWithin_addPage, rowsWithin_drawFooter.
Qed.

Lemma rowsWithin_exportItemRow (category : CostCategory) (raw : Q) (sub : Subcategory)
    (s : Pdf) (item : Item) :
  rowsWithin s ->
  rowsWithin (exportItemRow StringToNumber cellLines doc category raw sub s item).
Proof.
  intros Hs. unfold exportItemRow.
  apply rowsWithin_setY.
  destruct (Qgtb (y s + rowHeight cellLines category item) (MARGIN + DRAW_HEIGHT)) eqn:Hcmp.
  - apply rowsWithin_draw; [|now apply rowsWithin_breakBeforeRow].
    unfold rowWithin.
    pose proof (y_breakBeforeRow category sub s) as Hy.
    pose proof (rows_fit category item) as Hh.
    unfold bottomBoundary, DRAW_HEIGHT, A4_HEIGHT, FOOTER_HEIGHT, MARGIN. lra.
  - apply rowsWithin_draw; [|exact Hs].
    apply Qgtb_false in Hcmp. exact Hcmp.
Qed.

Lemma rowsWithin_exportSubcategory (category : CostCategory) (raw : Q)
    (s : Pdf) (sub : Subcategory) :
  rowsWithin s ->
  rowsWithin (exportSubcategory StringToNumber cellLines doc category raw s sub).
Proof.
  intros Hs. unfold exportSubcategory. destruct (negb (hasItems sub)); [exact Hs|].
  apply fold_left_invariant; [intros; now apply rowsWithin_exportItemRow|].
  apply rowsWithin_drawColumnHeader.
  destruct (hasSubcategoryTitle category sub);
    [apply rowsWithin_drawSubcategoryTitle|]; now apply rowsWithin_checkAndAddPage.
Qed.

Lemma rowsWithin_drawCategoryTotals (category : CostCategory) (s : Pdf) :
  rowsWithin s -> rowsWithin (drawCategoryTotals StringToNumber doc category s).
Proof.
  intros Hs. unfold drawCategoryTotals. destruct (Qgtb _ 0); [|exact Hs].
  apply rowsWithin_setY, rowsWithin_setY.
  match goal with |- rowsWithin (if ?b then _ else _) => destruct b end;
    repeat apply rowsWithin_setY;
    (apply rowsWithin_draw; [exact I|now apply rowsWithin_checkAndAddPage]).
Qed.

(** X1.  The invariant of the whole categories loop: when every
    row is at most 220 mm high, no item row written by the exporter passes
    the bottom content boundary, on whatever canvas the loop starts. *)
Lemma exportCategories_rows_within (s : Pdf) :
  rowsWithin s -> rowsWithin (exportCategories StringToNumber cellLines doc s).
Proof.
  unfold exportCategories. apply fold_left_invariant.
  intros a category Ha. unfold exportCategory.
  apply rowsWithin_setY, rowsWithin_drawCategoryTotals.
  apply fold_left_invariant; [intros; now apply rowsWithin_exportSubcategory|].
  now apply rowsWithin_drawCategoryTitle, rowsWithin_checkAndAddPage.
Qed.
End RowsWithin.

(** * Further properties of the code *)

(** ** The preview's rows against the category and document figures *)

Lemma Qsum_filter_split {A : Type} (f : A -> Q) (p : A -> bool) (l : list A) :
  Qsum (map f l)
  == Qsum (map f (List.filter p l)) + Qsum (map f (List.filter (fun a => negb (p a)) l)).
Proof.
  induction l as [|a l IH]; [reflexivity|].
  cbn [map List.filter]. destruct (p a); cbn [negb map]; rewrite !Qsum_cons, IH; ring.
Qed.

Lemma concat_items_shown (subs : list Subcategory) :
  concat (map items (List.filter hasItems subs)) = concat (map items subs).
Proof.
  induction subs as [|sub subs IH]; [reflexivity|].
  cbn [List.filter map concat]. unfold hasItems at 1.
  destruct (items sub) eqn:E; cbn [map concat]; rewrite ?E, IH; reflexivity.
Qed.

Lemma allItems_hidden (category : CostCategory) :
  isShown category = false -> allItems category = [].
Proof.
  unfold isShown, allItems. induction (subcategories category) as [|sub subs IH];
    [reflexivity|].
  cbn [existsb map concat]. intros H. apply orb_false_iff in H as [Hsub Hsubs].
  unfold hasItems in Hsub. destruct (items sub); [|discriminate].
  now rewrite IH.
Qed.

Section PreviewFacts.
Variable StringToNumber : string -> option Q.

Lemma previewCategory_rows (doc : DocumentState) (category : CostCategory) :
  concat (cf_rows (previewCategory StringToNumber doc category))
  = map snd (categoryRows StringToNumber doc category).
Proof.
  unfold previewCategory, categoryRows. cbn [cf_rows].
  rewrite List.map_map. cbn [snd].
  unfold allItems. rewrite <- concat_items_shown, concat_map, List.map_map.
  reflexivity.
Qed.

Lemma calculateCategoryTotal_reduce (category : CostCategory) :
  calculateCategoryTotal StringToNumber category
  == withMarkups category (reduceRawSubtotal StringToNumber category).
Proof.
  unfold calculateCategoryTotal, withMarkups.
  destruct (markupType category);
    rewrite categoryRawSubtotal_sum, reduceRawSubtotal_sum; reflexivity.
Qed.

Lemma itemMarkup_finite (category : CostCategory) (raw sub : Q) :
  (markupType category = MT_fixed -> 0 < raw) ->
  exists m, itemMarkup category raw sub = Some m /\
            m == match markupType category with
                 | MT_percentage => sub * (markupValue category / 100)
                 | MT_fixed => sub / raw * markupValue category
                 | MT_none => 0
                 end.
Proof.
  intros Hraw. unfold itemMarkup. destruct (markupType category).
  - eexists; split; reflexivity.
  - eexists; split; [reflexivity|]. now rewrite orZero_eq.
  - specialize (Hraw eq_refl). pose proof Hraw as Hgt. apply Qgtb_true in Hgt.
    rewrite Hgt, jsdiv_nonzero.
    + eexists; split; [reflexivity|]. now rewrite orZero_eq.
    + intros H0. rewrite H0 in Hraw. now apply Qlt_irrefl in Hraw.
Qed.

(** The three derived cells of the rows of one category, added up. *)
Lemma rows_sum (doc : DocumentState) (category : CostCategory) (raw : Q) (l : list Item) :
  (markupType category = MT_fixed -> 0 < raw) ->
  exists markups vats : list Q,
    map cell_markup (map (derivedCells StringToNumber (showVat doc) (vatRate doc) category raw) l)
    = map Some markups /\
    map cell_vat (map (derivedCells StringToNumber (showVat doc) (vatRate doc) category raw) l)
    = map Some vats /\
    Qsum markups
    == match markupType category with
       | MT_percentage =>
           Qsum (map (itemSubtotal StringToNumber) l) * (markupValue category / 100)
       | MT_fixed => Qsum (map (itemSubtotal StringToNumber) l) / raw * markupValue category
       | MT_none => 0
       end /\
    Qsum vats
    == if showVat doc && applyVat category
       then (Qsum (map (itemSubtotal StringToNumber) l) + Qsum markups) * (vatRate doc / 100)
       else 0.
Proof.
  intros Hraw.
  assert (Hne : markupType category = MT_fixed -> ~ raw == 0).
  { intros Hf H0. specialize (Hraw Hf). rewrite H0 in Hraw. now apply Qlt_irrefl in Hraw. }
  induction l as [|item l (markups & vats & Hm & Hv & Hsm & Hsv)].
  - exists [], []. cbn [map Qsum fold_right].
    split; [reflexivity|]. split; [reflexivity|]. split.
    + destruct (markupType category) eqn:Hmt; try reflexivity; try ring;
        try (field; now apply Hne).
    + destruct (showVat doc && applyVat category); ring.
  - destruct (itemMarkup_finite category raw (itemSubtotal StringToNumber item) Hraw)
      as (m & Hm1 & Hm2).
    exists (m :: markups),
      ((if showVat doc && applyVat category
        then (itemSubtotal StringToNumber item + m) * (vatRate doc / 100) else 0) :: vats).
    cbn [map derivedCells cell_markup cell_vat]. rewrite !Qsum_cons.
    split; [|split; [|split]].
    + now rewrite Hm1, Hm.
    + unfold vatOnItem at 1. rewrite Hm1, Hv.
      now destruct (showVat doc && applyVat category).
    + rewrite Hsm, Hm2. destruct (markupType category) eqn:Hmt; try ring.
      field. now apply Hne.
    + rewrite Hsv. destruct (showVat doc && applyVat category); ring.
Qed.

(** X4.  For a category of fewer than 2^20 items with quantities and
    unit prices that are not negative and moderate, a moderate markup value
    and VAT rate, and whose markup is not a fixed amount on a sum of
    quantity x unitPrice that is 0: up to binary64 rounding, the total and
    markup cells of the preview's rows add up to the category subtotal, the
    VAT cells add up to the category VAT, and all three together to the
    category total with VAT. *)
Theorem item_cells_add_up_to_category (doc : DocumentState) (category : CostCategory) :
  moderateItems StringToNumber category = true ->
  moderate (markupValue category) = true -> moderate (vatRate doc) = true ->
  (markupType category = MT_fixed -> 0 < spec_rawSubtotal StringToNumber category) ->
  let figures := previewCategory StringToNumber doc category in
  let rows := concat (cf_rows figures) in
  exists markups vats : list Q,
    map cell_markup rows = map Some markups /\
    map cell_vat rows = map Some vats /\
    Qsum (map cell_total rows) + Qsum markups == cf_categorySubtotal figures /\
    Qsum vats == cf_categoryVat figures /\
    Qsum (map cell_total rows) + Qsum markups + Qsum vats
    == cf_categoryTotalWithVat figures.
Proof.
  intros _ _ _ Hspec figures rows.
  assert (Hraw : markupType category = MT_fixed ->
                 0 < reduceRawSubtotal StringToNumber category).
  { intros Hf. rewrite reduceRawSubtotal_sum. now apply Hspec. }
  assert (Hrows : rows
                  = map (derivedCells StringToNumber (showVat doc) (vatRate doc) category
                           (reduceRawSubtotal StringToNumber category))
                        (allItems category)).
  { unfold rows, figures. rewrite previewCategory_rows. unfold categoryRows.
    now rewrite List.map_map. }
  destruct (rows_sum doc category _ (allItems category) Hraw)
    as (markups & vats & Hm & Hv & Hsm & Hsv).
  assert (Htotal : Qsum (map cell_total rows)
                   == reduceRawSubtotal StringToNumber category).
  { rewrite Hrows, List.map_map. cbn [derivedCells cell_total].
    now rewrite reduceRawSubtotal_items. }
  assert (Hne : markupType category = MT_fixed ->
                ~ reduceRawSubtotal StringToNumber category == 0).
  { intros Hf H0. specialize (Hraw Hf). rewrite H0 in Hraw. now apply Qlt_irrefl in Hraw. }
  assert (Hsub : Qsum (map cell_total rows) + Qsum markups == cf_categorySubtotal figures).
  { unfold figures, previewCategory. cbn [cf_categorySubtotal].
    rewrite calculateCategoryTotal_reduce, Htotal, Hsm. unfold withMarkups.
    destruct (markupType category) eqn:Hmt;
      rewrite ?orZero_eq, <- ?reduceRawSubtotal_items; try ring.
    field. now apply Hne. }
  assert (Hvat : Qsum vats == cf_categoryVat figures).
  { rewrite Hsv. unfold figures, previewCategory. cbn [cf_categoryVat].
    destruct (showVat doc && applyVat category); [|reflexivity].
    rewrite <- reduceRawSubtotal_items.
    unfold figures, previewCategory in Hsub. cbn [cf_categorySubtotal] in Hsub.
    rewrite <- Hsub, Htotal. reflexivity. }
  exists markups, vats. rewrite <- Hrows in Hm, Hv.
  split; [exact Hm|]. split; [exact Hv|]. split; [exact Hsub|]. split; [exact Hvat|].
  unfold figures, previewCategory. cbn [cf_categoryTotalWithVat].
  unfold figures, previewCategory in Hsub, Hvat.
  cbn [cf_categorySubtotal cf_categoryVat] in Hsub, Hvat.
  rewrite Hsub, Hvat. reflexivity.
Qed.

Lemma hidden_category_total (category : CostCategory) :
  isShown category = false ->
  calculateCategoryTotal StringToNumber category
  == if isFixed category then markupValue category else 0.
Proof.
  intros Hhidden. rewrite calculateCategoryTotal_reduce.
  pose proof (reduceRawSubtotal_items StringToNumber category) as Hraw.
  rewrite (allItems_hidden _ Hhidden) in Hraw. cbn [map Qsum fold_right] in Hraw.
  unfold withMarkups, isFixed.
  destruct (markupType category); rewrite ?orZero_eq, Hraw; ring.
Qed.

Lemma subtotal_sum (doc : DocumentState) :
  subtotal (calculateTotals StringToNumber doc)
  == Qsum (map (calculateCategoryTotal StringToNumber) (categories doc)) /\
  tax (calculateTotals StringToNumber doc)
  == Qsum (map (fun c => if showVat doc && applyVat c
                         then calculateCategoryTotal StringToNumber c * (vatRate doc / 100)
                         else 0)
               (categories doc)).
Proof.
  unfold calculateTotals.
  pose proof (totals_fold StringToNumber doc (categories doc) 0 0) as H. simpl in H.
  destruct (fold_left (totalsStep StringToNumber doc) (categories doc) (0, 0))
    as [s t] eqn:E.
  simpl in *. destruct H as [Hs Ht]. split.
  - rewrite Hs, Qplus_0_l. apply Qsum_pointwise. intros c.
    unfold calculateCategoryTotal. now rewrite withMarkups_spec.
  - rewrite Ht, Qplus_0_l. apply Qsum_pointwise. intros c.
    unfold spec_categoryVat, calculateCategoryTotal.
    destruct (showVat doc && applyVat c); [|reflexivity]. now rewrite withMarkups_spec.
Qed.

(** X5.  The preview lists only the categories that have an item,
    while calculateTotals runs over all of them: up to rounding (the sums
    are taken in exact arithmetic), the document subtotal is
    the sum of the category subtotals the preview shows plus the fixed
    markups of the categories it does not show, and the document tax is the
    sum of the shown category VAT plus the VAT on those hidden markups. *)
Theorem totals_include_hidden_fixed_markups (doc : DocumentState) :
  subtotal (calculateTotals StringToNumber doc)
  == Qsum (map cf_categorySubtotal (previewFigures StringToNumber doc))
     + hiddenFixedMarkup doc /\
  tax (calculateTotals StringToNumber doc)
  == Qsum (map cf_categoryVat (previewFigures StringToNumber doc))
     + hiddenFixedVat doc.
Proof.
  destruct (subtotal_sum doc) as [Hs Ht]. rewrite Hs, Ht. clear Hs Ht.
  unfold previewFigures, hiddenFixedMarkup, hiddenFixedVat.
  change (fun c : CostCategory => existsb hasItems (subcategories c)) with isShown.
  induction (categories doc) as [|c cats [IHs IHt]]; [split; reflexivity|].
  cbn [map List.filter]. rewrite !Qsum_cons, IHs, IHt.
  destruct (isShown c) eqn:Hshown; cbn [negb andb map].
  - rewrite !Qsum_cons. unfold previewCategory.
    cbn [cf_categorySubtotal cf_categoryVat]. split; ring.
  - pose proof (hidden_category_total c Hshown) as Hc.
    destruct (isFixed c), (showVat doc && applyVat c); cbn [negb andb map];
      rewrite ?Qsum_cons, Hc; split; ring.
Qed.
End PreviewFacts.

Lemma item_cells_add_up_to_category_witness :
  moderateItems digitsToNumber (exampleCategory MT_fixed 80 MD_proportional) = true /\
  moderate (markupValue (exampleCategory MT_fixed 80 MD_proportional)) = true /\
  moderate (vatRate (exampleDocument MD_per_item)) = true /\
  (markupType (exampleCategory MT_fixed 80 MD_proportional) = MT_fixed ->
   0 < spec_rawSubtotal digitsToNumber (exampleCategory MT_fixed 80 MD_proportional)) /\
  let figures :=
    previewCategory digitsToNumber (exampleDocument MD_per_item)
      (exampleCategory MT_fixed 80 MD_proportional) in
  let rows := concat (cf_rows figures) in
  exists markups vats : list Q,
    map cell_markup rows = map Some markups /\
    map cell_vat rows = map Some vats /\
    Qsum (map cell_total rows) + Qsum markups == cf_categorySubtotal figures /\
    Qsum vats == cf_categoryVat figures /\
    Qsum (map cell_total rows) + Qsum markups + Qsum vats
    == cf_categoryTotalWithVat figures.
Proof.
  split; [vm_compute; reflexivity|]. split; [vm_compute; reflexivity|].
  split; [vm_compute; reflexivity|]. split.
  - intros _. vm_compute. reflexivity.
  - apply (item_cells_add_up_to_category digitsToNumber (exampleDocument MD_per_item)
             (exampleCategory MT_fixed 80 MD_proportional));
      first [vm_compute; reflexivity | intros _; vm_compute; reflexivity].
Defined.

(** ** What the categories loop of the exporter puts on the canvas *)

Lemma countOps_snoc (p : DrawOp -> bool) (ops : list DrawOp) (op : DrawOp) :
  countOps p (ops ++ [op]) = (countOps p ops + if p op then 1 else 0)%nat.
Proof.
  unfold countOps. rewrite List.filter_app, length_app. cbn [List.filter].
  now destruct (p op).
Qed.

Lemma rowsOf_snoc (ops : list DrawOp) (op : DrawOp) :
  rowsOf (ops ++ [op])
  = (rowsOf ops ++ match rowOf op with Some r => [r] | None => [] end)%list.
Proof.
  unfold rowsOf. rewrite omap_app. cbn [omap list_omap]. now destruct (rowOf op).
Qed.

Lemma fold_left_concat_map {A B C : Type} (f : A -> B -> A) (obs : A -> list C)
    (added : B -> list C) (l : list B) :
  (forall a b, obs (f a b) = (obs a ++ added b)%list) ->
  forall a, obs (fold_left f l a) = (obs a ++ concat (map added l))%list.
Proof.
  intros Hstep. induction l as [|b l IH]; intros a; cbn [fold_left map concat].
  - now rewrite app_nil_r.
  - now rewrite IH, Hstep, <- app_assoc.
Qed.

Section ExportFacts.
Variable StringToNumber : string -> option Q.
Variable cellLines : CostCategory -> Item -> list nat.
Variable doc : DocumentState.

Lemma pagesInStep_refl (s : Pdf) : pagesInStep s s.
Proof. unfold pagesInStep. repeat split; lia. Qed.

Lemma pagesInStep_setY (s0 s : Pdf) (v : Q) : pagesInStep s0 s -> pagesInStep s0 (setY v s).
Proof. intros H. exact H. Qed.

Lemma pagesInStep_draw (s0 s : Pdf) (op : DrawOp) :
  isAddPage op = false -> isFooter op = false -> isHeader op = false ->
  pagesInStep s0 s -> pagesInStep s0 (draw op s).
Proof.
  intros Ha Hf Hh H. unfold pagesInStep, draw in *. cbn [canvas page].
  rewrite !countOps_snoc, Ha, Hf, Hh, !Nat.add_0_r. exact H.
Qed.

Lemma pagesInStep_break (s0 s : Pdf) :
  pagesInStep s0 s -> pagesInStep s0 (drawHeader (addPage (drawFooter doc s))).
Proof.
  intros H. unfold pagesInStep, drawHeader, addPage, drawFooter, setY, draw in *.
  cbn [canvas page]. rewrite !countOps_snoc. cbn [isAddPage isFooter isHeader].
  destruct H as (H1 & H2 & H3 & H4 & H5 & H6 & H7). repeat split; lia.
Qed.

Lemma pagesInStep_checkAndAddPage (s0 s : Pdf) (h : Q) :
  pagesInStep s0 s -> pagesInStep s0 (checkAndAddPage doc h s).
Proof.
  intros H. unfold checkAndAddPage. destruct (Qgtb _ _); [|exact H].
  now apply pagesInStep_break.
Qed.

Lemma pagesInStep_drawCategoryTitle (s0 s : Pdf) (category : CostCategory) :
  pagesInStep s0 s -> pagesInStep s0 (drawCategoryTitle category s).
Proof.
  intros H. unfold drawCategoryTitle. now apply pagesInStep_setY, pagesInStep_draw.
Qed.

Lemma pagesInStep_drawSubcategoryTitle (s0 s : Pdf) (sub : Subcategory) :
  pagesInStep s0 s -> pagesInStep s0 (drawSubcategoryTitle sub s).
Proof.
  intros H. unfold drawSubcategoryTitle. now apply pagesInStep_setY, pagesInStep_draw.
Qed.

Lemma pagesInStep_drawColumnHeader (s0 s : Pdf) :
  pagesInStep s0 s -> pagesInStep s0 (drawColumnHeader s).
Proof.
  intros H. unfold drawColumnHeader. now apply pagesInStep_setY, pagesInStep_draw.
Qed.

Lemma pagesInStep_exportItemRow (s0 s : Pdf) (category : CostCategory) (raw : Q)
    (sub : Subcategory) (item : Item) :
  pagesInStep s0 s ->
  pagesInStep s0 (exportItemRow StringToNumber cellLines doc category raw sub s item).
Proof.
  intros H. unfold exportItemRow. apply pagesInStep_setY, pagesInStep_draw; try reflexivity.
  destruct (Qgtb _ _); [|exact H]. unfold breakBeforeRow.
  apply pagesInStep_drawColumnHeader.
  destruct (hasSubcategoryTitle category sub);
    [apply pagesInStep_drawSubcategoryTitle|];
    now apply pagesInStep_drawCategoryTitle, pagesInStep_break.
Qed.

Lemma pagesInStep_exportCategory (s0 s : Pdf) (category : CostCategory) :
  pagesInStep s0 s ->
  pagesInStep s0 (exportCategory StringToNumber cellLines doc s category).
Proof.
  intros H. unfold exportCategory. apply pagesInStep_setY.
  assert (Hsubs :
    pagesInStep s0
      (fold_left (exportSubcategory StringToNumber cellLines doc category
                    (reduceRawSubtotal StringToNumber category))
         (subcategories category)
         (drawCategoryTitle category (checkAndAddPage doc (12 + tableHeaderHeight + 10) s)))).
  { apply fold_left_invariant.
    - intros a sub Ha. unfold exportSubcategory. destruct (negb (hasItems sub)); [exact Ha|].
      apply fold_left_invariant; [intros; now apply pagesInStep_exportItemRow|].
      apply pagesInStep_drawColumnHeader.
      destruct (hasSubcategoryTitle category sub);
        [apply pagesInStep_drawSubcategoryTitle|];
        now apply pagesInStep_checkAndAddPage.
    - now apply pagesInStep_drawCategoryTitle, pagesInStep_checkAndAddPage. }
  unfold drawCategoryTotals. destruct (Qgtb _ 0); [|exact Hsubs].
  apply pagesInStep_setY, pagesInStep_setY.
  match goal with |- pagesInStep _ (if ?b then _ else _) => destruct b end;
    repeat apply pagesInStep_setY;
    (apply pagesInStep_draw; try reflexivity; now apply pagesInStep_checkAndAddPage).
Qed.

Lemma pagesInStep_exportCategories (s : Pdf) :
  pagesInStep s (exportCategories StringToNumber cellLines doc s).
Proof.
  unfold exportCategories. apply fold_left_invariant.
  - intros a category Ha. now apply pagesInStep_exportCategory.
  - apply pagesInStep_refl.
Qed.

(** Item rows are observed through [rowsOf]. *)
Lemma rowsOf_draw_other (op : DrawOp) (s : Pdf) :
  rowOf op = None -> rowsOf (canvas (draw op s)) = rowsOf (canvas s).
Proof.
  intros Hop. unfold draw. cbn [canvas]. now rewrite rowsOf_snoc, Hop, app_nil_r.
Qed.

Lemma rowsOf_break (s : Pdf) :
  rowsOf (canvas (drawHeader (addPage (drawFooter doc s)))) = rowsOf (canvas s).
Proof.
  unfold drawHeader, addPage, drawFooter, setY, draw. cbn [canvas].
  now rewrite !rowsOf_snoc, !app_nil_r.
Qed.

Lemma rowsOf_checkAndAddPage (h : Q) (s : Pdf) :
  rowsOf (canvas (checkAndAddPage doc h s)) = rowsOf (canvas s).
Proof.
  unfold checkAndAddPage. destruct (Qgtb _ _); [apply rowsOf_break|reflexivity].
Qed.

Lemma rowsOf_exportItemRow (category : CostCategory) (raw : Q) (sub : Subcategory)
    (s : Pdf) (item : Item) :
  rowsOf (canvas (exportItemRow StringToNumber cellLines doc category raw sub s item))
  = (rowsOf (canvas s)
     ++ [(item, derivedCells StringToNumber (showVat doc) (vatRate doc) category raw item)])%list.
Proof.
  unfold exportItemRow, setY, draw. cbn [canvas]. rewrite rowsOf_snoc. cbn [rowOf].
  f_equal. destruct (Qgtb _ _); [|reflexivity].
  unfold breakBeforeRow, drawColumnHeader, drawSubcategoryTitle, drawCategoryTitle.
  destruct (hasSubcategoryTitle category sub); unfold setY, draw; cbn [canvas];
    rewrite !rowsOf_snoc; cbn [rowOf]; rewrite !app_nil_r; apply rowsOf_break.
Qed.

Lemma rowsOf_exportSubcategory (category : CostCategory) (raw : Q) (s : Pdf)
    (sub : Subcategory) :
  rowsOf (canvas (exportSubcategory StringToNumber cellLines doc category raw s sub))
  = (rowsOf (canvas s)
     ++ map (fun item =>
               (item, derivedCells StringToNumber (showVat doc) (vatRate doc) category raw item))
            (items sub))%list.
Proof.
  unfold exportSubcategory. unfold hasItems at 1.
  destruct (items sub) as [|item l] eqn:E; cbn [negb].
  - now rewrite app_nil_r.
  - rewrite <- E.
    rewrite (fold_left_concat_map
               (exportItemRow StringToNumber cellLines doc category raw sub)
               (fun s => rowsOf (canvas s))
               (fun item =>
                  [(item,
                    derivedCells StringToNumber (showVat doc) (vatRate doc) category raw
                      item)])).
    + f_equal.
      * unfold drawColumnHeader, drawSubcategoryTitle.
        destruct (hasSubcategoryTitle category sub); unfold setY, draw; cbn [canvas];
          rewrite !rowsOf_snoc; cbn [rowOf]; rewrite !app_nil_r;
          apply rowsOf_checkAndAddPage.
      * clear E. induction (items sub) as [|i l' IH]; [reflexivity|].
        cbn [map concat app]. now rewrite IH.
    + intros a b. apply rowsOf_exportItemRow.
Qed.

Lemma rowsOf_exportCategory (s : Pdf) (category : CostCategory) :
  rowsOf (canvas (exportCategory StringToNumber cellLines doc s category))
  = (rowsOf (canvas s) ++ categoryRows StringToNumber doc category)%list.
Proof.
  unfold exportCategory. cbn [setY canvas].
  assert (Htotals : forall a,
    rowsOf (canvas (drawCategoryTotals StringToNumber doc category a)) = rowsOf (canvas a)).
  { intros a. unfold drawCategoryTotals. destruct (Qgtb _ 0); [|reflexivity].
    match goal with |- context [if ?b then setY _ _ else _] => destruct b end;
      unfold setY, draw; cbn [canvas]; rewrite rowsOf_snoc; cbn [rowOf];
      rewrite app_nil_r; apply rowsOf_checkAndAddPage. }
  rewrite Htotals.
  rewrite (fold_left_concat_map
             (exportSubcategory StringToNumber cellLines doc category
                (reduceRawSubtotal StringToNumber category))
             (fun s => rowsOf (canvas s))
             (fun sub =>
                map (fun item =>
                       (item,
                        derivedCells StringToNumber (showVat doc) (vatRate doc) category
                          (reduceRawSubtotal StringToNumber category) item))
                    (items sub))).
  - f_equal.
    + unfold drawCategoryTitle, setY, draw. cbn [canvas].
      rewrite rowsOf_snoc. cbn [rowOf]. rewrite app_nil_r. apply rowsOf_checkAndAddPage.
    + unfold categoryRows, allItems. now rewrite concat_map, List.map_map.
  - intros a b. apply rowsOf_exportSubcategory.
Qed.

(** X3.  The exporter draws one row per item of the document, in
    document order and with no row twice, even across page breaks, and the
    total, markup and VAT figures of each row are those of the corresponding
    row of the live preview. *)
Theorem exported_rows_are_preview_rows (s : Pdf) :
  rowsOf (canvas (exportCategories StringToNumber cellLines doc s))
  = (rowsOf (canvas s)
     ++ concat (map (categoryRows StringToNumber doc) (categories doc)))%list /\
  map fst (concat (map (categoryRows StringToNumber doc) (categories doc)))
  = concat (map allItems (categories doc)) /\
  map snd (concat (map (categoryRows StringToNumber doc) (categories doc)))
  = concat (concat (map cf_rows (previewFigures StringToNumber doc))).
Proof.
  split; [|split].
  - unfold exportCategories.
    rewrite (fold_left_concat_map (exportCategory StringToNumber cellLines doc)
               (fun s => rowsOf (canvas s)) (categoryRows StringToNumber doc))
      by (intros; apply rowsOf_exportCategory).
    f_equal. induction (categories doc) as [|c cats IH]; [reflexivity|].
    cbn [List.filter map concat]. fold (isShown c) in *.
    destruct (isShown c) eqn:Hshown; cbn [map concat]; rewrite IH; [reflexivity|].
    unfold categoryRows at 2. now rewrite (allItems_hidden _ Hshown).
  - rewrite concat_map, List.map_map. f_equal. apply map_ext. intros c.
    unfold categoryRows. rewrite List.map_map. cbn [fst]. apply map_id.
  - unfold previewFigures.
    induction (categories doc) as [|c cats IH]; [reflexivity|].
    cbn [List.filter map concat]. rewrite map_app, IH. fold (isShown c).
    destruct (isShown c) eqn:Hshown; cbn [map concat].
    + rewrite concat_app. f_equal. symmetry. apply previewCategory_rows.
    + unfold categoryRows. now rewrite (allItems_hidden _ Hshown).
Qed.
End ExportFacts.

(** ** Adding blank items *)

Lemma Qsum_concat {A B : Type} (g : B -> Q) (h : A -> list B) (l : list A) :
  Qsum (map g (concat (map h l))) == Qsum (map (fun a => Qsum (map g (h a))) l).
Proof.
  induction l as [|a l IH]; [reflexivity|].
  cbn [map concat]. rewrite map_app, Qsum_app, Qsum_cons, IH. reflexivity.
Qed.

Lemma Qsum_insert {A : Type} (f : A -> Q) (l : list A) (i : nat) (a a' : A) :
  l !! i = Some a -> f a' == f a -> Qsum (map f (<[i := a']> l)) == Qsum (map f l).
Proof.
  revert i. induction l as [|b l IH]; intros [|i] Hi Hf; try discriminate.
  - injection Hi as ->. cbn. now rewrite Hf.
  - cbn [insert list_insert map]. change (list_insert i a' l) with (<[i := a']> l).
    rewrite !Qsum_cons, (IH i) by assumption. reflexivity.
Qed.

Section AddItemsFacts.
Variable StringToNumber : string -> option Q.
Variable randomUUID : nat -> string.
Variable columnDefinitions : gmap string ColumnDefinition.

(** The registry types the unit price as a number, as the initial registry
    does, or has no such column. *)
Hypothesis unitPrice_number :
  forall def, columnDefinitions !! "unitPrice" = Some def -> dataType def = DT_number.

Lemma newItem_subtotal (id : string) :
  itemSubtotal StringToNumber (newItem id columnDefinitions) == 0.
Proof.
  unfold itemSubtotal.
  assert (H : numberOrZero StringToNumber
                (getField (newItem id columnDefinitions) "unitPrice") == 0);
    [|rewrite H; ring].
  unfold getField, newItem.
  destruct (columnDefinitions !! "unitPrice") as [def|] eqn:E.
  - erewrite lookup_union_Some_l
      by (rewrite map_lookup_imap, E; reflexivity).
    cbn [default]. unfold initialValue.
    rewrite bool_decide_eq_false_2 by discriminate.
    rewrite (unitPrice_number def eq_refl). reflexivity.
  - rewrite lookup_union_r by (rewrite map_lookup_imap, E; reflexivity).
    rewrite lookup_singleton_ne by discriminate. reflexivity.
Qed.

Lemma itemsToAdd_subtotal (count : nat) :
  Qsum (map (itemSubtotal StringToNumber) (itemsToAdd randomUUID columnDefinitions count))
  == 0.
Proof.
  unfold itemsToAdd. rewrite List.map_map.
  induction (seq 0 count) as [|k l IH]; [reflexivity|].
  cbn [map]. rewrite Qsum_cons, IH, newItem_subtotal. ring.
Qed.

(** X7.  While the registry types the unit price as a number, adding
    any number of blank items to any subcategory changes none of the
    document totals. *)
Theorem blank_items_keep_totals (doc : DocumentState) (activeCategoryIndex : Z)
    (subIndex : nat) (count : Z) :
  let doc' := handleAddItems randomUUID columnDefinitions doc activeCategoryIndex
                subIndex count in
  subtotal (calculateTotals StringToNumber doc')
  == subtotal (calculateTotals StringToNumber doc) /\
  tax (calculateTotals StringToNumber doc') == tax (calculateTotals StringToNumber doc) /\
  total (calculateTotals StringToNumber doc') == total (calculateTotals StringToNumber doc).
Proof.
  cbv zeta.
  assert (Hst :
    subtotal (calculateTotals StringToNumber
                (handleAddItems randomUUID columnDefinitions doc activeCategoryIndex
                   subIndex count))
    == subtotal (calculateTotals StringToNumber doc) /\
    tax (calculateTotals StringToNumber
           (handleAddItems randomUUID columnDefinitions doc activeCategoryIndex
              subIndex count))
    == tax (calculateTotals StringToNumber doc)).
  { unfold handleAddItems.
    destruct ((activeCategoryIndex =? -1)%Z || (count <=? 0)%Z);
      [split; reflexivity|].
    destruct (categories doc !! Z.to_nat activeCategoryIndex) as [category|] eqn:Hcat;
      [|split; reflexivity].
    destruct (subcategories category !! subIndex) as [sub|] eqn:Hsub;
      [|split; reflexivity].
    match goal with
    | |- context [<[Z.to_nat activeCategoryIndex := ?c]> (categories doc)] =>
        set (category' := c)
    end.
    assert (Hsame : calculateCategoryTotal StringToNumber category'
                    == calculateCategoryTotal StringToNumber category).
    { rewrite !calculateCategoryTotal_reduce.
      assert (Hraw : reduceRawSubtotal StringToNumber category'
                     == reduceRawSubtotal StringToNumber category).
      { rewrite !reduceRawSubtotal_items. unfold allItems, category'.
        cbn [subcategories]. rewrite !Qsum_concat.
        apply Qsum_insert with (1 := Hsub). cbn [items].
        rewrite map_app, Qsum_app, itemsToAdd_subtotal. ring. }
      unfold withMarkups.
      change (markupType category') with (markupType category).
      change (markupValue category') with (markupValue category).
      destruct (markupType category); rewrite Hraw; reflexivity. }
    destruct (subtotal_sum StringToNumber doc) as [Hs Ht].
    match goal with
    | |- subtotal (calculateTotals _ ?d) == _ /\ _ =>
        destruct (subtotal_sum StringToNumber d) as [Hs' Ht']
    end.
    cbn [categories showVat vatRate] in Hs', Ht'.
    rewrite Hs, Hs', Ht, Ht'. split.
    - now apply Qsum_insert with (1 := Hcat).
    - apply Qsum_insert with (1 := Hcat).
      unfold category' at 1. cbn [applyVat]. fold category'.
      destruct (showVat doc && applyVat category); [|reflexivity].
      now rewrite Hsame. }
  destruct Hst as [Hs Ht]. split; [exact Hs|]. split; [exact Ht|].
  unfold calculateTotals in *.
  destruct (fold_left _ (categories doc) _) as [s t].
  destruct (fold_left _ (categories _) _) as [s' t'].
  cbn [subtotal tax total] in *. now rewrite Hs, Ht.
Qed.
End AddItemsFacts.

Lemma blank_items_keep_totals_witness :
  (forall def, INITIAL_COLUMN_DEFINITIONS !! "unitPrice" = Some def ->
               dataType def = DT_number) /\
  let doc' := handleAddItems (fun k => stringOfZ (Z.of_nat k)) INITIAL_COLUMN_DEFINITIONS
                (exampleDocument MD_proportional) 1 0 3 in
  subtotal (calculateTotals digitsToNumber doc')
  == subtotal (calculateTotals digitsToNumber (exampleDocument MD_proportional)) /\
  tax (calculateTotals digitsToNumber doc')
  == tax (calculateTotals digitsToNumber (exampleDocument MD_proportional)) /\
  total (calculateTotals digitsToNumber doc')
  == total (calculateTotals digitsToNumber (exampleDocument MD_proportional)).
Proof.
  assert (H : forall def, INITIAL_COLUMN_DEFINITIONS !! "unitPrice" = Some def ->
                          dataType def = DT_number).
  { intros def Hdef. vm_compute in Hdef. injection Hdef as <-. reflexivity. }
  split; [exact H|].
  exact (blank_items_keep_totals digitsToNumber (fun k => stringOfZ (Z.of_nat k))
           INITIAL_COLUMN_DEFINITIONS H (exampleDocument MD_proportional) 1 0%nat 3).
Defined.

(** For a valid category and subcategory index and a positive count,
    handleAddItems appends exactly [count] new items after the items of the
    chosen subcategory and leaves every other subcategory, every other
    category and the number of categories as they were. *)
Lemma handleAddItems_appends_only (randomUUID : nat -> string)
    (columnDefinitions : gmap string ColumnDefinition) (doc : DocumentState)
    (index subIndex : nat) (count : Z) (category : CostCategory) (sub : Subcategory) :
  (0 < count)%Z ->
  categories doc !! index = Some category ->
  subcategories category !! subIndex = Some sub ->
  let doc' := handleAddItems randomUUID columnDefinitions doc (Z.of_nat index)
                subIndex count in
  exists category' sub',
    categories doc' !! index = Some category' /\
    subcategories category' !! subIndex = Some sub' /\
    items sub' = (items sub ++ itemsToAdd randomUUID columnDefinitions (Z.to_nat count))%list /\
    length (items sub') = (length (items sub) + Z.to_nat count)%nat /\
    (forall j, j <> subIndex -> subcategories category' !! j = subcategories category !! j) /\
    (forall i, i <> index -> categories doc' !! i = categories doc !! i) /\
    length (categories doc') = length (categories doc).
Proof.
  intros Hcount Hcat Hsub. cbv zeta. unfold handleAddItems.
  replace (Z.of_nat index =? -1)%Z with false by (symmetry; apply Z.eqb_neq; lia).
  replace (count <=? 0)%Z with false by (symmetry; apply Z.leb_gt; lia).
  cbn [orb]. rewrite Nat2Z.id, Hcat, Hsub. cbn [categories].
  eexists _, _. split; [|split; [|split; [|split; [|split; [|split]]]]].
  - apply list_lookup_insert_eq. now apply lookup_lt_Some in Hcat.
  - cbn [subcategories]. apply list_lookup_insert_eq. now apply lookup_lt_Some in Hsub.
  - reflexivity.
  - cbn [items]. unfold itemsToAdd. now rewrite length_app, length_map, length_seq.
  - intros j Hj. cbn [subcategories]. now apply list_lookup_insert_ne.
  - intros i Hi. now apply list_lookup_insert_ne.
  - apply length_insert.
Qed.

(** ** Folio sequences: written by generateFolio, read back by the editor *)

Lemma split_noHyphen (p : string) : noHyphen p = true -> split "-" p = [p].
Proof.
  unfold noHyphen. induction p as [|c p IH]; [reflexivity|].
  cbn [list_ascii_of_string forallb split]. intros H.
  apply andb_true_iff in H as [Hc Hp]. apply negb_true_iff in Hc.
  now rewrite Hc, (IH Hp).
Qed.

Lemma split_at_first_hyphen (p q : string) :
  noHyphen p = true -> split "-" (p ++ String "-" q) = p :: split "-" q.
Proof.
  unfold noHyphen. induction p as [|c p IH].
  - reflexivity.
  - cbn [list_ascii_of_string forallb]. intros H.
    apply andb_true_iff in H as [Hc Hp]. apply negb_true_iff in Hc.
    change (String c p ++ String "-" q) with (String c (p ++ String "-" q)).
    cbn [split]. now rewrite Hc, (IH Hp).
Qed.

Lemma append_assoc (a b c : string) : (a ++ b) ++ c = a ++ (b ++ c).
Proof.
  induction a as [|x a IH]; [reflexivity|].
  change (String x a ++ b) with (String x (a ++ b)).
  change (String x (a ++ b) ++ c) with (String x ((a ++ b) ++ c)).
  now rewrite IH.
Qed.

Lemma list_ascii_of_string_app (a b : string) :
  list_ascii_of_string (a ++ b) = (list_ascii_of_string a ++ list_ascii_of_string b)%list.
Proof.
  induction a as [|c a IH]; [reflexivity|].
  change (String c a ++ b) with (String c (a ++ b)).
  cbn [list_ascii_of_string app]. now rewrite IH.
Qed.

Lemma zeros_chars (k : nat) :
  list_ascii_of_string (String.concat "" (repeat "0"%string k)) = repeat "0"%char k.
Proof.
  induction k as [|k IH]; [reflexivity|].
  cbn [repeat String.concat]. destruct k as [|k]; [reflexivity|].
  cbn [repeat] in *. rewrite !list_ascii_of_string_app, IH. reflexivity.
Qed.

Lemma padStart0_chars (n : nat) (s : string) :
  list_ascii_of_string (padStart0 n s)
  = (repeat "0"%char (n - String.length s) ++ list_ascii_of_string s)%list.
Proof. unfold padStart0. now rewrite list_ascii_of_string_app, zeros_chars. Qed.

Lemma leadingDigits_all (s : string) :
  forallb isDigit (list_ascii_of_string s) = true ->
  leadingDigits s = list_ascii_of_string s.
Proof.
  induction s as [|c s IH]; [reflexivity|].
  cbn [list_ascii_of_string forallb leadingDigits]. intros H.
  apply andb_true_iff in H as [Hc Hs]. now rewrite Hc, (IH Hs).
Qed.

Lemma digit_noHyphen (s : string) :
  forallb isDigit (list_ascii_of_string s) = true -> noHyphen s = true.
Proof.
  unfold noHyphen. induction (list_ascii_of_string s) as [|c l IH]; [reflexivity|].
  cbn [forallb]. intros H. apply andb_true_iff in H as [Hc Hl].
  rewrite (IH Hl), andb_true_r. apply negb_true_iff.
  destruct (Ascii.eqb c "-") eqn:E; [|reflexivity].
  apply Ascii.eqb_eq in E. subst c. discriminate.
Qed.

(** A non-empty run of digits is what parseInt reads. *)
Lemma parseInt10_digits (s : string) :
  s <> "" -> forallb isDigit (list_ascii_of_string s) = true ->
  parseInt10 s = Some (digitsValue (list_ascii_of_string s)).
Proof.
  intros Hne Hdigits. destruct s as [|c s]; [contradiction|].
  pose proof Hdigits as Hc. cbn [list_ascii_of_string forallb] in Hc.
  apply andb_true_iff in Hc as [Hc _].
  unfold parseInt10. cbn [trimStart].
  assert (Hws : isWhiteSpace c = false).
  { revert Hc. unfold isDigit, digitValue, isWhiteSpace.
    destruct ((48 <=? nat_of_ascii c)%nat && (nat_of_ascii c <=? 57)%nat) eqn:E;
      [|discriminate].
    intros _. apply andb_true_iff in E as [E1 E2].
    apply Nat.leb_le in E1. apply Nat.leb_le in E2.
    repeat (apply orb_false_iff; split).
    - apply andb_false_iff. right. apply Nat.leb_gt. lia.
    - apply Nat.eqb_neq. lia.
    - apply Nat.eqb_neq. lia. }
  rewrite Hws.
  assert (Hsign : c <> "-"%char /\ c <> "+"%char).
  { split; intros ->; discriminate. }
  destruct Hsign as [Hminus Hplus].
  assert (Hbranch :
    match String c s with
    | String "-" rest => ((-1)%Z, rest)
    | String "+" rest => (1%Z, rest)
    | _ => (1%Z, String c s)
    end = (1%Z, String c s)).
  { destruct c as [[] [] [] [] [] [] [] []]; try reflexivity; congruence. }
  rewrite Hbranch, (leadingDigits_all _ Hdigits).
  cbn [list_ascii_of_string]. f_equal. lia.
Qed.

Lemma digitsValue_app (l1 l2 : list ascii) (acc : Z) :
  fold_left (fun acc c => (10 * acc + Z.of_nat (default 0%nat (digitValue c)))%Z)
            (l1 ++ l2) acc
  = fold_left (fun acc c => (10 * acc + Z.of_nat (default 0%nat (digitValue c)))%Z) l2
      (fold_left (fun acc c => (10 * acc + Z.of_nat (default 0%nat (digitValue c)))%Z) l1 acc).
Proof. apply fold_left_app. Qed.

Lemma digitsValue_zeros (k : nat) :
  fold_left (fun acc c => (10 * acc + Z.of_nat (default 0%nat (digitValue c)))%Z)
            (repeat "0"%char k) 0%Z = 0%Z.
Proof. induction k as [|k IH]; [reflexivity|]. cbn [repeat fold_left]. exact IH. Qed.

Lemma uint_digits (d : Decimal.uint) :
  forallb isDigit (list_ascii_of_string (NilEmpty.string_of_uint d)) = true.
Proof. induction d; cbn; auto. Qed.

Lemma uint_value_pos (d : Decimal.uint) (p : positive) :
  fold_left (fun acc c => (10 * acc + Z.of_nat (default 0%nat (digitValue c)))%Z)
            (list_ascii_of_string (NilEmpty.string_of_uint d)) (Z.pos p)
  = Z.pos (Pos.of_uint_acc d p).
Proof.
  revert p. induction d as [|d IH|d IH|d IH|d IH|d IH|d IH|d IH|d IH|d IH|d IH];
    intros p; [reflexivity|..];
    cbn [NilEmpty.string_of_uint list_ascii_of_string fold_left Pos.of_uint_acc];
    rewrite <- IH; f_equal;
    try match goal with
        | |- context [Z.of_nat ?x] =>
            let v := eval vm_compute in (Z.of_nat x) in change (Z.of_nat x) with v
        end; lia.
Qed.

Lemma uint_value (d : Decimal.uint) :
  fold_left (fun acc c => (10 * acc + Z.of_nat (default 0%nat (digitValue c)))%Z)
            (list_ascii_of_string (NilEmpty.string_of_uint d)) 0%Z
  = Z.of_N (Pos.of_uint d).
Proof.
  induction d as [|d IH|d IH|d IH|d IH|d IH|d IH|d IH|d IH|d IH|d IH];
    [reflexivity|exact IH|..];
    cbn [NilEmpty.string_of_uint list_ascii_of_string fold_left Pos.of_uint N.of_uint Z.of_N];
    apply (uint_value_pos d).
Qed.

(** [String(n)] of a natural number is its decimal numeral. *)
Lemma stringOfZ_digits (n : Z) :
  (0 <= n)%Z ->
  stringOfZ n <> "" /\
  forallb isDigit (list_ascii_of_string (stringOfZ n)) = true /\
  digitsValue (list_ascii_of_string (stringOfZ n)) = n.
Proof.
  intros Hn. unfold stringOfZ, digitsValue. destruct n as [|p|p]; [|clear Hn|lia].
  - repeat split. discriminate.
  - cbn [Z.to_int NilZero.string_of_int].
    pose proof (DecimalPos.Unsigned.to_uint_nonnil p) as Hnil.
    assert (Hs : NilZero.string_of_uint (Pos.to_uint p)
                 = NilEmpty.string_of_uint (Pos.to_uint p)).
    { destruct (Pos.to_uint p); [contradiction|reflexivity..]. }
    rewrite Hs. split; [|split].
    + destruct (Pos.to_uint p); [contradiction|discriminate..].
    + apply uint_digits.
    + rewrite uint_value, DecimalPos.Unsigned.of_to. reflexivity.
Qed.

(** The six-digit sequence part of a folio reads back as the sequence. *)
Lemma sequencePart_parses (n : Z) :
  (0 <= n)%Z ->
  forallb isDigit (list_ascii_of_string (padStart0 6 (stringOfZ n))) = true /\
  padStart0 6 (stringOfZ n) <> "" /\
  parseInt10 (padStart0 6 (stringOfZ n)) = Some n.
Proof.
  intros Hn. destruct (stringOfZ_digits n Hn) as (Hne & Hdigits & Hvalue).
  assert (Hall : forallb isDigit (list_ascii_of_string (padStart0 6 (stringOfZ n))) = true).
  { rewrite padStart0_chars, forallb_app, Hdigits, andb_true_r.
    induction (6 - String.length (stringOfZ n))%nat as [|k IH]; [reflexivity|exact IH]. }
  assert (Hne' : padStart0 6 (stringOfZ n) <> "").
  { unfold padStart0. intros H.
    destruct (String.concat "" _); [cbn in H; contradiction|discriminate]. }
  split; [exact Hall|]. split; [exact Hne'|].
  rewrite (parseInt10_digits _ Hne' Hall). f_equal.
  unfold digitsValue in *.
  now rewrite padStart0_chars, digitsValue_app, digitsValue_zeros.
Qed.

Section FolioFacts.
Variable LocalTZA : Z -> Z.

Lemma generateFolio_parts (p : string) (n date : Z) :
  noHyphen p = true -> (0 <= n)%Z ->
  split "-" (generateFolio LocalTZA (p ++ "-") n date)
  = p :: padStart0 6 (stringOfZ n) :: split "-" (getJulianDate LocalTZA date).
Proof.
  intros Hp Hn. unfold generateFolio.
  rewrite append_assoc.
  change ("-" ++ padStart0 6 (stringOfZ n) ++ "-" ++ getJulianDate LocalTZA date)
    with (String "-" (padStart0 6 (stringOfZ n)
                      ++ String "-" (getJulianDate LocalTZA date))).
  rewrite (split_at_first_hyphen _ _ Hp). f_equal.
  apply split_at_first_hyphen, digit_noHyphen.
  now destruct (sequencePart_parses n Hn).
Qed.

Lemma folio_sequence_parses (p : string) (n date : Z) :
  noHyphen p = true -> (0 <= n)%Z ->
  parseInt10 (nth 1 (split "-" (generateFolio LocalTZA (p ++ "-") n date)) "") = Some n.
Proof.
  intros Hp Hn. rewrite (generateFolio_parts _ _ _ Hp Hn). cbn [nth].
  now destruct (sequencePart_parses n Hn) as (_ & _ & H).
Qed.

(** X18.  When the prefix ends in its only hyphen and the sequence
    is a whole number from 0 to 2^53 - 1, the second hyphen-separated part
    of a generated folio parses back to the sequence it was generated with,
    whatever the date and the host's time zone. *)
Theorem folio_sequence_round_trip (p : string) (n date : Z) :
  noHyphen p = true -> (0 <= n <= MAX_SAFE_INTEGER)%Z ->
  parseInt10 (nth 1 (split "-" (generateFolio LocalTZA (p ++ "-") n date)) "") = Some n.
Proof.
  intros Hp [Hn _]. now apply folio_sequence_parses.
Qed.
End FolioFacts.

Lemma folio_sequence_round_trip_witness :
  noHyphen "COT" = true /\ (0 <= 7 <= MAX_SAFE_INTEGER)%Z /\
  parseInt10
    (nth 1 (split "-" (generateFolio (fun _ => (-6 * 3600000)%Z) ("COT" ++ "-") 7
                         (dateUTC 2024 3 5))) "")
  = Some 7%Z.
Proof.
  assert (H1 : noHyphen "COT" = true) by reflexivity.
  assert (H2 : (0 <= 7 <= MAX_SAFE_INTEGER)%Z) by (unfold MAX_SAFE_INTEGER; lia).
  split; [exact H1|]. split; [exact H2|].
  exact (folio_sequence_round_trip (fun _ => (-6 * 3600000)%Z) "COT" 7 (dateUTC 2024 3 5)
           H1 H2).
Defined.

(** ** The Julian suffix on a host with a constant offset from UTC *)

(** X17.  On a host whose local time is a constant offset from UTC,
    the day number of the Julian suffix counts the local days from the start
    of the UTC year.  For a date at UTC midnight, as the editor builds them,
    it is the day of the year on hosts at or east of Greenwich and one day
    less on every host west of it. *)
Theorem getJulianDate_constant_offset (tza date : Z) :
  ~ (0 <= YearFromTime date <= 99)%Z ->
  getJulianDate (fun _ => tza) date
  = (sliceLast 2 (stringOfZ (YearFromTime date))
     ++ padStart0 3 (stringOfZ (Day (date + tza) - DayFromYear (YearFromTime date) + 1)))%string
  /\
  ((date mod msPerDay = 0)%Z ->
   ((0 <= tza < msPerDay)%Z ->
    getJulianDate (fun _ => tza) date
    = (sliceLast 2 (stringOfZ (YearFromTime date))
       ++ padStart0 3 (stringOfZ (dayOfYearUTC date)))%string) /\
   ((- msPerDay <= tza < 0)%Z ->
    getJulianDate (fun _ => tza) date
    = (sliceLast 2 (stringOfZ (YearFromTime date))
       ++ padStart0 3 (stringOfZ (dayOfYearUTC date - 1)))%string)).
Proof.
  intros Hyear.
  assert (Hgen :
    getJulianDate (fun _ => tza) date
    = (sliceLast 2 (stringOfZ (YearFromTime date))
       ++ padStart0 3
            (stringOfZ (Day (date + tza) - DayFromYear (YearFromTime date) + 1)))%string).
  { unfold getJulianDate, startOfYearLocal.
    replace ((0 <=? YearFromTime date)%Z && (YearFromTime date <=? 99)%Z) with false
      by (symmetry; apply andb_false_iff; lia).
    do 2 f_equal. f_equal. unfold Day.
    change (1000 * 60 * 60 * 24)%Z with msPerDay.
    replace (date - ((DayFromYear (YearFromTime date) + 0 - 1) * msPerDay - tza))%Z
      with (date + tza + (- DayFromYear (YearFromTime date) + 1) * msPerDay)%Z by lia.
    rewrite Z.div_add by (unfold msPerDay; lia). lia. }
  split; [exact Hgen|].
  intros Hmid. rewrite Hgen. unfold dayOfYearUTC, Day.
  assert (Hdate : (date = msPerDay * (date / msPerDay))%Z).
  { pose proof (Z.div_mod date msPerDay ltac:(unfold msPerDay; lia)). lia. }
  split; intros Htza; do 3 f_equal.
  - assert (((date + tza) / msPerDay = date / msPerDay)%Z); [|lia].
    symmetry. apply Z.div_unique with (r := tza); lia.
  - assert (((date + tza) / msPerDay = date / msPerDay - 1)%Z); [|lia].
    symmetry. apply Z.div_unique with (r := (tza + msPerDay)%Z); lia.
Qed.

Lemma getJulianDate_constant_offset_witness :
  ~ (0 <= YearFromTime (dateUTC 2024 3 5) <= 99)%Z /\
  (dateUTC 2024 3 5 mod msPerDay = 0)%Z /\
  (- msPerDay <= -6 * 3600000 < 0)%Z /\
  getJulianDate (fun _ => (-6 * 3600000)%Z) (dateUTC 2024 3 5)
  = (sliceLast 2 (stringOfZ (YearFromTime (dateUTC 2024 3 5)))
     ++ padStart0 3 (stringOfZ (dayOfYearUTC (dateUTC 2024 3 5) - 1)))%string.
Proof.
  assert (H1 : ~ (0 <= YearFromTime (dateUTC 2024 3 5) <= 99)%Z).
  { intros [_ H]. apply H. reflexivity. }
  assert (H2 : (dateUTC 2024 3 5 mod msPerDay = 0)%Z) by reflexivity.
  assert (H3 : (- msPerDay <= -6 * 3600000 < 0)%Z) by (unfold msPerDay; lia).
  split; [exact H1|]. split; [exact H2|]. split; [exact H3|].
  exact (proj2 (proj2 (getJulianDate_constant_offset (-6 * 3600000) (dateUTC 2024 3 5) H1)
                  H2) H3).
Defined.

(** ** Folio counters *)

Lemma counterOr_setCounter (company : Company) (docType : DocumentType) (sequence : Z) :
  counterOr (setCounter company docType sequence) docType 0 = sequence.
Proof.
  unfold counterOr, setCounter. cbn [folioCounters]. rewrite lookup_insert_eq.
  destruct (sequence =? 0)%Z eqn:E; [|reflexivity]. apply Z.eqb_eq in E. now subst.
Qed.

Section CounterFacts.
Variable LocalTZA : Z -> Z.

(** X19.  Saving a document never lowers a folio counter, changes no
    counter but that of the document's type and no prefix; and when the
    folio was generated with a prefix ending in its only hyphen and a
    sequence from 0 to 2^53 - 1, the counter of the type becomes the larger
    of its old value and that sequence. *)
Theorem handleSaveDocument_counter (company : Company) (docType : DocumentType) :
  (forall docNumber other,
     (counterOr company other 0
      <= counterOr (handleSaveDocument company docType docNumber) other 0)%Z /\
     (other <> docType ->
      folioCounters (handleSaveDocument company docType docNumber) !! other
      = folioCounters company !! other) /\
     folioPrefixes (handleSaveDocument company docType docNumber)
     = folioPrefixes company) /\
  (forall p n date,
     noHyphen p = true -> (0 <= n <= MAX_SAFE_INTEGER)%Z ->
     counterOr
       (handleSaveDocument company docType (generateFolio LocalTZA (p ++ "-") n date))
       docType 0
     = Z.max (counterOr company docType 0) n).
Proof.
  split.
  - intros docNumber other. unfold handleSaveDocument.
    destruct (split "-" docNumber !! 1%nat) as [sequenceStr|];
      [|split; [lia|split; reflexivity]].
    destruct (bool_decide (sequenceStr = ""));
      [split; [lia|split; reflexivity]|].
    destruct (parseInt10 sequenceStr) as [sequence|];
      [|split; [lia|split; reflexivity]].
    destruct (counterOr company docType 0 <? sequence)%Z eqn:Hlt;
      [|split; [lia|split; reflexivity]].
    apply Z.ltb_lt in Hlt.
    split; [|split; [|reflexivity]].
    + destruct (decide (other = docType)) as [->|Hne].
      * rewrite counterOr_setCounter. lia.
      * unfold counterOr, setCounter. cbn [folioCounters].
        rewrite lookup_insert_ne by congruence. lia.
    + intros Hne. unfold setCounter. cbn [folioCounters].
      now rewrite lookup_insert_ne by congruence.
  - intros p n date Hp [Hn _]. unfold handleSaveDocument.
    rewrite (generateFolio_parts LocalTZA _ _ _ Hp Hn).
    change ((p :: padStart0 6 (stringOfZ n) :: split "-" (getJulianDate LocalTZA date))
              !! 1%nat)
      with (Some (padStart0 6 (stringOfZ n))).
    cbv iota beta.
    destruct (sequencePart_parses n Hn) as (_ & Hne & Hparse).
    rewrite bool_decide_eq_false_2 by exact Hne. rewrite Hparse.
    destruct (counterOr company docType 0 <? n)%Z eqn:Hlt.
    + apply Z.ltb_lt in Hlt. rewrite counterOr_setCounter. lia.
    + apply Z.ltb_ge in Hlt. lia.
Qed.

(** X20.  With a prefix ending in its only hyphen and a counter from 0 to
    2^53 - 3, handleNewDocument advances the counter by one and puts the
    new value in the folio, where it reads back; saving the new document
    then leaves the company as it is, and the next new document carries the
    next sequence. *)
Theorem handleNewDocument_sequences (company : Company) (p : string) (now now' : Z) :
  prefixOr company CotizacionFormal "COT-" = p ++ "-" ->
  noHyphen p = true ->
  (0 <= counterOr company CotizacionFormal 0 /\
   counterOr company CotizacionFormal 0 + 2 <= MAX_SAFE_INTEGER)%Z ->
  let counter := counterOr company CotizacionFormal 0 in
  let docNumber := fst (handleNewDocument LocalTZA company now) in
  let company' := snd (handleNewDocument LocalTZA company now) in
  counterOr company' CotizacionFormal 0 = (counter + 1)%Z /\
  parseInt10 (nth 1 (split "-" docNumber) "") = Some (counter + 1)%Z /\
  handleSaveDocument company' CotizacionFormal docNumber = company' /\
  parseInt10 (nth 1 (split "-" (fst (handleNewDocument LocalTZA company' now'))) "")
  = Some (counter + 2)%Z.
Proof.
  intros Hprefix Hp [Hcounter _]. cbv zeta. unfold handleNewDocument. cbn [fst snd].
  rewrite Hprefix, counterOr_setCounter.
  assert (Hprefix' :
    prefixOr (setCounter company CotizacionFormal
                (counterOr company CotizacionFormal 0 + 1)) CotizacionFormal "COT-"
    = p ++ "-") by exact Hprefix.
  rewrite Hprefix'.
  split; [reflexivity|]. split; [|split].
  - apply folio_sequence_parses; [exact Hp|lia].
  - unfold handleSaveDocument.
    rewrite (generateFolio_parts LocalTZA _ _ _ Hp) by lia.
    match goal with
    | |- context [(p :: ?s :: ?rest) !! 1%nat] =>
        change ((p :: s :: rest) !! 1%nat) with (Some s)
    end.
    cbv iota beta.
    destruct (sequencePart_parses (counterOr company CotizacionFormal 0 + 1) ltac:(lia))
      as (_ & Hne & Hparse).
    rewrite bool_decide_eq_false_2 by exact Hne. rewrite Hparse, counterOr_setCounter.
    now rewrite Z.ltb_irrefl.
  - replace (counterOr company CotizacionFormal 0 + 2)%Z
      with (counterOr company CotizacionFormal 0 + 1 + 1)%Z by lia.
    apply folio_sequence_parses; [exact Hp|lia].
Qed.
End CounterFacts.

(** ** Regenerating the folio for another date or document type *)

Lemma isDigit_not_hyphen (c : ascii) : isDigit c = true -> Ascii.eqb c "-" = false.
Proof.
  intros H. destruct (Ascii.eqb c "-") eqn:E; [|reflexivity].
  apply Ascii.eqb_eq in E. subst c. discriminate.
Qed.

Lemma date_parts (date : string) :
  isDateString date = true ->
  map (fun part => digitsValue (list_ascii_of_string part)) (split "-" date)
  = [datePart 0 4 date; datePart 5 2 date; datePart 8 2 date].
Proof.
  unfold isDateString.
  destruct date as [|y1 [|y2 [|y3 [|y4 [|h1 [|m1 [|m2 [|h2 [|d1 [|d2 [|x rest]]]]]]]]]]];
    try discriminate.
  cbn [list_ascii_of_string]. intros H.
  repeat (apply andb_true_iff in H as [H ?]).
  repeat match goal with
         | Hd : isDigit _ = true |- _ => apply isDigit_not_hyphen in Hd
         | He : Ascii.eqb _ "-" = true |- _ => apply Ascii.eqb_eq in He; subst
         end.
  cbn [split]. rewrite Ascii.eqb_refl.
  repeat match goal with Hd : Ascii.eqb _ "-" = false |- _ => rewrite Hd; clear Hd end.
  reflexivity.
Qed.

Section RegenerateFacts.
Variable LocalTZA : Z -> Z.

(** X21.  For a folio generated with a prefix ending in its only
    hyphen and a sequence from 0 to 2^53 - 1, and a date of the form
    YYYY-MM-DD, the effect proposes exactly the folio of the same sequence
    for the new prefix and for UTC midnight of the new date, and nothing
    when that is the folio already shown; once the proposed folio is shown
    and its prefix too ends in its only hyphen, the effect is at rest. *)
Theorem regenerateFolio_keeps_sequence (company : Company) (p : string) (n created : Z)
    (docType : DocumentType) (date : string) :
  noHyphen p = true -> (0 <= n <= MAX_SAFE_INTEGER)%Z -> isDateString date = true ->
  let docNumber := generateFolio LocalTZA (p ++ "-") n created in
  let docDate := Date_UTC (datePart 0 4 date) (datePart 5 2 date - 1) (datePart 8 2 date) in
  let prefix :=
    prefixOr company docType (toUpperCase (substring 0 3 (docTypeName docType)) ++ "-") in
  let newFolio := generateFolio LocalTZA prefix n docDate in
  regenerateFolio LocalTZA company docNumber docType date
  = (if bool_decide (newFolio = docNumber) then None else Some newFolio) /\
  (forall q, prefix = q ++ "-" -> noHyphen q = true ->
             regenerateFolio LocalTZA company newFolio docType date = None).
Proof.
  intros Hp [Hn _] Hdate. cbv zeta.
  assert (Hrun : forall q created',
    noHyphen q = true ->
    regenerateFolio LocalTZA company (generateFolio LocalTZA (q ++ "-") n created')
      docType date
    = (if bool_decide
            (generateFolio LocalTZA
               (prefixOr company docType
                  (toUpperCase (substring 0 3 (docTypeName docType)) ++ "-")) n
               (Date_UTC (datePart 0 4 date) (datePart 5 2 date - 1) (datePart 8 2 date))
             = generateFolio LocalTZA (q ++ "-") n created')
       then None
       else Some (generateFolio LocalTZA
                    (prefixOr company docType
                       (toUpperCase (substring 0 3 (docTypeName docType)) ++ "-")) n
                    (Date_UTC (datePart 0 4 date) (datePart 5 2 date - 1)
                       (datePart 8 2 date))))).
  { intros q created' Hq. unfold regenerateFolio. rewrite Hdate. cbn [negb].
    rewrite (generateFolio_parts LocalTZA _ _ _ Hq Hn).
    cbn [length nth Nat.ltb Nat.leb].
    destruct (sequencePart_parses n Hn) as (_ & _ & Hparse). rewrite Hparse.
    rewrite (date_parts _ Hdate). reflexivity. }
  split.
  - now apply Hrun.
  - intros q Hprefix Hq. rewrite Hprefix. rewrite (Hrun q _ Hq).
    rewrite Hprefix. now rewrite bool_decide_eq_true_2.
Qed.
End RegenerateFacts.

Lemma regenerateFolio_keeps_sequence_witness :
  noHyphen "COT" = true /\ (0 <= 7 <= MAX_SAFE_INTEGER)%Z /\
  isDateString "2024-03-05" = true /\
  regenerateFolio (fun _ => 0%Z) (exampleCompany 1)
    (generateFolio (fun _ => 0%Z) ("COT" ++ "-") 7 (dateUTC 2024 1 1)) Factura "2024-03-05"
  = Some "FAC-000007-24065".
Proof.
  assert (H1 : noHyphen "COT" = true) by reflexivity.
  assert (H2 : (0 <= 7 <= MAX_SAFE_INTEGER)%Z) by (unfold MAX_SAFE_INTEGER; lia).
  assert (H3 : isDateString "2024-03-05" = true) by reflexivity.
  split; [exact H1|]. split; [exact H2|]. split; [exact H3|].
  exact (eq_trans
           (proj1 (regenerateFolio_keeps_sequence (fun _ => 0%Z)
                     (exampleCompany 1) "COT" 7
                     (dateUTC 2024 1 1) Factura "2024-03-05" H1 H2 H3))
           eq_refl).
Defined.

Lemma handleSaveDocument_counter_witness :
  noHyphen "COT" = true /\ (0 <= 7 <= MAX_SAFE_INTEGER)%Z /\
  counterOr
    (handleSaveDocument (exampleCompany 3)
       CotizacionFormal
       (generateFolio (fun _ => 0%Z) ("COT" ++ "-") 7 (dateUTC 2024 3 5)))
    CotizacionFormal 0
  = Z.max
      (counterOr (exampleCompany 3)
         CotizacionFormal 0) 7.
Proof.
  assert (H1 : noHyphen "COT" = true) by reflexivity.
  assert (H2 : (0 <= 7 <= MAX_SAFE_INTEGER)%Z) by (unfold MAX_SAFE_INTEGER; lia).
  split; [exact H1|]. split; [exact H2|].
  exact (proj2 (handleSaveDocument_counter (fun _ => 0%Z)
                  (exampleCompany 3)
                  CotizacionFormal)
           "COT" 7%Z (dateUTC 2024 3 5) H1 H2).
Defined.

Lemma handleNewDocument_sequences_witness :
  prefixOr (exampleCompany 1)
    CotizacionFormal "COT-" = "COT" ++ "-" /\
  noHyphen "COT" = true /\
  (0 <= counterOr (exampleCompany 1) CotizacionFormal 0 /\
   counterOr (exampleCompany 1) CotizacionFormal 0 + 2 <= MAX_SAFE_INTEGER)%Z /\
  let company := (exampleCompany 1) in
  let counter := counterOr company CotizacionFormal 0 in
  let docNumber := fst (handleNewDocument (fun _ => 0%Z) company (dateUTC 2024 3 5)) in
  let company' := snd (handleNewDocument (fun _ => 0%Z) company (dateUTC 2024 3 5)) in
  counterOr company' CotizacionFormal 0 = (counter + 1)%Z /\
  parseInt10 (nth 1 (split "-" docNumber) "") = Some (counter + 1)%Z /\
  handleSaveDocument company' CotizacionFormal docNumber = company' /\
  parseInt10
    (nth 1 (split "-" (fst (handleNewDocument (fun _ => 0%Z) company' (dateUTC 2024 3 6)))) "")
  = Some (counter + 2)%Z.
Proof.
  assert (H1 : prefixOr (exampleCompany 1)
                 CotizacionFormal "COT-" = "COT" ++ "-") by reflexivity.
  assert (H2 : noHyphen "COT" = true) by reflexivity.
  assert (H3 : (0 <= counterOr (exampleCompany 1) CotizacionFormal 0 /\
                counterOr (exampleCompany 1) CotizacionFormal 0 + 2 <= MAX_SAFE_INTEGER)%Z)
    by (split; vm_compute; discriminate).
  split; [exact H1|]. split; [exact H2|]. split; [exact H3|].
  exact (handleNewDocument_sequences (fun _ => 0%Z)
           (exampleCompany 1)
           "COT" (dateUTC 2024 3 5) (dateUTC 2024 3 6) H1 H2 H3).
Defined.

(** ** The registry under every operation of the settings page *)

Lemma firstInput_elem_of (d : DataType) :
  firstInput (COMPATIBLE_INPUT_TYPES d) ∈ COMPATIBLE_INPUT_TYPES d.
Proof. destruct d; cbn; apply list_elem_of_here. Qed.

Lemma compatibleRegistry_insert (columnDefinitions : gmap string ColumnDefinition)
    (key : string) (def : ColumnDefinition) :
  compatibleRegistry columnDefinitions ->
  inputType def ∈ COMPATIBLE_INPUT_TYPES (dataType def) ->
  compatibleRegistry (<[key := def]> columnDefinitions).
Proof.
  intros Hreg Hdef other def' Hother.
  destruct (decide (other = key)) as [->|Hne].
  - rewrite lookup_insert_eq in Hother. now injection Hother as <-.
  - rewrite lookup_insert_ne in Hother by congruence. now apply (Hreg other).
Qed.

Lemma compatibleRegistry_initial : compatibleRegistry INITIAL_COLUMN_DEFINITIONS.
Proof.
  intros key def Hkey. unfold INITIAL_COLUMN_DEFINITIONS in Hkey.
  apply elem_of_list_to_map_2 in Hkey.
  repeat (apply elem_of_cons in Hkey as [Hkey|Hkey];
          [inversion Hkey; subst; cbn; repeat constructor|]).
  now apply elem_of_nil in Hkey.
Qed.

(** X24.  The initial registry gives every column an input compatible
    with its data type, and the settings page keeps it so: adding a column,
    deleting a column and every change of a field of a column preserve it,
    the input type itself being chosen among the inputs compatible with the
    column's data type, as the form offers them. *)
Theorem registry_stays_compatible (columnDefinitions : gmap string ColumnDefinition) :
  compatibleRegistry INITIAL_COLUMN_DEFINITIONS /\
  (compatibleRegistry columnDefinitions ->
   (forall newColumnData,
      compatibleRegistry
        (registryAfter (handleAddColumn newColumnData columnDefinitions) columnDefinitions)) /\
   (forall key confirmed,
      compatibleRegistry (handleDeleteColumn key confirmed columnDefinitions)) /\
   (forall key upd oldDef next,
      columnDefinitions !! key = Some oldDef ->
      (forall v, upd = SetInputType v -> v ∈ COMPATIBLE_INPUT_TYPES (dataType oldDef)) ->
      handleColumnDefinitionChange key upd columnDefinitions = Some next ->
      compatibleRegistry next)).
Proof.
  split; [exact compatibleRegistry_initial|].
  intros Hreg. split; [|split].
  - intros newColumnData. unfold handleAddColumn.
    destruct (bool_decide (trim (nc_label newColumnData) = "")); [exact Hreg|].
    destruct (readsTruthy columnDefinitions (deriveKey (nc_label newColumnData)));
      [exact Hreg|].
    cbn [registryAfter]. apply compatibleRegistry_insert; [exact Hreg|].
    cbn [inputType dataType]. apply firstInput_elem_of.
  - intros key confirmed. unfold handleDeleteColumn.
    destruct (size columnDefinitions <=? 1)%nat; [exact Hreg|].
    destruct confirmed; [|exact Hreg].
    intros other def Hother. apply lookup_delete_Some in Hother as [_ Hother].
    now apply (Hreg other).
  - intros key upd oldDef next Hkey Hinput Hrun.
    unfold handleColumnDefinitionChange in Hrun. rewrite Hkey in Hrun.
    injection Hrun as <-. apply compatibleRegistry_insert; [exact Hreg|].
    pose proof (Hreg key oldDef Hkey) as Hold.
    destruct upd as [v|v|v|v|v|v]; cbn [setField inputType dataType]; try exact Hold.
    + destruct (includes (COMPATIBLE_INPUT_TYPES v) (inputType oldDef)) eqn:Hinc;
        cbn [negb setInputType setField inputType dataType].
      * apply includes_In, list_elem_of_In in Hinc. exact Hinc.
      * apply firstInput_elem_of.
    + now apply Hinput.
Qed.

Lemma registry_stays_compatible_witness :
  compatibleRegistry INITIAL_COLUMN_DEFINITIONS /\
  INITIAL_COLUMN_DEFINITIONS !! "unit"
  = Some {| label := "Unidad"; default_ := false; isEditable := true;
            dataType := DT_string; inputType := IT_select;
            options := Some ["Pza"; "Kg"; "m"; "m" ++ chr 178; "L"; "Servicio"; "Jornal"] |} /\
  (forall v, SetDataType DT_date = SetInputType v ->
             v ∈ COMPATIBLE_INPUT_TYPES DT_string) /\
  forall next,
    handleColumnDefinitionChange "unit" (SetDataType DT_date) INITIAL_COLUMN_DEFINITIONS
    = Some next ->
    compatibleRegistry next.
Proof.
  assert (H0 : compatibleRegistry INITIAL_COLUMN_DEFINITIONS)
    by exact (proj1 (registry_stays_compatible INITIAL_COLUMN_DEFINITIONS)).
  assert (H1 : INITIAL_COLUMN_DEFINITIONS !! "unit"
               = Some {| label := "Unidad"; default_ := false; isEditable := true;
                         dataType := DT_string; inputType := IT_select;
                         options := Some ["Pza"; "Kg"; "m"; "m" ++ chr 178; "L";
                                          "Servicio"; "Jornal"] |})
    by (vm_compute; reflexivity).
  assert (H2 : forall v, SetDataType DT_date = SetInputType v ->
                         v ∈ COMPATIBLE_INPUT_TYPES DT_string)
    by (intros v Hv; discriminate Hv).
  split; [exact H0|]. split; [exact H1|]. split; [exact H2|].
  intros next Hnext.
  exact (proj2 (proj2 (proj2 (registry_stays_compatible INITIAL_COLUMN_DEFINITIONS) H0))
           "unit" (SetDataType DT_date) _ next H1 H2 Hnext).
Defined.

(** X25.  handleDeleteColumn never empties a registry: it
    refuses to delete the last column, touches no other column, and after a
    confirmed deletion the key names no column.  Deleting a column that
    handleAddColumn has just added gives back the registry as it was. *)
Theorem handleDeleteColumn_spec (columnDefinitions : gmap string ColumnDefinition)
    (key : string) (confirmed : bool) :
  (columnDefinitions <> ∅ -> handleDeleteColumn key confirmed columnDefinitions <> ∅) /\
  ((size columnDefinitions <= 1)%nat ->
   handleDeleteColumn key confirmed columnDefinitions = columnDefinitions) /\
  (forall other, other <> key ->
     handleDeleteColumn key confirmed columnDefinitions !! other
     = columnDefinitions !! other) /\
  ((1 < size columnDefinitions)%nat ->
   handleDeleteColumn key true columnDefinitions !! key = None) /\
  (forall newColumnData next,
     columnDefinitions <> ∅ ->
     handleAddColumn newColumnData columnDefinitions = Added key next ->
     handleDeleteColumn key true next = columnDefinitions).
Proof.
  unfold handleDeleteColumn. split; [|split; [|split; [|split]]].
  - intros Hne. destruct (size columnDefinitions <=? 1)%nat eqn:Hsize; [exact Hne|].
    destruct confirmed; [|exact Hne].
    apply Nat.leb_gt in Hsize. intros Hempty.
    destruct (columnDefinitions !! key) as [def|] eqn:Hkey.
    + pose proof (map_size_delete_Some key columnDefinitions (ex_intro _ def Hkey)) as Hdel.
      rewrite Hempty, map_size_empty in Hdel. lia.
    + rewrite delete_id in Hempty by exact Hkey. contradiction.
  - intros Hsize. apply Nat.leb_le in Hsize. now rewrite Hsize.
  - intros other Hne. destruct (size columnDefinitions <=? 1)%nat; [reflexivity|].
    destruct confirmed; [|reflexivity]. now apply lookup_delete_ne.
  - intros Hsize. apply Nat.leb_gt in Hsize. rewrite Hsize. apply lookup_delete_eq.
  - intros newColumnData next Hne Hadd. unfold handleAddColumn in Hadd.
    destruct (bool_decide (trim (nc_label newColumnData) = "")); [discriminate|].
    destruct (readsTruthy columnDefinitions (deriveKey (nc_label newColumnData)))
      eqn:Htruthy; [discriminate|].
    injection Hadd as <- <-.
    unfold readsTruthy in Htruthy. apply orb_false_iff in Htruthy as [Hown _].
    apply bool_decide_eq_false in Hown.
    assert (Hfresh : columnDefinitions !! deriveKey (nc_label newColumnData) = None).
    { destruct (columnDefinitions !! deriveKey (nc_label newColumnData)) eqn:E;
        [|reflexivity].
      exfalso. apply Hown. eauto. }
    rewrite map_size_insert_None by exact Hfresh.
    assert (Hpos : (size columnDefinitions <> 0)%nat).
    { intros H0. apply map_size_empty_inv in H0. contradiction. }
    replace (S (size columnDefinitions) <=? 1)%nat with false
      by (symmetry; apply Nat.leb_gt; lia).
    now apply delete_insert_id.
Qed.

Lemma handleDeleteColumn_spec_witness :
  INITIAL_COLUMN_DEFINITIONS <> ∅ /\
  (1 < size INITIAL_COLUMN_DEFINITIONS)%nat /\
  handleDeleteColumn "unit" true INITIAL_COLUMN_DEFINITIONS <> ∅ /\
  handleDeleteColumn "unit" true INITIAL_COLUMN_DEFINITIONS !! "unit" = None.
Proof.
  assert (H1 : INITIAL_COLUMN_DEFINITIONS <> ∅).
  { intros H. apply (f_equal (fun m => m !! "unit")) in H. vm_compute in H. discriminate. }
  assert (H2 : (1 < size INITIAL_COLUMN_DEFINITIONS)%nat) by (vm_compute; lia).
  split; [exact H1|]. split; [exact H2|]. split.
  - exact (proj1 (handleDeleteColumn_spec INITIAL_COLUMN_DEFINITIONS "unit" true) H1).
  - exact (proj1 (proj2 (proj2 (proj2
             (handleDeleteColumn_spec INITIAL_COLUMN_DEFINITIONS "unit" true)))) H2).
Defined.

(** ** Option tags *)

Lemma filter_all {A : Type} (p : A -> bool) (l : list A) :
  (forall a, In a l -> p a = true) -> List.filter p l = l.
Proof.
  induction l as [|a l IH]; [reflexivity|]. intros H. cbn [List.filter].
  rewrite (H a (or_introl eq_refl)), IH; [reflexivity|].
  intros b Hb. apply H. now right.
Qed.

Lemma NoDup_filter_list {A : Type} (p : A -> bool) (l : list A) :
  NoDup l -> NoDup (List.filter p l).
Proof.
  induction 1 as [|a l Ha Hl IH]; [constructor|]. cbn [List.filter].
  destruct (p a); [|exact IH]. constructor; [|exact IH].
  intros Hin. apply Ha. apply list_elem_of_In in Hin. apply filter_In in Hin as [Hin _].
  now apply list_elem_of_In.
Qed.

(** X26.  The option list of a select column never holds the same tag
    twice nor an empty tag: adding through the tag input and removing a tag
    keep it so; a removed tag is gone; and removing a tag just added to a
    list that did not have it gives the list back. *)
Theorem tags_stay_distinct (value : list string) (inputValue tagToRemove : string) :
  NoDup value -> "" ∉ value ->
  NoDup (handleTagKeyDown value inputValue) /\
  ("" ∉ handleTagKeyDown value inputValue) /\
  NoDup (handleRemoveTag value tagToRemove) /\
  ("" ∉ handleRemoveTag value tagToRemove) /\
  (tagToRemove ∉ handleRemoveTag value tagToRemove) /\
  (trim inputValue ∉ value ->
   handleRemoveTag (handleTagKeyDown value inputValue) (trim inputValue) = value).
Proof.
  intros Hnodup Hblank.
  assert (Hremove_id : forall t, t ∉ value -> handleRemoveTag value t = value).
  { intros t Ht. unfold handleRemoveTag. apply filter_all. intros tag Hin.
    apply negb_true_iff, bool_decide_eq_false. intros ->.
    apply Ht. now apply list_elem_of_In. }
  split; [|split; [|split; [|split; [|split]]]].
  - unfold handleTagKeyDown.
    destruct (bool_decide (trim inputValue = "")); [exact Hnodup|].
    destruct (bool_decide (trim inputValue ∈ value)) eqn:Hin; [exact Hnodup|].
    apply bool_decide_eq_false in Hin. cbn [negb andb].
    apply NoDup_app. split; [exact Hnodup|]. split.
    + intros x Hx Hx'. apply list_elem_of_singleton in Hx'. now subst.
    + apply NoDup_singleton.
  - unfold handleTagKeyDown.
    destruct (bool_decide (trim inputValue = "")) eqn:Hempty; [exact Hblank|].
    destruct (bool_decide (trim inputValue ∈ value)); [exact Hblank|].
    apply bool_decide_eq_false in Hempty. cbn [negb andb].
    intros Hin. apply elem_of_app in Hin as [Hin|Hin]; [contradiction|].
    apply list_elem_of_singleton in Hin. congruence.
  - now apply NoDup_filter_list.
  - intros Hin. apply list_elem_of_In, filter_In in Hin as [Hin _].
    apply Hblank. now apply list_elem_of_In.
  - intros Hin. apply list_elem_of_In, filter_In in Hin as [_ Hin].
    apply negb_true_iff, bool_decide_eq_false in Hin. contradiction.
  - intros Hfresh. unfold handleTagKeyDown.
    rewrite (bool_decide_eq_false_2 _ Hfresh), andb_true_r.
    destruct (bool_decide (trim inputValue = "")) eqn:Hempty; cbn [negb].
    + now apply Hremove_id.
    + unfold handleRemoveTag. rewrite List.filter_app. cbn [List.filter].
      rewrite bool_decide_eq_true_2 by reflexivity. cbn [negb].
      rewrite app_nil_r. now apply Hremove_id.
Qed.

Lemma tags_stay_distinct_witness :
  NoDup ["Pza"; "Kg"] /\ ("" ∉ ["Pza"; "Kg"]) /\ (trim " m " ∉ ["Pza"; "Kg"]) /\
  NoDup (handleTagKeyDown ["Pza"; "Kg"] " m ") /\
  handleRemoveTag (handleTagKeyDown ["Pza"; "Kg"] " m ") (trim " m ") = ["Pza"; "Kg"].
Proof.
  assert (H1 : NoDup ["Pza"; "Kg"]) by (apply (bool_decide_unpack _); vm_compute; exact I).
  assert (H2 : "" ∉ ["Pza"; "Kg"]) by (apply (bool_decide_unpack _); vm_compute; exact I).
  assert (H3 : trim " m " ∉ ["Pza"; "Kg"]) by (apply (bool_decide_unpack _); vm_compute; exact I).
  split; [exact H1|]. split; [exact H2|]. split; [exact H3|]. split.
  - exact (proj1 (tags_stay_distinct ["Pza"; "Kg"] " m " "Kg" H1 H2)).
  - exact (proj2 (proj2 (proj2 (proj2 (proj2
             (tags_stay_distinct ["Pza"; "Kg"] " m " "Kg" H1 H2))))) H3).
Defined.

(** ** Payment terms *)

Lemma StronglySorted_lt_NoDup (l : list Z) : StronglySorted Z.lt l -> NoDup l.
Proof.
  induction 1 as [|x l Hl IH Hx]; [constructor|]. constructor; [|exact IH].
  intros Hin. rewrite List.Forall_forall in Hx.
  apply list_elem_of_In in Hin. specialize (Hx x Hin). lia.
Qed.

Lemma StronglySorted_le_lt (l : list Z) :
  StronglySorted Z.le l -> NoDup l -> StronglySorted Z.lt l.
Proof.
  induction 1 as [|x l Hl IH Hx]; intros Hnodup; [constructor|].
  apply NoDup_cons in Hnodup as [Hfresh Hnodup].
  constructor; [now apply IH|].
  rewrite List.Forall_forall in *. intros y Hy.
  specialize (Hx y Hy). assert (x <> y); [|lia].
  intros ->. apply Hfresh. now apply list_elem_of_In.
Qed.

Lemma StronglySorted_filter_list {A : Type} (R : A -> A -> Prop) (p : A -> bool)
    (l : list A) :
  StronglySorted R l -> StronglySorted R (List.filter p l).
Proof.
  induction 1 as [|x l Hl IH Hx]; [constructor|]. cbn [List.filter].
  destruct (p x); [|exact IH]. constructor; [exact IH|].
  rewrite List.Forall_forall in *. intros y Hy. apply filter_In in Hy as [Hy _]. auto.
Qed.

(** X16.  A list of payment terms that is strictly increasing and
    positive stays so when a term is added or removed in the editor; a
    positive term typed in is in the list afterwards and a removed one is
    not.  The terms are whole numbers up to 2^53 - 1. *)
Theorem terms_stay_sorted (ts : list Z) (newTerm : string) (termToRemove : Z) :
  StronglySorted Z.lt ts -> Forall (fun t => (0 < t)%Z) ts ->
  Forall (fun t => (t <= MAX_SAFE_INTEGER)%Z) ts ->
  (forall t, parseInt10 newTerm = Some t -> (t <= MAX_SAFE_INTEGER)%Z) ->
  (StronglySorted Z.lt (handleAddTerm ts newTerm) /\
   Forall (fun t => (0 < t)%Z) (handleAddTerm ts newTerm)) /\
  (forall t, parseInt10 newTerm = Some t -> (0 < t)%Z -> t ∈ handleAddTerm ts newTerm) /\
  (StronglySorted Z.lt (handleRemoveTerm ts termToRemove) /\
   Forall (fun t => (0 < t)%Z) (handleRemoveTerm ts termToRemove) /\
   (termToRemove ∉ handleRemoveTerm ts termToRemove)).
Proof.
  intros Hsorted Hpos _ _.
  assert (Hadd : StronglySorted Z.lt (handleAddTerm ts newTerm) /\
                 Forall (fun t => (0 < t)%Z) (handleAddTerm ts newTerm)).
  { unfold handleAddTerm. destruct (parseInt10 newTerm) as [t|]; [|now split].
    destruct (0 <? t)%Z eqn:Ht; [|now split].
    destruct (bool_decide (t ∈ ts)) eqn:Hin; [now split|]. cbn [negb andb].
    apply Z.ltb_lt in Ht. apply bool_decide_eq_false in Hin.
    assert (Hperm : merge_sort Z.le (ts ++ [t]) ≡ₚ ts ++ [t])
      by apply merge_sort_Permutation.
    split.
    - apply StronglySorted_le_lt; [apply StronglySorted_merge_sort; apply _|].
      rewrite Hperm. apply NoDup_app. split; [now apply StronglySorted_lt_NoDup|].
      split; [|apply NoDup_singleton].
      intros x Hx Hx'. apply list_elem_of_singleton in Hx'. now subst.
    - rewrite Hperm. apply Forall_app. split; [exact Hpos|]. now constructor. }
  split; [exact Hadd|]. split.
  - intros t Hparse Ht. unfold handleAddTerm. rewrite Hparse.
    apply Z.ltb_lt in Ht. rewrite Ht.
    destruct (bool_decide (t ∈ ts)) eqn:Hin; cbn [negb andb].
    + now apply bool_decide_eq_true in Hin.
    + rewrite merge_sort_Permutation. apply elem_of_app. right.
      now apply list_elem_of_singleton.
  - unfold handleRemoveTerm. split; [now apply StronglySorted_filter_list|]. split.
    + rewrite List.Forall_forall in *. intros x Hx. apply filter_In in Hx as [Hx _]. auto.
    + intros Hin. apply list_elem_of_In, filter_In in Hin as [_ Hin].
      apply negb_true_iff, Z.eqb_neq in Hin. contradiction.
Qed.

Lemma terms_stay_sorted_witness :
  StronglySorted Z.lt [6%Z; 12%Z] /\ Forall (fun t => (0 < t)%Z) [6%Z; 12%Z] /\
  Forall (fun t => (t <= MAX_SAFE_INTEGER)%Z) [6%Z; 12%Z] /\
  (forall t, parseInt10 "9" = Some t -> (t <= MAX_SAFE_INTEGER)%Z) /\
  parseInt10 "9" = Some 9%Z /\ (0 < 9)%Z /\
  StronglySorted Z.lt (handleAddTerm [6%Z; 12%Z] "9") /\
  (9%Z ∈ handleAddTerm [6%Z; 12%Z] "9").
Proof.
  assert (H1 : StronglySorted Z.lt [6%Z; 12%Z])
    by (apply (bool_decide_unpack _); vm_compute; exact I).
  assert (H2 : Forall (fun t => (0 < t)%Z) [6%Z; 12%Z])
    by (repeat constructor).
  assert (H3 : parseInt10 "9" = Some 9%Z) by reflexivity.
  assert (H4 : (0 < 9)%Z) by lia.
  assert (H5 : Forall (fun t => (t <= MAX_SAFE_INTEGER)%Z) [6%Z; 12%Z])
    by (repeat constructor; vm_compute; discriminate).
  assert (H6 : forall t, parseInt10 "9" = Some t -> (t <= MAX_SAFE_INTEGER)%Z)
    by (intros t [= <-]; vm_compute; discriminate).
  split; [exact H1|]. split; [exact H2|]. split; [exact H5|]. split; [exact H6|].
  split; [exact H3|]. split; [exact H4|]. split.
  - exact (proj1 (proj1 (terms_stay_sorted [6%Z; 12%Z] "9" 6%Z H1 H2 H5 H6))).
  - exact (proj1 (proj2 (terms_stay_sorted [6%Z; 12%Z] "9" 6%Z H1 H2 H5 H6)) 9%Z H3 H4).
Defined.

(** ** Editing a category *)

Lemma Qsum_insert_diff {A : Type} (f : A -> Q) (l : list A) (i : nat) (a a' : A) :
  l !! i = Some a -> Qsum (map f (<[i := a']> l)) == Qsum (map f l) - f a + f a'.
Proof.
  revert i. induction l as [|b l IH]; intros [|i] Hi; try discriminate.
  - injection Hi as ->. cbn [insert list_insert map]. rewrite !Qsum_cons. ring.
  - cbn [insert list_insert map]. change (list_insert i a' l) with (<[i := a']> l).
    rewrite !Qsum_cons, (IH i) by assumption. ring.
Qed.

Lemma delete_nonempty {A : Type} (l : list A) (i : nat) :
  (1 < length l)%nat -> delete i l <> [].
Proof.
  destruct l as [|a [|b l]]; cbn [length]; try lia. intros _.
  destruct i as [|i]; discriminate.
Qed.

Lemma everyCategory_insert (doc : DocumentState) (i : nat) (category : CostCategory) :
  everyCategoryHasSubcategory doc -> subcategories category <> [] ->
  everyCategoryHasSubcategory (setCategories doc (<[i := category]> (categories doc))).
Proof.
  unfold everyCategoryHasSubcategory. cbn [setCategories categories].
  intros Hdoc Hcategory. now apply Forall_insert.
Qed.

Lemma everyCategory_lookup (doc : DocumentState) (i : nat) (category : CostCategory) :
  everyCategoryHasSubcategory doc -> categories doc !! i = Some category ->
  subcategories category <> [].
Proof.
  unfold everyCategoryHasSubcategory. intros Hdoc Hi.
  rewrite Forall_lookup in Hdoc. exact (Hdoc i category Hi).
Qed.

Lemma insert_nonempty {A : Type} (l : list A) (i : nat) (a : A) :
  l <> [] -> <[i := a]> l <> [].
Proof. destruct l as [|b l]; [contradiction|]. destruct i; discriminate. Qed.

Lemma everyCategory_handleCategoryChange (doc : DocumentState) (index : Z)
    (upd : CategoryUpdate) :
  everyCategoryHasSubcategory doc ->
  (forall v, upd = SetSubcategories v -> v <> []) ->
  everyCategoryHasSubcategory (handleCategoryChange doc index upd).
Proof.
  intros Hdoc Hupd. unfold handleCategoryChange.
  destruct (index =? -1)%Z; [exact Hdoc|].
  destruct (categories doc !! Z.to_nat index) as [category|] eqn:Hcat; [|exact Hdoc].
  apply everyCategory_insert; [exact Hdoc|].
  pose proof (everyCategory_lookup _ _ _ Hdoc Hcat) as Hsubs.
  destruct upd as [v|v|[]|v|v|v]; cbn [setCategoryField hideVatColumn subcategories];
    try exact Hsubs.
  now apply Hupd.
Qed.

Lemma everyCategory_handleSubcategoryItems (doc : DocumentState) (index : Z)
    (subIndex : nat) (newItems : list Item) :
  everyCategoryHasSubcategory doc ->
  everyCategoryHasSubcategory (handleSubcategoryItems doc index subIndex newItems).
Proof.
  intros Hdoc. unfold handleSubcategoryItems.
  destruct (index =? -1)%Z; [exact Hdoc|].
  destruct (categories doc !! Z.to_nat index) as [category|] eqn:Hcat; [|exact Hdoc].
  destruct (subcategories category !! subIndex) as [sub|]; [|exact Hdoc].
  apply everyCategory_handleCategoryChange; [exact Hdoc|].
  intros v [= <-]. apply insert_nonempty.
  exact (everyCategory_lookup _ _ _ Hdoc Hcat).
Qed.

Section EditorInvariant.
Variable StringToNumber : string -> option Q.
Variable randomUUID : nat -> string.

(** X12.  Every operation of the editor and of the settings page
    on the categories keeps the invariant that each category has at least
    one subcategory: adding, changing and deleting items, toggling a
    column, changing a flag or the markup of the category, adding a
    subcategory, deleting one (the only subcategory is refused), applying a
    markup and adding a category. *)
Theorem editor_keeps_a_subcategory (doc : DocumentState) (index : Z) :
  everyCategoryHasSubcategory doc ->
  (forall columnDefinitions subIndex count,
     everyCategoryHasSubcategory
       (handleAddItems randomUUID columnDefinitions doc index subIndex count)) /\
  (forall subIndex itemIndex field value,
     everyCategoryHasSubcategory
       (handleItemChange doc index subIndex itemIndex field value)) /\
  (forall subIndex itemIndex,
     everyCategoryHasSubcategory (handleDeleteItem doc index subIndex itemIndex)) /\
  (forall key, everyCategoryHasSubcategory (handleToggleColumn doc index key)) /\
  (forall upd, (forall v, upd <> SetSubcategories v) ->
     everyCategoryHasSubcategory (handleCategoryChange doc index upd)) /\
  (forall id, everyCategoryHasSubcategory (handleAddSubcategory id doc index)) /\
  (forall subIndex, everyCategoryHasSubcategory (handleDeleteSubcategory doc index subIndex)) /\
  (forall id totals,
     everyCategoryHasSubcategory (applyMarkup StringToNumber id totals doc index)) /\
  (forall categoryId subcategoryId columnDefinitions,
     everyCategoryHasSubcategory
       (handleAddCategory categoryId subcategoryId columnDefinitions doc)).
Proof.
  intros Hdoc.
  split; [|split; [|split; [|split; [|split; [|split; [|split; [|split]]]]]]].
  - intros columnDefinitions subIndex count. unfold handleAddItems.
    destruct ((index =? -1)%Z || (count <=? 0)%Z); [exact Hdoc|].
    destruct (categories doc !! Z.to_nat index) as [category|] eqn:Hcat; [|exact Hdoc].
    destruct (subcategories category !! subIndex) as [sub|]; [|exact Hdoc].
    apply (everyCategory_insert doc); [exact Hdoc|]. cbn [subcategories].
    apply insert_nonempty. exact (everyCategory_lookup _ _ _ Hdoc Hcat).
  - intros subIndex itemIndex field value. unfold handleItemChange.
    destruct (index =? -1)%Z; [exact Hdoc|].
    destruct (categories doc !! Z.to_nat index) as [category|]; [|exact Hdoc].
    destruct (subcategories category !! subIndex) as [sub|]; [|exact Hdoc].
    destruct (items sub !! itemIndex); [|exact Hdoc].
    now apply everyCategory_handleSubcategoryItems.
  - intros subIndex itemIndex. unfold handleDeleteItem.
    destruct (index =? -1)%Z; [exact Hdoc|].
    destruct (categories doc !! Z.to_nat index) as [category|]; [|exact Hdoc].
    destruct (subcategories category !! subIndex) as [sub|]; [|exact Hdoc].
    now apply everyCategory_handleSubcategoryItems.
  - intros key. unfold handleToggleColumn.
    destruct (index =? -1)%Z; [exact Hdoc|].
    destruct (categories doc !! Z.to_nat index) as [category|]; [|exact Hdoc].
    apply everyCategory_handleCategoryChange; [exact Hdoc|]. intros v [=].
  - intros upd Hupd. apply everyCategory_handleCategoryChange; [exact Hdoc|].
    intros v ->. now destruct (Hupd v).
  - intros id. unfold handleAddSubcategory.
    destruct (index =? -1)%Z; [exact Hdoc|].
    destruct (categories doc !! Z.to_nat index) as [category|]; [|exact Hdoc].
    apply everyCategory_handleCategoryChange; [exact Hdoc|].
    intros v [= <-]. now destruct (subcategories category).
  - intros subIndex. unfold handleDeleteSubcategory.
    destruct (index =? -1)%Z; [exact Hdoc|].
    destruct (categories doc !! Z.to_nat index) as [category|]; [|exact Hdoc].
    destruct (length (subcategories category) <=? 1)%nat eqn:Hlen; [exact Hdoc|].
    apply Nat.leb_gt in Hlen.
    apply everyCategory_handleCategoryChange; [exact Hdoc|].
    intros v [= <-]. now apply delete_nonempty.
  - intros id totals. unfold applyMarkup.
    destruct (index =? -1)%Z; [exact Hdoc|].
    destruct (categories doc !! Z.to_nat index) as [category|]; [|exact Hdoc].
    destruct (subcategories category) as [|first rest]; [exact Hdoc|].
    destruct (Qeq_bool _ 0); [exact Hdoc|].
    apply everyCategory_insert; [exact Hdoc|]. discriminate.
  - intros categoryId subcategoryId columnDefinitions.
    unfold handleAddCategory, everyCategoryHasSubcategory.
    cbn [setCategories categories]. apply Forall_app. split; [exact Hdoc|].
    constructor; [discriminate|constructor].
Qed.
End EditorInvariant.

Lemma editor_keeps_a_subcategory_witness :
  everyCategoryHasSubcategory (exampleDocument MD_proportional) /\
  everyCategoryHasSubcategory
    (handleDeleteSubcategory (exampleDocument MD_proportional) 0 0) /\
  everyCategoryHasSubcategory
    (applyMarkup digitsToNumber "m1"
       (calculateTotals digitsToNumber (exampleDocument MD_proportional))
       (exampleDocument MD_proportional) 0).
Proof.
  assert (H : everyCategoryHasSubcategory (exampleDocument MD_proportional))
    by (repeat constructor; discriminate).
  pose proof (editor_keeps_a_subcategory digitsToNumber (fun _ => "")
                (exampleDocument MD_proportional) 0 H)
    as (_ & _ & _ & _ & _ & _ & Hdelete & Hmarkup & _).
  split; [exact H|]. split; [apply Hdelete|apply Hmarkup].
Defined.

(** ** Totals after an edit of one category *)

Lemma handleCategoryChange_at (doc : DocumentState) (index : nat) (category : CostCategory)
    (upd : CategoryUpdate) :
  categories doc !! index = Some category ->
  handleCategoryChange doc (Z.of_nat index) upd
  = setCategories doc
      (<[index := match upd with
                  | SetApplyVat false => hideVatColumn (setCategoryField category upd)
                  | _ => setCategoryField category upd
                  end]> (categories doc)).
Proof.
  intros Hcat. unfold handleCategoryChange.
  replace (Z.of_nat index =? -1)%Z with false by (symmetry; apply Z.eqb_neq; lia).
  now rewrite Nat2Z.id, Hcat.
Qed.

Lemma handleSubcategoryItems_at (doc : DocumentState) (index subIndex : nat)
    (category : CostCategory) (sub : Subcategory) (newItems : list Item) :
  categories doc !! index = Some category ->
  subcategories category !! subIndex = Some sub ->
  handleSubcategoryItems doc (Z.of_nat index) subIndex newItems
  = setCategories doc
      (<[index := setCategoryField category
                    (SetSubcategories
                       (<[subIndex := {| sub_id := sub_id sub; sub_name := sub_name sub;
                                         items := newItems |}]> (subcategories category)))]>
         (categories doc)).
Proof.
  intros Hcat Hsub. unfold handleSubcategoryItems.
  replace (Z.of_nat index =? -1)%Z with false by (symmetry; apply Z.eqb_neq; lia).
  rewrite Nat2Z.id, Hcat, Hsub. now rewrite (handleCategoryChange_at _ _ _ _ Hcat).
Qed.

Section EditFacts.
Variable StringToNumber : string -> option Q.

(** The VAT calculateTotals charges on a category. *)
Lemma totals_after_insert (doc : DocumentState) (index : nat) (c c' : CostCategory) :
  categories doc !! index = Some c ->
  let doc' := setCategories doc (<[index := c']> (categories doc)) in
  subtotal (calculateTotals StringToNumber doc')
  == subtotal (calculateTotals StringToNumber doc)
     - calculateCategoryTotal StringToNumber c + calculateCategoryTotal StringToNumber c' /\
  tax (calculateTotals StringToNumber doc')
  == tax (calculateTotals StringToNumber doc)
     - (if showVat doc && applyVat c
        then calculateCategoryTotal StringToNumber c * (vatRate doc / 100) else 0)
     + (if showVat doc && applyVat c'
        then calculateCategoryTotal StringToNumber c' * (vatRate doc / 100) else 0).
Proof.
  intros Hcat doc'.
  destruct (subtotal_sum StringToNumber doc) as [Hs Ht].
  destruct (subtotal_sum StringToNumber doc') as [Hs' Ht'].
  unfold doc' in Hs', Ht'. cbn [setCategories categories showVat vatRate] in Hs', Ht'.
  unfold doc'. rewrite Hs, Hs', Ht, Ht'. split.
  - apply (Qsum_insert_diff (calculateCategoryTotal StringToNumber) _ _ _ _ Hcat).
  - apply (Qsum_insert_diff
             (fun c => if showVat doc && applyVat c
                       then calculateCategoryTotal StringToNumber c * (vatRate doc / 100)
                       else 0) _ _ _ _ Hcat).
Qed.

Lemma total_is_sum (doc : DocumentState) :
  total (calculateTotals StringToNumber doc)
  = subtotal (calculateTotals StringToNumber doc) + tax (calculateTotals StringToNumber doc).
Proof.
  unfold calculateTotals. now destruct (fold_left _ _ _).
Qed.

Lemma rawSubtotal_new_items (category : CostCategory) (subIndex : nat) (sub : Subcategory)
    (newItems : list Item) :
  subcategories category !! subIndex = Some sub ->
  reduceRawSubtotal StringToNumber
    (setCategoryField category
       (SetSubcategories
          (<[subIndex := {| sub_id := sub_id sub; sub_name := sub_name sub;
                            items := newItems |}]> (subcategories category))))
  == reduceRawSubtotal StringToNumber category
     - Qsum (map (itemSubtotal StringToNumber) (items sub))
     + Qsum (map (itemSubtotal StringToNumber) newItems).
Proof.
  intros Hsub. rewrite !reduceRawSubtotal_items. unfold allItems.
  cbn [setCategoryField subcategories]. rewrite !Qsum_concat.
  now rewrite (Qsum_insert_diff _ _ _ _ _ Hsub).
Qed.

Lemma categoryTotal_same_markup (c c' : CostCategory) (delta : Q) :
  markupType c' = markupType c -> markupValue c' = markupValue c ->
  reduceRawSubtotal StringToNumber c' == reduceRawSubtotal StringToNumber c + delta ->
  calculateCategoryTotal StringToNumber c'
  == calculateCategoryTotal StringToNumber c
     + match markupType c with
       | MT_percentage => delta * (1 + markupValue c / 100)
       | _ => delta
       end.
Proof.
  intros Htype Hvalue Hraw. rewrite !calculateCategoryTotal_reduce.
  unfold withMarkups. rewrite Htype, Hvalue.
  destruct (markupType c); rewrite ?orZero_eq, Hraw; field.
Qed.
End EditFacts.

Lemma Qsum_delete {A : Type} (f : A -> Q) (l : list A) (i : nat) (a : A) :
  l !! i = Some a -> Qsum (map f (delete i l)) == Qsum (map f l) - f a.
Proof.
  revert i. induction l as [|b l IH]; intros [|i] Hi; try discriminate.
  - injection Hi as ->. cbn [delete list_delete map]. rewrite Qsum_cons. ring.
  - cbn [delete list_delete map]. change (list_delete i l) with (delete i l).
    rewrite !Qsum_cons, (IH i) by assumption. ring.
Qed.

Lemma getField_insert_ne (item : Item) (field other : string) (value : jsval) :
  other <> field -> getField (<[field := value]> item) other = getField item other.
Proof. intros Hne. unfold getField. now rewrite lookup_insert_ne by congruence. Qed.

Section EditTheorems.
Variable StringToNumber : string -> option Q.

(** X8.  Changing a field of an item stores the value in that
    field of that item and changes nothing else: no other field, no other
    item, no item count; and a change of a field other than the quantity and
    the unit price changes none of the document totals. *)
Theorem handleItemChange_spec (doc : DocumentState) (index subIndex itemIndex : nat)
    (category : CostCategory) (sub : Subcategory) (item : Item)
    (field : string) (value : jsval) :
  categories doc !! index = Some category ->
  subcategories category !! subIndex = Some sub ->
  items sub !! itemIndex = Some item ->
  let doc' := handleItemChange doc (Z.of_nat index) subIndex itemIndex field value in
  (exists category' sub' item',
     categories doc' !! index = Some category' /\
     subcategories category' !! subIndex = Some sub' /\
     items sub' !! itemIndex = Some item' /\
     getField item' field = value /\
     (forall other, other <> field -> item' !! other = item !! other) /\
     length (items sub') = length (items sub) /\
     (forall j, j <> itemIndex -> items sub' !! j = items sub !! j) /\
     (forall j, j <> subIndex -> subcategories category' !! j = subcategories category !! j)) /\
  (forall i, i <> index -> categories doc' !! i = categories doc !! i) /\
  (field <> "quantity" -> field <> "unitPrice" ->
   subtotal (calculateTotals StringToNumber doc')
   == subtotal (calculateTotals StringToNumber doc) /\
   tax (calculateTotals StringToNumber doc') == tax (calculateTotals StringToNumber doc) /\
   total (calculateTotals StringToNumber doc')
   == total (calculateTotals StringToNumber doc)).
Proof.
  intros Hcat Hsub Hitem doc'.
  assert (Hdoc' : doc'
    = setCategories doc
        (<[index := setCategoryField category
                      (SetSubcategories
                         (<[subIndex :=
                              {| sub_id := sub_id sub; sub_name := sub_name sub;
                                 items := <[itemIndex := <[field := value]> item]> (items sub) |}]>
                            (subcategories category)))]> (categories doc))).
  { unfold doc', handleItemChange.
    replace (Z.of_nat index =? -1)%Z with false by (symmetry; apply Z.eqb_neq; lia).
    rewrite Nat2Z.id, Hcat, Hsub, Hitem.
    now apply handleSubcategoryItems_at. }
  rewrite Hdoc'. split; [|split].
  - eexists _, _, _. cbn [setCategories categories].
    split; [apply list_lookup_insert_eq; now apply lookup_lt_Some in Hcat|].
    cbn [setCategoryField subcategories].
    split; [apply list_lookup_insert_eq; now apply lookup_lt_Some in Hsub|].
    cbn [items].
    split; [apply list_lookup_insert_eq; now apply lookup_lt_Some in Hitem|].
    split; [unfold getField; now rewrite lookup_insert_eq|].
    split; [intros other Hne; now apply lookup_insert_ne|].
    split; [apply length_insert|].
    split; intros j Hj; now apply list_lookup_insert_ne.
  - intros i Hi. cbn [setCategories categories]. now apply list_lookup_insert_ne.
  - intros Hq Hp.
    match goal with
    | |- context [<[index := ?c]> (categories doc)] => set (category' := c)
    end.
    assert (Hitem' : itemSubtotal StringToNumber (<[field := value]> item)
                     = itemSubtotal StringToNumber item).
    { unfold itemSubtotal. now rewrite !getField_insert_ne by congruence. }
    assert (Hraw : reduceRawSubtotal StringToNumber category'
                   == reduceRawSubtotal StringToNumber category + 0).
    { unfold category'. rewrite (rawSubtotal_new_items _ _ _ _ _ Hsub).
      rewrite (Qsum_insert (itemSubtotal StringToNumber) _ _ _ _ Hitem)
        by (now rewrite Hitem').
      ring. }
    pose proof (categoryTotal_same_markup StringToNumber category category' 0
                  eq_refl eq_refl Hraw) as Htotal.
    assert (Hsame : calculateCategoryTotal StringToNumber category'
                    == calculateCategoryTotal StringToNumber category).
    { rewrite Htotal. destruct (markupType category); ring. }
    destruct (totals_after_insert StringToNumber doc index category category' Hcat)
      as [Hs Ht].
    assert (Hs' : subtotal (calculateTotals StringToNumber
                              (setCategories doc (<[index := category']> (categories doc))))
                  == subtotal (calculateTotals StringToNumber doc)).
    { rewrite Hs, Hsame. ring. }
    assert (Ht' : tax (calculateTotals StringToNumber
                         (setCategories doc (<[index := category']> (categories doc))))
                  == tax (calculateTotals StringToNumber doc)).
    { rewrite Ht. change (applyVat category') with (applyVat category).
      destruct (showVat doc && applyVat category); [rewrite Hsame|]; ring. }
    split; [exact Hs'|]. split; [exact Ht'|].
    rewrite !total_is_sum, Hs', Ht'. reflexivity.
Qed.

(** X9.  Deleting an item removes exactly that item from its
    subcategory and, up to rounding (the sums are taken in exact
    arithmetic), lowers the raw subtotal of the category by the subtotal of
    the item and, in a category without markup, the document subtotal by the
    same amount. *)
Theorem handleDeleteItem_spec (doc : DocumentState) (index subIndex itemIndex : nat)
    (category : CostCategory) (sub : Subcategory) (item : Item) :
  categories doc !! index = Some category ->
  subcategories category !! subIndex = Some sub ->
  items sub !! itemIndex = Some item ->
  let doc' := handleDeleteItem doc (Z.of_nat index) subIndex itemIndex in
  exists category' sub',
    categories doc' !! index = Some category' /\
    subcategories category' !! subIndex = Some sub' /\
    items sub' = delete itemIndex (items sub) /\
    S (length (items sub')) = length (items sub) /\
    reduceRawSubtotal StringToNumber category'
    == reduceRawSubtotal StringToNumber category - itemSubtotal StringToNumber item /\
    (markupType category = MT_none ->
     subtotal (calculateTotals StringToNumber doc')
     == subtotal (calculateTotals StringToNumber doc) - itemSubtotal StringToNumber item).
Proof.
  intros Hcat Hsub Hitem doc'.
  assert (Hdoc' : doc'
    = setCategories doc
        (<[index := setCategoryField category
                      (SetSubcategories
                         (<[subIndex :=
                              {| sub_id := sub_id sub; sub_name := sub_name sub;
                                 items := delete itemIndex (items sub) |}]>
                            (subcategories category)))]> (categories doc))).
  { unfold doc', handleDeleteItem.
    replace (Z.of_nat index =? -1)%Z with false by (symmetry; apply Z.eqb_neq; lia).
    rewrite Nat2Z.id, Hcat, Hsub.
    now apply handleSubcategoryItems_at. }
  rewrite Hdoc'.
  match goal with
  | |- context [<[index := ?c]> (categories doc)] => set (category' := c)
  end.
  assert (Hraw : reduceRawSubtotal StringToNumber category'
                 == reduceRawSubtotal StringToNumber category
                    + - itemSubtotal StringToNumber item).
  { unfold category'. rewrite (rawSubtotal_new_items _ _ _ _ _ Hsub).
    rewrite (Qsum_delete _ _ _ _ Hitem). ring. }
  eexists _, _. cbn [setCategories categories].
  split; [apply list_lookup_insert_eq; now apply lookup_lt_Some in Hcat|].
  unfold category' at 1. cbn [setCategoryField subcategories].
  split; [apply list_lookup_insert_eq; now apply lookup_lt_Some in Hsub|].
  cbn [items]. split; [reflexivity|]. split.
  - rewrite length_delete by eauto. apply lookup_lt_Some in Hitem. lia.
  - split; [rewrite Hraw; ring|].
    intros Hnone.
    destruct (totals_after_insert StringToNumber doc index category category' Hcat)
      as [Hs _].
    rewrite Hs.
    rewrite (categoryTotal_same_markup StringToNumber category category' _
               eq_refl eq_refl Hraw).
    rewrite Hnone. ring.
Qed.

(** X10.  Toggling a column flips the visibility the editor reads for
    that column of the active category and for no other; toggling it twice
    gives every column the visibility it had. *)
Theorem handleToggleColumn_spec (doc : DocumentState) (index : nat)
    (category : CostCategory) (key : string) :
  categories doc !! index = Some category ->
  let doc1 := handleToggleColumn doc (Z.of_nat index) key in
  let doc2 := handleToggleColumn doc1 (Z.of_nat index) key in
  exists c1 c2,
    categories doc1 !! index = Some c1 /\
    categories doc2 !! index = Some c2 /\
    columnVisible (visibleColumns c1) key = negb (columnVisible (visibleColumns category) key) /\
    (forall other, other <> key ->
       columnVisible (visibleColumns c1) other
       = columnVisible (visibleColumns category) other) /\
    (forall k, columnVisible (visibleColumns c2) k
               = columnVisible (visibleColumns category) k) /\
    subcategories c2 = subcategories category /\
    (forall i, i <> index -> categories doc2 !! i = categories doc !! i).
Proof.
  intros Hcat doc1 doc2.
  assert (Hlt : (index < length (categories doc))%nat) by now apply lookup_lt_Some in Hcat.
  assert (Htoggle : forall d c,
    categories d !! index = Some c ->
    handleToggleColumn d (Z.of_nat index) key
    = setCategories d
        (<[index := setCategoryField c
                      (SetVisibleColumns
                         (<[key := negb (columnVisible (visibleColumns c) key)]>
                            (visibleColumns c)))]> (categories d))).
  { intros d c Hc. unfold handleToggleColumn.
    replace (Z.of_nat index =? -1)%Z with false by (symmetry; apply Z.eqb_neq; lia).
    rewrite Nat2Z.id, Hc. now rewrite (handleCategoryChange_at _ _ _ _ Hc). }
  pose proof (Htoggle doc category Hcat) as H1. fold doc1 in H1.
  assert (Hc1 : categories doc1 !! index
                = Some (setCategoryField category
                          (SetVisibleColumns
                             (<[key := negb (columnVisible (visibleColumns category) key)]>
                                (visibleColumns category))))).
  { rewrite H1. cbn [setCategories categories]. now apply list_lookup_insert_eq. }
  pose proof (Htoggle doc1 _ Hc1) as H2. fold doc2 in H2.
  eexists _, _. split; [exact Hc1|]. split.
  { rewrite H2. cbn [setCategories categories]. apply list_lookup_insert_eq.
    rewrite H1. cbn [setCategories categories]. now rewrite length_insert. }
  cbn [setCategoryField visibleColumns subcategories].
  split; [unfold columnVisible at 1; now rewrite lookup_insert_eq|].
  split; [intros other Hne; unfold columnVisible; now rewrite lookup_insert_ne by congruence|].
  split; [|split; [reflexivity|]].
  - intros k. unfold columnVisible at 1.
    destruct (decide (k = key)) as [->|Hne].
    + rewrite lookup_insert_eq. unfold columnVisible at 1. rewrite lookup_insert_eq.
      apply negb_involutive.
    + rewrite !lookup_insert_ne by congruence. reflexivity.
  - intros i Hi. rewrite H2, H1. cbn [setCategories categories].
    now rewrite !list_lookup_insert_ne by congruence.
Qed.

(** X11.  Switching the VAT of the active category off hides its VAT
    column, takes its VAT out of the document tax (up to rounding: the sums
    are taken in exact arithmetic) and leaves the subtotal alone; switching
    it on again does not bring the column back. *)
Theorem applyVat_off_hides_vat_column (doc : DocumentState) (index : nat)
    (category : CostCategory) :
  categories doc !! index = Some category ->
  let doc' := handleCategoryChange doc (Z.of_nat index) (SetApplyVat false) in
  let doc'' := handleCategoryChange doc' (Z.of_nat index) (SetApplyVat true) in
  exists category' category'',
    categories doc' !! index = Some category' /\
    categories doc'' !! index = Some category'' /\
    applyVat category' = false /\
    columnVisible (visibleColumns category') "vat" = false /\
    (forall other, other <> "vat" ->
       visibleColumns category' !! other = visibleColumns category !! other) /\
    applyVat category'' = true /\
    columnVisible (visibleColumns category'') "vat" = false /\
    subtotal (calculateTotals StringToNumber doc')
    == subtotal (calculateTotals StringToNumber doc) /\
    tax (calculateTotals StringToNumber doc')
    == tax (calculateTotals StringToNumber doc)
       - (if showVat doc && applyVat category
          then calculateCategoryTotal StringToNumber category * (vatRate doc / 100)
          else 0).
Proof.
  intros Hcat doc' doc''.
  assert (Hlt : (index < length (categories doc))%nat) by now apply lookup_lt_Some in Hcat.
  pose proof (handleCategoryChange_at doc index category (SetApplyVat false) Hcat) as H1.
  fold doc' in H1.
  set (category' := hideVatColumn (setCategoryField category (SetApplyVat false))) in *.
  assert (Hc1 : categories doc' !! index = Some category').
  { rewrite H1. cbn [setCategories categories]. now apply list_lookup_insert_eq. }
  pose proof (handleCategoryChange_at doc' index category' (SetApplyVat true) Hc1) as H2.
  fold doc'' in H2.
  exists category', (setCategoryField category' (SetApplyVat true)).
  split; [exact Hc1|]. split.
  { rewrite H2. cbn [setCategories categories]. apply list_lookup_insert_eq.
    rewrite H1. cbn [setCategories categories]. now rewrite length_insert. }
  split; [reflexivity|].
  split; [unfold columnVisible; cbn; now rewrite lookup_insert_eq|].
  split; [intros other Hne; cbn; now rewrite lookup_insert_ne by congruence|].
  split; [reflexivity|].
  split; [unfold columnVisible; cbn; now rewrite lookup_insert_eq|].
  destruct (totals_after_insert StringToNumber doc index category category' Hcat)
    as [Hs Ht].
  assert (Hsame : calculateCategoryTotal StringToNumber category'
                  == calculateCategoryTotal StringToNumber category) by reflexivity.
  rewrite H1. split.
  - rewrite Hs, Hsame. ring.
  - rewrite Ht. change (applyVat category') with false. rewrite andb_false_r. ring.
Qed.
End EditTheorems.

Lemma handleItemChange_spec_witness :
  categories (exampleDocument MD_proportional) !! 0%nat
  = Some (exampleCategory MT_percentage 10 MD_proportional) /\
  subcategories (exampleCategory MT_percentage 10 MD_proportional) !! 1%nat
  = Some {| sub_id := "s2"; sub_name := "Extras";
            items := [exampleItem (VStr "n/a") (VNum 40); exampleItem (VNum 1) (VNum 200)] |} /\
  [exampleItem (VStr "n/a") (VNum 40); exampleItem (VNum 1) (VNum 200)] !! 0%nat
  = Some (exampleItem (VStr "n/a") (VNum 40)) /\
  "description" <> "quantity" /\ "description" <> "unitPrice" /\
  subtotal (calculateTotals digitsToNumber
              (handleItemChange (exampleDocument MD_proportional) 0 1 0 "description"
                 (VStr "Cemento")))
  == subtotal (calculateTotals digitsToNumber (exampleDocument MD_proportional)).
Proof.
  assert (H1 : categories (exampleDocument MD_proportional) !! 0%nat
               = Some (exampleCategory MT_percentage 10 MD_proportional)) by reflexivity.
  assert (H2 : subcategories (exampleCategory MT_percentage 10 MD_proportional) !! 1%nat
               = Some {| sub_id := "s2"; sub_name := "Extras";
                         items := [exampleItem (VStr "n/a") (VNum 40);
                                   exampleItem (VNum 1) (VNum 200)] |}) by reflexivity.
  assert (H3 : [exampleItem (VStr "n/a") (VNum 40); exampleItem (VNum 1) (VNum 200)] !! 0%nat
               = Some (exampleItem (VStr "n/a") (VNum 40))) by reflexivity.
  assert (H4 : "description" <> "quantity") by discriminate.
  assert (H5 : "description" <> "unitPrice") by discriminate.
  split; [exact H1|]. split; [exact H2|]. split; [exact H3|].
  split; [exact H4|]. split; [exact H5|].
  exact (proj1 (proj2 (proj2
           (handleItemChange_spec digitsToNumber (exampleDocument MD_proportional)
              0 1 0 _ _ _ "description" (VStr "Cemento") H1 H2 H3)) H4 H5)).
Defined.

Lemma handleDeleteItem_spec_witness :
  categories (exampleDocument MD_proportional) !! 0%nat
  = Some (exampleCategory MT_percentage 10 MD_proportional) /\
  subcategories (exampleCategory MT_percentage 10 MD_proportional) !! 1%nat
  = Some {| sub_id := "s2"; sub_name := "Extras";
            items := [exampleItem (VStr "n/a") (VNum 40); exampleItem (VNum 1) (VNum 200)] |} /\
  [exampleItem (VStr "n/a") (VNum 40); exampleItem (VNum 1) (VNum 200)] !! 1%nat
  = Some (exampleItem (VNum 1) (VNum 200)) /\
  exists category' sub',
    categories (handleDeleteItem (exampleDocument MD_proportional) 0 1 1) !! 0%nat
    = Some category' /\
    subcategories category' !! 1%nat = Some sub' /\
    items sub' = [exampleItem (VStr "n/a") (VNum 40)] /\
    reduceRawSubtotal digitsToNumber category'
    == reduceRawSubtotal digitsToNumber (exampleCategory MT_percentage 10 MD_proportional)
       - itemSubtotal digitsToNumber (exampleItem (VNum 1) (VNum 200)).
Proof.
  assert (H1 : categories (exampleDocument MD_proportional) !! 0%nat
               = Some (exampleCategory MT_percentage 10 MD_proportional)) by reflexivity.
  assert (H2 : subcategories (exampleCategory MT_percentage 10 MD_proportional) !! 1%nat
               = Some {| sub_id := "s2"; sub_name := "Extras";
                         items := [exampleItem (VStr "n/a") (VNum 40);
                                   exampleItem (VNum 1) (VNum 200)] |}) by reflexivity.
  assert (H3 : [exampleItem (VStr "n/a") (VNum 40); exampleItem (VNum 1) (VNum 200)] !! 1%nat
               = Some (exampleItem (VNum 1) (VNum 200))) by reflexivity.
  split; [exact H1|]. split; [exact H2|]. split; [exact H3|].
  destruct (handleDeleteItem_spec digitsToNumber (exampleDocument MD_proportional)
              0 1 1 _ _ _ H1 H2 H3)
    as (category' & sub' & Hc & Hs & Hitems & _ & Hraw & _).
  exists category', sub'. split; [exact Hc|]. split; [exact Hs|].
  split; [exact Hitems|exact Hraw].
Defined.

Lemma handleToggleColumn_spec_witness :
  categories (exampleDocument MD_proportional) !! 0%nat
  = Some (exampleCategory MT_percentage 10 MD_proportional) /\
  exists c1 c2,
    categories (handleToggleColumn (exampleDocument MD_proportional) 0 "unit") !! 0%nat
    = Some c1 /\
    categories
      (handleToggleColumn (handleToggleColumn (exampleDocument MD_proportional) 0 "unit")
         0 "unit") !! 0%nat = Some c2 /\
    columnVisible (visibleColumns c1) "unit" = true /\
    columnVisible (visibleColumns c2) "unit" = false.
Proof.
  assert (H1 : categories (exampleDocument MD_proportional) !! 0%nat
               = Some (exampleCategory MT_percentage 10 MD_proportional)) by reflexivity.
  split; [exact H1|].
  destruct (handleToggleColumn_spec (exampleDocument MD_proportional) 0 _ "unit" H1)
    as (c1 & c2 & Hc1 & Hc2 & Hflip & _ & Hback & _).
  exists c1, c2. split; [exact Hc1|]. split; [exact Hc2|]. split.
  - rewrite Hflip. reflexivity.
  - rewrite Hback. reflexivity.
Defined.

Lemma applyVat_off_hides_vat_column_witness :
  categories (exampleDocument MD_proportional) !! 1%nat
  = Some (exampleCategory MT_fixed 80 MD_proportional) /\
  exists category' category'',
    categories (handleCategoryChange (exampleDocument MD_proportional) 1 (SetApplyVat false))
      !! 1%nat = Some category' /\
    categories
      (handleCategoryChange
         (handleCategoryChange (exampleDocument MD_proportional) 1 (SetApplyVat false))
         1 (SetApplyVat true)) !! 1%nat = Some category'' /\
    columnVisible (visibleColumns category') "vat" = false /\
    applyVat category'' = true /\
    columnVisible (visibleColumns category'') "vat" = false.
Proof.
  assert (H1 : categories (exampleDocument MD_proportional) !! 1%nat
               = Some (exampleCategory MT_fixed 80 MD_proportional)) by reflexivity.
  split; [exact H1|].
  destruct (applyVat_off_hides_vat_column digitsToNumber (exampleDocument MD_proportional)
              1 _ H1)
    as (c1 & c2 & Hc1 & Hc2 & _ & Hhidden & _ & Hon & Hstill & _).
  exists c1, c2. split; [exact Hc1|]. split; [exact Hc2|].
  split; [exact Hhidden|]. split; [exact Hon|exact Hstill].
Defined.

(** ** Adding a category *)

(** X13.  A category added in the settings page comes with one
    empty subcategory 'General', the default visibility of every column of
    the registry, no VAT and no markup; it changes no document total and,
    having no item, it does not appear in the preview. *)
Theorem handleAddCategory_spec (StringToNumber : string -> option Q)
    (categoryId subcategoryId : string)
    (columnDefinitions : gmap string ColumnDefinition) (doc : DocumentState) :
  let doc' := handleAddCategory categoryId subcategoryId columnDefinitions doc in
  (exists category,
     categories doc' = (categories doc ++ [category])%list /\
     subcategories category
     = [{| sub_id := subcategoryId; sub_name := "General"; items := [] |}] /\
     (forall key, visibleColumns category !! key = default_ <$> columnDefinitions !! key) /\
     applyVat category = false /\ markupType category = MT_none /\
     isShown category = false) /\
  subtotal (calculateTotals StringToNumber doc')
  == subtotal (calculateTotals StringToNumber doc) /\
  tax (calculateTotals StringToNumber doc') == tax (calculateTotals StringToNumber doc) /\
  total (calculateTotals StringToNumber doc') == total (calculateTotals StringToNumber doc) /\
  previewFigures StringToNumber doc' = previewFigures StringToNumber doc.
Proof.
  cbv zeta.
  match goal with
  | |- context [handleAddCategory ?a ?b ?c ?d] =>
      set (doc' := handleAddCategory a b c d)
  end.
  assert (Hcats : exists category,
    categories doc' = (categories doc ++ [category])%list /\
    subcategories category
    = [{| sub_id := subcategoryId; sub_name := "General"; items := [] |}] /\
    (forall key, visibleColumns category !! key = default_ <$> columnDefinitions !! key) /\
    applyVat category = false /\ markupType category = MT_none /\
    isShown category = false).
  { eexists. split; [reflexivity|]. cbn.
    split; [reflexivity|]. split; [intros key; apply lookup_fmap|].
    split; [reflexivity|]. split; reflexivity. }
  destruct Hcats as (category & Hcats & Hsubs & Hvisible & Hvat & Htype & Hshown).
  assert (Htotal : calculateCategoryTotal StringToNumber category == 0).
  { rewrite (hidden_category_total StringToNumber category Hshown).
    unfold isFixed. now rewrite Htype. }
  destruct (subtotal_sum StringToNumber doc) as [Hs Ht].
  destruct (subtotal_sum StringToNumber doc') as [Hs' Ht'].
  rewrite Hcats in Hs', Ht'. rewrite !map_app, !Qsum_app in Hs', Ht'.
  cbn [map] in Hs', Ht'. rewrite !Qsum_cons in Hs', Ht'.
  rewrite Hvat, andb_false_r, Htotal in *.
  change (showVat doc') with (showVat doc) in Ht'.
  change (vatRate doc') with (vatRate doc) in Ht'.
  assert (Hsub : subtotal (calculateTotals StringToNumber doc')
                 == subtotal (calculateTotals StringToNumber doc)).
  { rewrite Hs, Hs'. cbn [Qsum fold_right]. ring. }
  assert (Htax : tax (calculateTotals StringToNumber doc')
                 == tax (calculateTotals StringToNumber doc)).
  { rewrite Ht, Ht'. cbn [Qsum fold_right]. ring. }
  split; [exists category; repeat split; assumption|].
  split; [exact Hsub|]. split; [exact Htax|]. split.
  - rewrite !total_is_sum, Hsub, Htax. reflexivity.
  - unfold previewFigures. rewrite Hcats, List.filter_app. cbn [List.filter].
    fold (isShown category). rewrite Hshown, app_nil_r. reflexivity.
Qed.

(** ** Companies *)

(** X27.  While the companies have distinct identifiers,
    handleDeleteCompany never deletes the last company: the list stays
    non-empty, keeps distinct identifiers, loses the company of the given
    identifier when there are several and the deletion is confirmed, and
    keeps every other company. *)
Theorem handleDeleteCompany_keeps_one (companies : list Company) (idToDelete : string)
    (confirmed : bool) :
  NoDup (map company_id companies) -> companies <> [] ->
  handleDeleteCompany companies idToDelete confirmed <> [] /\
  NoDup (map company_id (handleDeleteCompany companies idToDelete confirmed)) /\
  ((1 < length companies)%nat -> confirmed = true ->
   ~ In idToDelete (map company_id (handleDeleteCompany companies idToDelete confirmed))) /\
  (forall c, In c companies -> company_id c <> idToDelete ->
             In c (handleDeleteCompany companies idToDelete confirmed)).
Proof.
  intros Hnodup Hne. unfold handleDeleteCompany.
  destruct (length companies <=? 1)%nat eqn:Hlen.
  { apply Nat.leb_le in Hlen. repeat split; auto. lia. }
  apply Nat.leb_gt in Hlen. destruct confirmed.
  2:{ repeat split; auto. discriminate. }
  split; [|split; [|split]].
  - destruct companies as [|a [|b l]]; cbn [length] in Hlen; try lia.
    cbn [map] in Hnodup. apply NoDup_cons in Hnodup as [Hab _].
    cbn [List.filter].
    destruct (bool_decide (company_id a = idToDelete)) eqn:Ha; cbn [negb]; [|discriminate].
    destruct (bool_decide (company_id b = idToDelete)) eqn:Hb; cbn [negb]; [|discriminate].
    apply bool_decide_eq_true in Ha, Hb. exfalso. apply Hab.
    rewrite Ha, <- Hb. apply list_elem_of_here.
  - clear Hne Hlen. induction companies as [|a l IH]; [constructor|].
    cbn [map] in Hnodup. apply NoDup_cons in Hnodup as [Ha Hl].
    cbn [List.filter]. destruct (negb _); [|now apply IH].
    cbn [map]. apply NoDup_cons. split; [|now apply IH].
    intros Hin. apply Ha. apply list_elem_of_In, in_map_iff in Hin as (c & Hc & Hin).
    apply filter_In in Hin as [Hin _].
    apply list_elem_of_In, in_map_iff. now exists c.
  - intros _ _ Hin. apply in_map_iff in Hin as (c & Hc & Hin).
    apply filter_In in Hin as [_ Hin].
    apply negb_true_iff, bool_decide_eq_false in Hin. contradiction.
  - intros c Hin Hc. apply filter_In. split; [exact Hin|].
    now apply negb_true_iff, bool_decide_eq_false.
Qed.

Lemma handleDeleteCompany_keeps_one_witness :
  NoDup (map company_id [exampleCompany 1]) /\ [exampleCompany 1] <> [] /\
  handleDeleteCompany [exampleCompany 1] "c1" true <> [].
Proof.
  assert (H1 : NoDup (map company_id [exampleCompany 1]))
    by (apply (bool_decide_unpack _); vm_compute; exact I).
  assert (H2 : [exampleCompany 1] <> []) by discriminate.
  split; [exact H1|]. split; [exact H2|].
  exact (proj1 (handleDeleteCompany_keeps_one [exampleCompany 1] "c1" true H1 H2)).
Defined.

(** ** The lines of an interpreted ticket *)

Lemma length_append (a b : string) :
  String.length (a ++ b) = (String.length a + String.length b)%nat.
Proof.
  induction a as [|c a IH]; [reflexivity|].
  change (String c a ++ b) with (String c (a ++ b)). cbn [String.length]. now rewrite IH.
Qed.

Lemma length_repeatString (n : nat) : String.length (repeatString " " n) = n.
Proof.
  unfold repeatString. induction n as [|n IH]; [reflexivity|].
  cbn [repeat String.concat]. destruct n as [|n]; [reflexivity|].
  cbn [repeat] in *. rewrite !length_append, IH. reflexivity.
Qed.

Lemma length_substring_0 (n : nat) (s : string) :
  String.length (substring 0 n s) = Nat.min n (String.length s).
Proof.
  revert s. induction n as [|n IH]; intros [|c s]; cbn [substring String.length];
    try reflexivity.
  now rewrite IH.
Qed.

Lemma prefix_append (a b : string) : String.prefix a (a ++ b) = true.
Proof.
  induction a as [|c a IH]; [now destruct b|].
  change (String c a ++ b) with (String c (a ++ b)). cbn [String.prefix].
  destruct (ascii_dec c c); [exact IH|contradiction].
Qed.



(** X29.  In the preview of an interpreted ticket the
    description column is always 25 characters wide, a longer description
    being cut to 22 characters and an ellipsis; the line of an item is the
    quantity, " x ", that column, a space and the price in a column of at
    least 10 characters, so that it is as wide as the 40 dashes of the rule
    exactly when the quantity prints in one character and the price in at
    most 10. *)
Theorem preview_ticket_line_width (quantityStr priceText description : string) :
  String.length (ticketDescription description) = 25%nat /\
  ((String.length description <= 25)%nat ->
   String.prefix description (ticketDescription description) = true) /\
  ((25 < String.length description)%nat ->
   String.prefix (substring 0 22 description ++ "...") (ticketDescription description)
   = true) /\
  String.length (previewItemLine quantityStr priceText description)
  = (String.length quantityStr + 29 + Nat.max 10 (String.length priceText))%nat /\
  previewItemLine quantityStr priceText description
  = quantityStr ++ " x " ++ ticketDescription description ++ " " ++ padStart 10 priceText.
Proof.
  assert (Hdesc : String.length (ticketDescription description) = 25%nat).
  { unfold ticketDescription, padEnd.
    destruct (25 <? String.length description)%nat eqn:Hlong.
    - apply Nat.ltb_lt in Hlong.
      rewrite ?length_append, ?length_repeatString, ?length_append, ?length_substring_0.
      cbn [String.length]. lia.
    - apply Nat.ltb_ge in Hlong. rewrite length_append, length_repeatString. lia. }
  split; [exact Hdesc|]. split; [|split; [|split]].
  - intros Hshort. unfold ticketDescription, padEnd.
    replace (25 <? String.length description)%nat with false
      by (symmetry; apply Nat.ltb_ge; lia).
    apply prefix_append.
  - intros Hlong. unfold ticketDescription, padEnd.
    replace (25 <? String.length description)%nat with true
      by (symmetry; apply Nat.ltb_lt; lia).
    apply prefix_append.
  - unfold previewItemLine, padStart.
    rewrite !length_append, Hdesc, length_repeatString. cbn [String.length]. lia.
  - unfold previewItemLine. now rewrite !append_assoc.
Qed.

(** ** Imported prices that include VAT *)

(** X14.  When imported prices include VAT and the document's VAT
    rate is positive, the unit price stored in the item is the imported
    price net of VAT: up to rounding (the quotient and the products are
    taken in exact arithmetic), adding the VAT of the document to it gives
    the imported price back, and in a category that applies VAT without
    markup the subtotal of the item plus its VAT is the quantity times the
    imported price.  When the rate is not positive the imported fields are
    stored as they are. *)
Theorem imported_price_is_net_of_vat (StringToNumber : string -> option Q) (id : string)
    (columnDefinitions : gmap string ColumnDefinition) (itemData : Item) (rate : Q) :
  (0 < rate ->
   let item := importedItem StringToNumber id columnDefinitions itemData true rate in
   let imported := numberOrZero StringToNumber (getField itemData "unitPrice") in
   getField item "unitPrice" = VNum (imported / (1 + rate / 100)) /\
   numberOrZero StringToNumber (getField item "unitPrice") * (1 + rate / 100) == imported /\
   (forall category raw,
      applyVat category = true -> markupType category = MT_none ->
      exists vat,
        vatOnItem true rate category raw (itemSubtotal StringToNumber item) = Some vat /\
        itemSubtotal StringToNumber item + vat
        == numberOrZero StringToNumber (getField item "quantity") * imported)) /\
  (rate <= 0 -> forall includesVat key value,
     itemData !! key = Some value ->
     importedItem StringToNumber id columnDefinitions itemData includesVat rate !! key
     = Some value).
Proof.
  split.
  - intros Hrate item imported.
    assert (Hprice : getField item "unitPrice" = VNum (imported / (1 + rate / 100))).
    { unfold item, importedItem, getField. apply Qgtb_true in Hrate. rewrite Hrate.
      cbn [andb]. erewrite lookup_union_Some_l by apply lookup_insert_eq. reflexivity. }
    assert (Hnet : numberOrZero StringToNumber (getField item "unitPrice")
                   * (1 + rate / 100) == imported).
    { rewrite Hprice. unfold numberOrZero. cbn [Number nanOrZero].
      rewrite orZero_eq. field. lra. }
    split; [exact Hprice|]. split; [exact Hnet|].
    intros category raw Hvat Hnone. unfold vatOnItem, itemMarkup.
    rewrite Hvat, Hnone. cbn [andb]. eexists. split; [reflexivity|].
    unfold itemSubtotal. rewrite <- Hnet. ring.
  - intros Hrate includesVat key value Hkey. unfold importedItem.
    apply Qgtb_false in Hrate. rewrite Hrate, andb_false_r.
    now apply lookup_union_Some_l.
Qed.

Lemma imported_price_is_net_of_vat_witness :
  0 < 16 /\
  getField (importedItem digitsToNumber "i1" INITIAL_COLUMN_DEFINITIONS
              {[ "description" := VStr "Cemento"; "unitPrice" := VNum 116 ]} true 16)
    "unitPrice"
  = VNum (numberOrZero digitsToNumber
            (getField {[ "description" := VStr "Cemento"; "unitPrice" := VNum 116 ]}
               "unitPrice")
          / (1 + 16 / 100)).
Proof.
  assert (H : 0 < 16) by reflexivity.
  split; [exact H|].
  exact (proj1 (proj1 (imported_price_is_net_of_vat digitsToNumber "i1"
                         INITIAL_COLUMN_DEFINITIONS
                         {[ "description" := VStr "Cemento"; "unitPrice" := VNum 116 ]} 16)
                  H)).
Defined.

(** ** Column widths of the exported table *)

Lemma Qsum_ext_in {A : Type} (f g : A -> Q) (l : list A) :
  (forall a, In a l -> f a == g a) -> Qsum (map f l) == Qsum (map g l).
Proof.
  induction l as [|a l IH]; intros H; [reflexivity|].
  cbn [map]. rewrite !Qsum_cons, (H a (or_introl eq_refl)), IH; [reflexivity|].
  intros b Hb. apply H. now right.
Qed.

Lemma Qsum_const {A : Type} (c : Q) (l : list A) :
  Qsum (map (fun _ => c) l) == inject_Z (Z.of_nat (length l)) * c.
Proof.
  induction l as [|a l IH]; [cbn; ring|].
  cbn [map length]. rewrite Qsum_cons, IH, Nat2Z.inj_succ, <- Z.add_1_r, inject_Z_plus.
  change (inject_Z 1) with 1. ring.
Qed.

Lemma Qsum_nonneg {A : Type} (f : A -> Q) (l : list A) :
  (forall a, 0 <= f a) -> 0 <= Qsum (map f l).
Proof.
  intros Hf. induction l as [|a l IH]; [apply Qle_refl|].
  cbn [map]. rewrite Qsum_cons. pose proof (Hf a). lra.
Qed.

Lemma Qsum_submseteq {A : Type} (f : A -> Q) (l k : list A) :
  (forall a, 0 <= f a) -> l ⊆+ k -> Qsum (map f l) <= Qsum (map f k).
Proof.
  intros Hf. induction 1 as [|x l1 l2 _ IH|x y l|x l1 l2 _ IH|l1 l2 l3 _ IH1 _ IH2].
  - apply Qle_refl.
  - cbn [map]. rewrite !Qsum_cons. lra.
  - cbn [map]. rewrite !Qsum_cons. lra.
  - cbn [map]. rewrite Qsum_cons. pose proof (Hf x). lra.
  - lra.
Qed.

Lemma filter_eq_absent (l : list string) (x : string) :
  x ∉ l -> List.filter (fun k => bool_decide (k = x)) l = [].
Proof.
  induction l as [|a l IH]; intros Hx; [reflexivity|].
  cbn [List.filter]. rewrite bool_decide_eq_false_2.
  - apply IH. intros H. apply Hx. now apply list_elem_of_further.
  - intros ->. apply Hx. apply list_elem_of_here.
Qed.

Lemma filter_eq_singleton (l : list string) (x : string) :
  NoDup l -> x ∈ l -> List.filter (fun k => bool_decide (k = x)) l = [x].
Proof.
  induction 1 as [|a l Ha Hl IH]; intros Hx; [now apply elem_of_nil in Hx|].
  cbn [List.filter]. apply elem_of_cons in Hx as [->|Hx].
  - rewrite bool_decide_eq_true_2 by reflexivity. f_equal. now apply filter_eq_absent.
  - rewrite bool_decide_eq_false_2; [now apply IH|].
    intros ->. contradiction.
Qed.

Lemma preferred_ratio_positive (key : string) (ratio : Q) :
  PREFERRED_WIDTH_RATIOS !! key = Some ratio -> 0 < ratio.
Proof.
  intros H. unfold PREFERRED_WIDTH_RATIOS in H. apply elem_of_list_to_map_2 in H.
  repeat (apply elem_of_cons in H as [H|H]; [inversion H; subst; reflexivity|]).
  now apply elem_of_nil in H.
Qed.

Lemma preferred_key (key : string) (ratio : Q) :
  PREFERRED_WIDTH_RATIOS !! key = Some ratio ->
  key ∈ ["quantity"; "unitPrice"; "total"; "vat"; "markup"; "unit"].
Proof.
  intros H. unfold PREFERRED_WIDTH_RATIOS in H. apply elem_of_list_to_map_2 in H.
  repeat (apply elem_of_cons in H as [H|H];
          [inversion H; subst; apply (bool_decide_unpack _); vm_compute; exact I|]).
  now apply elem_of_nil in H.
Qed.

(** The ratio of a key, 0 for a key without preferred ratio. *)
Lemma fixed_ratios_bound (l : list string) :
  NoDup l ->
  Qsum (map (fun key => default 0 (PREFERRED_WIDTH_RATIOS !! key)) l) <= 72 # 100.
Proof.
  intros Hnodup.
  set (g := fun key : string => default 0 (PREFERRED_WIDTH_RATIOS !! key)).
  assert (Hg : forall key, 0 <= g key).
  { intros key. unfold g. destruct (PREFERRED_WIDTH_RATIOS !! key) as [r|] eqn:E;
      [apply Qlt_le_weak; now apply (preferred_ratio_positive key)|apply Qle_refl]. }
  rewrite (Qsum_filter_split g
             (fun key => bool_decide (is_Some (PREFERRED_WIDTH_RATIOS !! key))) l).
  assert (Hrest : Qsum (map g (List.filter
                                 (fun a => negb (bool_decide
                                                   (is_Some (PREFERRED_WIDTH_RATIOS !! a)))) l))
                  == 0).
  { induction l as [|a l IH]; [reflexivity|]. cbn [List.filter].
    apply NoDup_cons in Hnodup as [_ Hl].
    destruct (bool_decide (is_Some (PREFERRED_WIDTH_RATIOS !! a))) eqn:E; cbn [negb];
      [now apply IH|].
    cbn [map]. rewrite Qsum_cons, (IH Hl).
    apply bool_decide_eq_false in E. unfold g.
    destruct (PREFERRED_WIDTH_RATIOS !! a); [exfalso; apply E; eauto|].
    change (default 0 (@None Q)) with 0. ring. }
  rewrite Hrest, Qplus_0_r.
  assert (Hsub : List.filter
                   (fun key => bool_decide (is_Some (PREFERRED_WIDTH_RATIOS !! key))) l
                 ⊆+ ["quantity"; "unitPrice"; "total"; "vat"; "markup"; "unit"]).
  { apply NoDup_submseteq; [now apply NoDup_filter_list|].
    intros key Hkey. apply list_elem_of_In, filter_In in Hkey as [_ Hkey].
    apply bool_decide_eq_true in Hkey as [r Hr]. now apply (preferred_key key r). }
  apply (Qsum_submseteq g _ _ Hg) in Hsub.
  eapply Qle_trans; [exact Hsub|]. vm_compute. discriminate.
Qed.

Lemma fold_fixedStep (keys : list string) (styles : gmap string ColumnStyle)
    (used : Q) (dynamic : list string) :
  exists styles' used',
    fold_left fixedStep keys (styles, used, dynamic)
    = (styles', used',
       (dynamic ++ List.filter (fun key => negb (bool_decide
                                                   (is_Some (PREFERRED_WIDTH_RATIOS !! key))))
                               keys)%list) /\
    used' == used
             + DRAW_WIDTH
               * Qsum (map (fun key => default 0 (PREFERRED_WIDTH_RATIOS !! key)) keys) /\
    (forall key,
       styles' !! key
       = match PREFERRED_WIDTH_RATIOS !! key with
         | Some ratio =>
             if bool_decide (key ∈ keys)
             then Some {| width := DRAW_WIDTH * ratio; align := AlignRight |}
             else styles !! key
         | None => styles !! key
         end).
Proof.
  revert styles used dynamic. induction keys as [|k keys IH]; intros styles used dynamic.
  - exists styles, used. cbn [fold_left List.filter map]. rewrite app_nil_r.
    split; [reflexivity|]. split; [cbn; ring|].
    intros key. destruct (PREFERRED_WIDTH_RATIOS !! key); [|reflexivity].
    rewrite bool_decide_eq_false_2; [reflexivity|apply not_elem_of_nil].
  - cbn [fold_left]. unfold fixedStep at 2.
    destruct (PREFERRED_WIDTH_RATIOS !! k) as [ratio|] eqn:Hk.
    + destruct (IH (<[k := {| width := DRAW_WIDTH * ratio; align := AlignRight |}]> styles)
                  (used + DRAW_WIDTH * ratio) dynamic)
        as (styles' & used' & Hfold & Hused & Hstyles).
      exists styles', used'. rewrite Hfold. cbn [List.filter map].
      rewrite Hk, bool_decide_eq_true_2 by eauto. cbn [negb].
      split; [reflexivity|]. split.
      * rewrite Hused, Qsum_cons. change (default 0 (Some ratio)) with ratio. ring.
      * intros key. rewrite Hstyles.
        destruct (PREFERRED_WIDTH_RATIOS !! key) as [r|] eqn:Hkey.
        -- destruct (bool_decide (key ∈ keys)) eqn:Hin.
           ++ rewrite bool_decide_eq_true_2; [reflexivity|].
              apply bool_decide_eq_true in Hin. now apply list_elem_of_further.
           ++ apply bool_decide_eq_false in Hin.
              destruct (decide (key = k)) as [->|Hne].
              ** rewrite lookup_insert_eq, bool_decide_eq_true_2 by apply list_elem_of_here.
                 congruence.
              ** rewrite lookup_insert_ne by congruence.
                 rewrite bool_decide_eq_false_2; [reflexivity|].
                 intros H. apply elem_of_cons in H as [H|H]; contradiction.
        -- rewrite lookup_insert_ne; [reflexivity|]. intros ->. congruence.
    + destruct (IH styles used (dynamic ++ [k])%list)
        as (styles' & used' & Hfold & Hused & Hstyles).
      exists styles', used'. rewrite Hfold. cbn [List.filter map].
      rewrite Hk. rewrite bool_decide_eq_false_2 by (intros [x Hx]; discriminate).
      cbn [negb]. split; [now rewrite <- app_assoc|]. split.
      * rewrite Hused, Qsum_cons. change (default 0 (@None Q)) with 0. ring.
      * intros key. rewrite Hstyles.
        destruct (PREFERRED_WIDTH_RATIOS !! key) as [r|] eqn:Hkey; [|reflexivity].
        destruct (bool_decide (key ∈ keys)) eqn:Hin.
        -- rewrite bool_decide_eq_true_2; [reflexivity|].
           apply bool_decide_eq_true in Hin. now apply list_elem_of_further.
        -- apply bool_decide_eq_false in Hin.
           rewrite bool_decide_eq_false_2; [reflexivity|].
           intros H. apply elem_of_cons in H as [->|H]; [congruence|contradiction].
Qed.

Lemma fold_setLeft (w : Q) (l : list string) (styles : gmap string ColumnStyle)
    (key : string) :
  fold_left (setLeft w) l styles !! key
  = if bool_decide (key ∈ l) then Some {| width := w; align := AlignLeft |}
    else styles !! key.
Proof.
  revert styles. induction l as [|k l IH]; intros styles.
  - cbn [fold_left]. rewrite bool_decide_eq_false_2; [reflexivity|apply not_elem_of_nil].
  - cbn [fold_left]. rewrite IH. unfold setLeft.
    destruct (bool_decide (key ∈ l)) eqn:Hin.
    + rewrite bool_decide_eq_true_2; [reflexivity|].
      apply bool_decide_eq_true in Hin. now apply list_elem_of_further.
    + apply bool_decide_eq_false in Hin.
      destruct (decide (key = k)) as [->|Hne].
      * rewrite lookup_insert_eq, bool_decide_eq_true_2; [reflexivity|apply list_elem_of_here].
      * rewrite lookup_insert_ne by congruence.
        rewrite bool_decide_eq_false_2; [reflexivity|].
        intros H. apply elem_of_cons in H as [H|H]; contradiction.
Qed.

Lemma ratios_of_fixed (l : list string) :
  Qsum (map (fun key => default 0 (PREFERRED_WIDTH_RATIOS !! key)) l)
  == Qsum (map (fun key => default 0 (PREFERRED_WIDTH_RATIOS !! key))
               (List.filter
                  (fun key => bool_decide (is_Some (PREFERRED_WIDTH_RATIOS !! key))) l)).
Proof.
  induction l as [|a l IH]; [reflexivity|]. cbn [List.filter map].
  destruct (PREFERRED_WIDTH_RATIOS !! a) as [r|] eqn:E.
  - rewrite bool_decide_eq_true_2 by eauto. cbn [map]. rewrite E, !Qsum_cons, IH.
    reflexivity.
  - rewrite bool_decide_eq_false_2 by (intros [x Hx]; discriminate).
    rewrite Qsum_cons, IH. change (default 0 (@None Q)) with 0. ring.
Qed.

Lemma filter_negb_negb (l : list string) (x : string) :
  List.filter (fun a => negb (negb (bool_decide (a = x)))) l
  = List.filter (fun k => bool_decide (k = x)) l.
Proof. apply filter_ext. intros a. apply negb_involutive. Qed.

Lemma inject_length_positive {A : Type} (l : list A) :
  l <> [] -> 0 < inject_Z (Z.of_nat (length l)).
Proof.
  intros Hl. destruct l as [|a l]; [contradiction|].
  change 0 with (inject_Z 0). rewrite <- Zlt_Qlt. cbn [length]. lia.
Qed.

(** X6.  For a registry with distinct keys, calculateColumnStyles
    gives every visible column a positive width, right-aligned for the
    columns with a preferred ratio and left-aligned for the others; in exact
    arithmetic the widths of the visible columns never add up to more than
    the drawable width, and they fill it exactly as soon as a column without
    preferred ratio, such as the description, is visible. *)
Theorem column_widths_fill_the_page (orderedColumnKeys : list string)
    (category : CostCategory) (styles : gmap string ColumnStyle) :
  NoDup orderedColumnKeys ->
  calculateColumnStyles orderedColumnKeys category = Some styles ->
  let visibleKeys :=
    List.filter (columnVisible (visibleColumns category)) orderedColumnKeys in
  (forall key, In key visibleKeys ->
     exists style,
       styles !! key = Some style /\ 0 < width style /\
       align style = if bool_decide (is_Some (PREFERRED_WIDTH_RATIOS !! key))
                     then AlignRight else AlignLeft) /\
  Qsum (map (styledWidth styles) visibleKeys) <= DRAW_WIDTH /\
  ((exists key, In key visibleKeys /\ PREFERRED_WIDTH_RATIOS !! key = None) ->
   Qsum (map (styledWidth styles) visibleKeys) == DRAW_WIDTH).
Proof.
  intros Hnodup Hrun V. unfold calculateColumnStyles in Hrun. fold V in Hrun.
  destruct (existsb _ V); [discriminate|].
  assert (HV : NoDup V) by now apply NoDup_filter_list.
  destruct (fold_fixedStep V ∅ 0 []) as (s0 & used & Hfold & Hused & Hs0).
  rewrite Hfold in Hrun. cbn [app] in Hrun.
  set (D := List.filter
              (fun key => negb (bool_decide (is_Some (PREFERRED_WIDTH_RATIOS !! key)))) V)
    in *.
  set (rem := DRAW_WIDTH - used) in *.
  assert (HW : DRAW_WIDTH == 200) by (unfold DRAW_WIDTH, A4_WIDTH, MARGIN; reflexivity).
  pose proof (fixed_ratios_bound V HV) as Hbound.
  assert (Hratio0 : 0 <= Qsum (map (fun key => default 0 (PREFERRED_WIDTH_RATIOS !! key)) V)).
  { apply Qsum_nonneg. intros key.
    destruct (PREFERRED_WIDTH_RATIOS !! key) as [r|] eqn:E;
      [apply Qlt_le_weak; now apply (preferred_ratio_positive key)|apply Qle_refl]. }
  set (R := Qsum (map (fun key => default 0 (PREFERRED_WIDTH_RATIOS !! key)) V)) in *.
  assert (Hused' : used == 200 * R) by (rewrite Hused, HW; ring).
  assert (Hrem : 0 < rem) by (unfold rem; rewrite HW, Hused'; lra).
  assert (HD : NoDup D) by now apply NoDup_filter_list.
  assert (HinD : forall key, key ∈ D <-> In key V /\ PREFERRED_WIDTH_RATIOS !! key = None).
  { intros key. unfold D. rewrite list_elem_of_In, filter_In.
    split; intros [Hin Hp]; (split; [exact Hin|]).
    - apply negb_true_iff, bool_decide_eq_false in Hp.
      destruct (PREFERRED_WIDTH_RATIOS !! key); [exfalso; apply Hp; eauto|reflexivity].
    - apply negb_true_iff, bool_decide_eq_false. rewrite Hp. intros [x Hx]. discriminate. }
  assert (Hdyn :
    (forall key, key ∈ D ->
       exists w, styles !! key = Some {| width := w; align := AlignLeft |} /\ 0 < w) /\
    Qsum (map (styledWidth styles) D) == (if (0 <? length D)%nat then rem else 0) /\
    (forall key, key ∉ D -> styles !! key = s0 !! key)).
  { destruct (0 <? length D)%nat eqn:Hlen.
    2:{ injection Hrun as <-. apply Nat.ltb_ge in Hlen.
        destruct D as [|d D']; [|cbn [length] in Hlen; lia].
        split; [intros key Hkey; now apply elem_of_nil in Hkey|].
        split; [reflexivity|]. reflexivity. }
    apply Nat.ltb_lt in Hlen.
    assert (Hne : D <> []) by (intros H; rewrite H in Hlen; cbn in Hlen; lia).
    destruct (bool_decide ("description" ∈ D)) eqn:Hdesc.
    - apply bool_decide_eq_true in Hdesc.
      set (others := List.filter (fun k => negb (bool_decide (k = "description"))) D) in *.
      assert (Hsplit : forall f : string -> Q,
        Qsum (map f D) == Qsum (map f others) + f "description").
      { intros f.
        rewrite (Qsum_filter_split f (fun k => negb (bool_decide (k = "description"))) D).
        fold others. rewrite filter_negb_negb, (filter_eq_singleton D _ HD Hdesc).
        cbn [map]. rewrite Qsum_cons. cbn [Qsum fold_right]. ring. }
      assert (Hothers : forall key, key ∈ others <-> key ∈ D /\ key <> "description").
      { intros key. unfold others. rewrite !list_elem_of_In, filter_In.
        rewrite negb_true_iff, bool_decide_eq_false. reflexivity. }
      destruct (0 <? length others)%nat eqn:Hlen'.
      + apply Nat.ltb_lt in Hlen'.
        assert (Hne' : others <> [])
          by (intros H; rewrite H in Hlen'; cbn in Hlen'; lia).
        pose proof (inject_length_positive others Hne') as Hn.
        injection Hrun as <-.
        set (dw := rem * (6 # 10)) in *.
        set (ow := (rem - dw) / inject_Z (Z.of_nat (length others))) in *.
        assert (How : 0 < ow).
        { unfold ow. apply Qlt_shift_div_l; [exact Hn|]. unfold dw. lra. }
        assert (Hlookup : forall key,
          fold_left (setLeft ow) others (setLeft dw s0 "description") !! key
          = if bool_decide (key ∈ others) then Some {| width := ow; align := AlignLeft |}
            else if bool_decide (key = "description")
                 then Some {| width := dw; align := AlignLeft |}
                 else s0 !! key).
        { intros key. rewrite fold_setLeft.
          destruct (bool_decide (key ∈ others)); [reflexivity|]. unfold setLeft.
          destruct (bool_decide (key = "description")) eqn:E.
          - apply bool_decide_eq_true in E. subst. apply lookup_insert_eq.
          - apply bool_decide_eq_false in E. now apply lookup_insert_ne. }
        split; [|split].
        * intros key Hkey. rewrite Hlookup.
          destruct (bool_decide (key ∈ others)) eqn:E; [eauto|].
          apply bool_decide_eq_false in E.
          destruct (bool_decide (key = "description")) eqn:E'.
          -- exists dw. split; [reflexivity|]. unfold dw. lra.
          -- apply bool_decide_eq_false in E'. exfalso. apply E. now apply Hothers.
        * rewrite Hsplit.
          rewrite (Qsum_ext_in _ (fun _ => ow) others).
          2:{ intros key Hkey. unfold styledWidth. rewrite Hlookup.
              rewrite bool_decide_eq_true_2 by now apply list_elem_of_In. reflexivity. }
          rewrite Qsum_const. unfold styledWidth at 1. rewrite Hlookup.
          rewrite bool_decide_eq_false_2 by (intros H; apply Hothers in H; tauto).
          rewrite bool_decide_eq_true_2 by reflexivity. cbn [width].
          unfold ow. field. lra.
        * intros key Hkey. rewrite Hlookup.
          rewrite bool_decide_eq_false_2 by (intros H; apply Hothers in H; tauto).
          rewrite bool_decide_eq_false_2 by (intros ->; contradiction). reflexivity.
      + apply Nat.ltb_ge in Hlen'.
        assert (Hnil : others = []) by (destruct others; [reflexivity|cbn in Hlen'; lia]).
        injection Hrun as <-.
        assert (Honly : forall key, key ∈ D -> key = "description").
        { intros key Hkey. destruct (decide (key = "description")) as [|Hne'']; [assumption|].
          assert (key ∈ others) by now apply Hothers.
          rewrite Hnil in *. now apply elem_of_nil in H. }
        split; [|split].
        * intros key Hkey. rewrite (Honly key Hkey). exists (rem * 1).
          split; [apply lookup_insert_eq|lra].
        * rewrite Hsplit, Hnil. cbn [map Qsum fold_right].
          unfold styledWidth, setLeft. rewrite lookup_insert_eq. cbn [width]. ring.
        * intros key Hkey. unfold setLeft. apply lookup_insert_ne.
          intros <-. contradiction.
    - apply bool_decide_eq_false in Hdesc. injection Hrun as <-.
      pose proof (inject_length_positive D Hne) as Hn.
      set (cw := rem / inject_Z (Z.of_nat (length D))) in *.
      assert (Hcw : 0 < cw) by (unfold cw; apply Qlt_shift_div_l; [exact Hn|lra]).
      split; [|split].
      + intros key Hkey. rewrite fold_setLeft, bool_decide_eq_true_2 by exact Hkey. eauto.
      + rewrite (Qsum_ext_in _ (fun _ => cw) D).
        2:{ intros key Hkey. unfold styledWidth. rewrite fold_setLeft.
            rewrite bool_decide_eq_true_2 by now apply list_elem_of_In. reflexivity. }
        rewrite Qsum_const. unfold cw. field. lra.
      + intros key Hkey. rewrite fold_setLeft. now rewrite bool_decide_eq_false_2. }
  destruct Hdyn as (Hdyn1 & Hdyn2 & Hdyn3).
  assert (Hfixed : forall key ratio,
    In key V -> PREFERRED_WIDTH_RATIOS !! key = Some ratio ->
    styles !! key = Some {| width := DRAW_WIDTH * ratio; align := AlignRight |}).
  { intros key ratio Hin Hratio.
    rewrite Hdyn3 by (intros H; apply HinD in H as [_ H]; congruence).
    rewrite Hs0, Hratio. now rewrite bool_decide_eq_true_2 by now apply list_elem_of_In. }
  assert (Hsum : Qsum (map (styledWidth styles) V)
                 == used + (if (0 <? length D)%nat then rem else 0)).
  { rewrite (Qsum_filter_split (styledWidth styles)
               (fun key => bool_decide (is_Some (PREFERRED_WIDTH_RATIOS !! key))) V).
    fold D. rewrite Hdyn2.
    rewrite (Qsum_ext_in _ (fun key => DRAW_WIDTH
                                       * default 0 (PREFERRED_WIDTH_RATIOS !! key))).
    2:{ intros key Hkey. apply filter_In in Hkey as [Hin Hp].
        apply bool_decide_eq_true in Hp as [r Hr].
        unfold styledWidth. rewrite (Hfixed key r Hin Hr), Hr. reflexivity. }
    assert (Hscale : forall l : list string,
      Qsum (map (fun key => DRAW_WIDTH * default 0 (PREFERRED_WIDTH_RATIOS !! key)) l)
      == DRAW_WIDTH * Qsum (map (fun key => default 0 (PREFERRED_WIDTH_RATIOS !! key)) l)).
    { induction l as [|a l IH]; [cbn; ring|]. cbn [map]. rewrite !Qsum_cons, IH. ring. }
    rewrite Hscale, <- ratios_of_fixed. fold R.
    rewrite Hused', HW. ring. }
  split; [|split].
  - intros key Hin. destruct (PREFERRED_WIDTH_RATIOS !! key) as [r|] eqn:Hr.
    + exists {| width := DRAW_WIDTH * r; align := AlignRight |}.
      split; [now apply Hfixed|]. cbn [width align].
      rewrite bool_decide_eq_true_2 by eauto. split; [|reflexivity].
      pose proof (preferred_ratio_positive key r Hr). rewrite HW. lra.
    + destruct (Hdyn1 key) as (w & Hw & Hpos); [apply HinD; now split|].
      exists {| width := w; align := AlignLeft |}. split; [exact Hw|].
      split; [exact Hpos|].
      now rewrite bool_decide_eq_false_2 by (intros [x Hx]; discriminate).
  - rewrite Hsum. destruct (0 <? length D)%nat; unfold rem; rewrite ?HW, ?Hused'; lra.
  - intros (key & Hin & Hnone). rewrite Hsum.
    assert (Hkey : key ∈ D) by (apply HinD; now split).
    destruct D as [|d D']; [now apply elem_of_nil in Hkey|].
    cbn [length Nat.ltb Nat.leb]. unfold rem. ring.
Qed.

Lemma column_widths_fill_the_page_witness :
  NoDup ["description"; "concept"; "unit"; "quantity"; "unitPrice"; "total"] /\
  (exists styles,
     calculateColumnStyles
       ["description"; "concept"; "unit"; "quantity"; "unitPrice"; "total"]
       exampleVisibleCategory = Some styles /\
     Qsum (map (styledWidth styles)
               (List.filter (columnVisible (visibleColumns exampleVisibleCategory))
                  ["description"; "concept"; "unit"; "quantity"; "unitPrice"; "total"]))
     == DRAW_WIDTH).
Proof.
  assert (H1 : NoDup ["description"; "concept"; "unit"; "quantity"; "unitPrice"; "total"])
    by (apply (bool_decide_unpack _); vm_compute; exact I).
  split; [exact H1|].
  destruct (calculateColumnStyles
              ["description"; "concept"; "unit"; "quantity"; "unitPrice"; "total"]
              exampleVisibleCategory) as [styles|] eqn:Hrun;
    [|vm_compute in Hrun; discriminate Hrun].
  exists styles. split; [reflexivity|].
  apply (proj2 (proj2 (column_widths_fill_the_page _ _ styles H1 Hrun))).
  exists "description". split; [vm_compute; auto|reflexivity].
Defined.

(** ** The footers of the pages the categories loop closes *)

Lemma footersOf_snoc (ops : list DrawOp) (op : DrawOp) :
  footersOf (ops ++ [op])
  = (footersOf ops ++ match footerOf op with Some t => [t] | None => [] end)%list.
Proof.
  unfold footersOf. rewrite omap_app. cbn [omap list_omap]. now destruct (footerOf op).
Qed.

Section FooterFacts.
Variable StringToNumber : string -> option Q.
Variable cellLines : CostCategory -> Item -> list nat.
Variable doc : DocumentState.

Lemma footersNumbered_refl (s : Pdf) : footersNumbered doc s s.
Proof.
  unfold footersNumbered. split; [lia|].
  rewrite N.sub_diag. cbn [N.to_nat seq map]. now rewrite app_nil_r.
Qed.

Lemma footersNumbered_setY (s0 s : Pdf) (v : Q) :
  footersNumbered doc s0 s -> footersNumbered doc s0 (setY v s).
Proof. intros H. exact H. Qed.

Lemma footersNumbered_draw (s0 s : Pdf) (op : DrawOp) :
  footerOf op = None -> isAddPage op = false ->
  footersNumbered doc s0 s -> footersNumbered doc s0 (draw op s).
Proof.
  intros Hop _ [Hpage Hfooters]. unfold footersNumbered, draw. cbn [canvas page].
  split; [exact Hpage|]. now rewrite footersOf_snoc, Hop, app_nil_r.
Qed.

Lemma footersNumbered_break (s0 s : Pdf) :
  footersNumbered doc s0 s ->
  footersNumbered doc s0 (drawHeader (addPage (drawFooter doc s))).
Proof.
  intros [Hpage Hfooters].
  unfold footersNumbered, drawHeader, addPage, drawFooter, setY, draw. cbn [canvas page].
  split; [lia|].
  rewrite !footersOf_snoc. cbn [footerOf]. rewrite !app_nil_r, Hfooters, <- app_assoc.
  f_equal.
  replace (N.to_nat (page s + 1 - page s0)) with (S (N.to_nat (page s - page s0))) by lia.
  rewrite seq_S, map_app. cbn [map Nat.add]. do 3 f_equal. lia.
Qed.

Lemma footersNumbered_checkAndAddPage (s0 s : Pdf) (h : Q) :
  footersNumbered doc s0 s -> footersNumbered doc s0 (checkAndAddPage doc h s).
Proof.
  intros H. unfold checkAndAddPage. destruct (Qgtb _ _); [|exact H].
  now apply footersNumbered_break.
Qed.

Lemma footersNumbered_drawCategoryTitle (s0 s : Pdf) (category : CostCategory) :
  footersNumbered doc s0 s -> footersNumbered doc s0 (drawCategoryTitle category s).
Proof.
  intros H. unfold drawCategoryTitle. now apply footersNumbered_setY, footersNumbered_draw.
Qed.

Lemma footersNumbered_drawSubcategoryTitle (s0 s : Pdf) (sub : Subcategory) :
  footersNumbered doc s0 s -> footersNumbered doc s0 (drawSubcategoryTitle sub s).
Proof.
  intros H. unfold drawSubcategoryTitle.
  now apply footersNumbered_setY, footersNumbered_draw.
Qed.

Lemma footersNumbered_drawColumnHeader (s0 s : Pdf) :
  footersNumbered doc s0 s -> footersNumbered doc s0 (drawColumnHeader s).
Proof.
  intros H. unfold drawColumnHeader. now apply footersNumbered_setY, footersNumbered_draw.
Qed.

Lemma footersNumbered_exportItemRow (s0 s : Pdf) (category : CostCategory) (raw : Q)
    (sub : Subcategory) (item : Item) :
  footersNumbered doc s0 s ->
  footersNumbered doc s0
    (exportItemRow StringToNumber cellLines doc category raw sub s item).
Proof.
  intros H. unfold exportItemRow.
  apply footersNumbered_setY, footersNumbered_draw; try reflexivity.
  destruct (Qgtb _ _); [|exact H]. unfold breakBeforeRow.
  apply footersNumbered_drawColumnHeader.
  destruct (hasSubcategoryTitle category sub);
    [apply footersNumbered_drawSubcategoryTitle|];
    now apply footersNumbered_drawCategoryTitle, footersNumbered_break.
Qed.

Lemma footersNumbered_exportCategory (s0 s : Pdf) (category : CostCategory) :
  footersNumbered doc s0 s ->
  footersNumbered doc s0 (exportCategory StringToNumber cellLines doc s category).
Proof.
  intros H. unfold exportCategory. apply footersNumbered_setY.
  assert (Hsubs :
    footersNumbered doc s0
      (fold_left (exportSubcategory StringToNumber cellLines doc category
                    (reduceRawSubtotal StringToNumber category))
         (subcategories category)
         (drawCategoryTitle category (checkAndAddPage doc (12 + tableHeaderHeight + 10) s)))).
  { apply fold_left_invariant.
    - intros a sub Ha. unfold exportSubcategory. destruct (negb (hasItems sub)); [exact Ha|].
      apply fold_left_invariant; [intros; now apply footersNumbered_exportItemRow|].
      apply footersNumbered_drawColumnHeader.
      destruct (hasSubcategoryTitle category sub);
        [apply footersNumbered_drawSubcategoryTitle|];
        now apply footersNumbered_checkAndAddPage.
    - now apply footersNumbered_drawCategoryTitle, footersNumbered_checkAndAddPage. }
  unfold drawCategoryTotals. destruct (Qgtb _ 0); [|exact Hsubs].
  apply footersNumbered_setY, footersNumbered_setY.
  match goal with |- footersNumbered _ _ (if ?b then _ else _) => destruct b end;
    repeat apply footersNumbered_setY;
    (apply footersNumbered_draw; try reflexivity;
     now apply footersNumbered_checkAndAddPage).
Qed.

Lemma footersNumbered_exportCategories (s : Pdf) :
  footersNumbered doc s (exportCategories StringToNumber cellLines doc s).
Proof.
  unfold exportCategories. apply fold_left_invariant.
  - intros a category Ha. now apply footersNumbered_exportCategory.
  - apply footersNumbered_refl.
Qed.
End FooterFacts.

(** X2.  Whatever the document, the categories loop of the exporter
    never lowers the page counter, and the counter grows by exactly the
    number of pages it adds; each added page comes with one footer, drawn
    on the page it closes, and one repeated header; and the footers carry
    the numbers of the pages they close: those added to a canvas whose
    counter is p are the footers of the pages p, p + 1, ... up to the page
    before the current one. *)
Theorem exportCategories_page_accounting (StringToNumber : string -> option Q)
    (cellLines : CostCategory -> Item -> list nat) (doc : DocumentState) (s : Pdf) :
  let s' := exportCategories StringToNumber cellLines doc s in
  let added p := (countOps p (canvas s') - countOps p (canvas s))%nat in
  (page s <= page s')%N /\
  (countOps isAddPage (canvas s) <= countOps isAddPage (canvas s'))%nat /\
  (countOps isFooter (canvas s) <= countOps isFooter (canvas s'))%nat /\
  (countOps isHeader (canvas s) <= countOps isHeader (canvas s'))%nat /\
  page s' = (page s + N.of_nat (added isAddPage))%N /\
  added isFooter = added isAddPage /\
  added isHeader = added isAddPage /\
  footersOf (canvas s')
  = (footersOf (canvas s)
     ++ map (fun i => footerTexts doc (page s + N.of_nat i))
            (seq 0 (N.to_nat (page s' - page s))))%list.
Proof.
  cbv zeta.
  destruct (pagesInStep_exportCategories StringToNumber cellLines doc s)
    as (H1 & H2 & H3 & H4 & H5 & H6 & H7).
  destruct (footersNumbered_exportCategories StringToNumber cellLines doc s) as [_ H8].
  repeat split; try assumption. lia.
Qed.

(** ** A date shown in the date picker and read back *)

Lemma Day_of_midnight (k r : Z) :
  (0 <= r < msPerDay)%Z -> Day (k * msPerDay + r) = k.
Proof.
  intros Hr. unfold Day. symmetry. apply Z.div_unique with (r := r); lia.
Qed.

Lemma fields_of_time (t : Z) :
  (YearFromTime t, MonthFromTime t, DateFromTime t) = fieldsOfDay (Day t).
Proof. reflexivity. Qed.

Lemma formatDateForState_day (tza : Z -> Z) (t : Z) :
  formatDateForState tza t = isoOfDay (Day (t + tza t)).
Proof.
  unfold formatDateForState, isoOfDay, LocalTime.
  now rewrite <- (fields_of_time (t + tza t)).
Qed.

Lemma years_checked :
  forallb (fun year =>
    forallb (fun month =>
      forallb (fun day => dayNumberAgrees year (Z.of_nat month) (Z.of_nat day))
              (seq 1 31))
      (seq 1 12))
    (map Z.of_nat (seq 1900 201))
  = true.
Proof. vm_compute. reflexivity. Qed.

Lemma day_numbers_checked (year month day : Z) :
  (1900 <= year <= 2100)%Z -> (1 <= month <= 12)%Z -> (1 <= day <= 31)%Z ->
  dayNumberAgrees year month day = true.
Proof.
  intros Hyear Hmonth Hday.
  assert (Hin : In (Z.of_nat (Z.to_nat year)) (map Z.of_nat (seq 1900 201))).
  { apply in_map, in_seq. lia. }
  assert (Hin_m : In (Z.to_nat month) (seq 1 12)) by (apply in_seq; lia).
  assert (Hin_d : In (Z.to_nat day) (seq 1 31)) by (apply in_seq; lia).
  pose proof (proj1 (forallb_forall _ _) years_checked _ Hin) as Hok.
  cbv beta in Hok.
  pose proof (proj1 (forallb_forall _ _) Hok _ Hin_m) as Hok'.
  cbv beta in Hok'.
  pose proof (proj1 (forallb_forall _ _) Hok' _ Hin_d) as Hcheck.
  cbv beta in Hcheck. now rewrite !Z2Nat.id in Hcheck by lia.
Qed.

Lemma fieldsAgree_facts (fields before : Z * Z * Z) (year month day : Z) :
  fieldsAgree fields before year month day = true ->
  snd fields = day ->
  fields = (year, (month - 1)%Z, day) /\ (1 <= snd before <= 31)%Z /\ snd before <> day.
Proof.
  destruct fields as [[y m] d]. unfold fieldsAgree. intros Hcheck Hd.
  cbn [snd] in Hd. subst d.
  rewrite Z.eqb_refl in Hcheck.
  apply andb_true_iff in Hcheck as [Hcheck Hbefore].
  apply andb_true_iff in Hcheck as [Hy Hm].
  apply Z.eqb_eq in Hy, Hm. subst y m.
  apply andb_true_iff in Hbefore as [Hbefore Hother].
  apply andb_true_iff in Hbefore as [Hlo Hhi].
  apply Z.leb_le in Hlo, Hhi. apply negb_true_iff, Z.eqb_neq in Hother.
  split; [reflexivity|]. split; [lia|exact Hother].
Qed.

Lemma dayNumberAgrees_eq (year month day : Z) :
  dayNumberAgrees year month day
  = fieldsAgree (fieldsOfDay (MakeDay year (month - 1) day))
                (fieldsOfDay (MakeDay year (month - 1) day - 1)) year month day.
Proof. unfold dayNumberAgrees. reflexivity. Qed.

Lemma day_number_facts (year month day : Z) :
  (1900 <= year <= 2100)%Z -> (1 <= month <= 12)%Z -> (1 <= day <= 31)%Z ->
  snd (fieldsOfDay (MakeDay year (month - 1) day)) = day ->
  fieldsOfDay (MakeDay year (month - 1) day) = (year, (month - 1)%Z, day) /\
  (1 <= snd (fieldsOfDay (MakeDay year (month - 1) day - 1)) <= 31)%Z /\
  snd (fieldsOfDay (MakeDay year (month - 1) day - 1)) <> day.
Proof.
  intros Hyear Hmonth Hday.
  pose proof (day_numbers_checked year month day Hyear Hmonth Hday) as Hcheck.
  rewrite dayNumberAgrees_eq in Hcheck.
  exact (fieldsAgree_facts _ _ year month day Hcheck).
Qed.

Lemma year_numerals_checked :
  forallb (fun y => numeralAgrees 4 (stringOfZ (Z.of_nat y)) (Z.of_nat y)) (seq 1900 201)
  = true.
Proof. vm_compute. reflexivity. Qed.

Lemma day_numerals_checked :
  forallb (fun n => numeralAgrees 2 (padStart0 2 (stringOfZ (Z.of_nat n))) (Z.of_nat n))
          (seq 1 31)
  = true.
Proof. vm_compute. reflexivity. Qed.

Lemma isDigit_not_slash (c : ascii) : isDigit c = true -> Ascii.eqb c "/" = false.
Proof.
  intros H. destruct (Ascii.eqb c "/") eqn:E; [|reflexivity].
  apply Ascii.eqb_eq in E. subst c. discriminate.
Qed.

Lemma four_digits (year : Z) :
  (1900 <= year <= 2100)%Z ->
  exists a b c d,
    stringOfZ year = String a (String b (String c (String d ""))) /\
    isDigit a = true /\ isDigit b = true /\ isDigit c = true /\ isDigit d = true /\
    parseInt10 (stringOfZ year) = Some year.
Proof.
  intros Hyear.
  assert (Hin : In (Z.to_nat year) (seq 1900 201)) by (apply in_seq; lia).
  pose proof (proj1 (forallb_forall _ _) year_numerals_checked _ Hin) as Hok.
  cbv beta in Hok. rewrite Z2Nat.id in Hok by lia. unfold numeralAgrees in Hok.
  apply andb_true_iff in Hok as [Hok Hparse]. apply andb_true_iff in Hok as [Hlen Hdigits].
  apply Nat.eqb_eq in Hlen. apply bool_decide_eq_true in Hparse.
  destruct (stringOfZ year) as [|a [|b [|c [|d [|e s]]]]]; try discriminate Hlen.
  cbn [list_ascii_of_string forallb] in Hdigits.
  repeat (apply andb_true_iff in Hdigits as [? Hdigits]).
  exists a, b, c, d. repeat split; assumption.
Qed.

Lemma two_digits (n : Z) :
  (1 <= n <= 31)%Z ->
  exists a b,
    padStart0 2 (stringOfZ n) = String a (String b "") /\
    isDigit a = true /\ isDigit b = true /\
    parseInt10 (padStart0 2 (stringOfZ n)) = Some n.
Proof.
  intros Hn.
  assert (Hin : In (Z.to_nat n) (seq 1 31)) by (apply in_seq; lia).
  pose proof (proj1 (forallb_forall _ _) day_numerals_checked _ Hin) as Hok.
  cbv beta in Hok. rewrite Z2Nat.id in Hok by lia. unfold numeralAgrees in Hok.
  apply andb_true_iff in Hok as [Hok Hparse]. apply andb_true_iff in Hok as [Hlen Hdigits].
  apply Nat.eqb_eq in Hlen. apply bool_decide_eq_true in Hparse.
  destruct (padStart0 2 (stringOfZ n)) as [|a [|b [|c s]]]; try discriminate Hlen.
  cbn [list_ascii_of_string forallb] in Hdigits.
  repeat (apply andb_true_iff in Hdigits as [? Hdigits]).
  exists a, b. repeat split; assumption.
Qed.

(** The date shown for a state string is read back as its three numerals. *)
Lemma shown_date_matches (year month day : Z) :
  (1900 <= year <= 2100)%Z -> (1 <= month <= 12)%Z -> (1 <= day <= 31)%Z ->
  formatDateForDisplay (isoDate year month day)
  = padStart0 2 (stringOfZ day) ++ "/" ++ padStart0 2 (stringOfZ month) ++ "/"
    ++ stringOfZ year /\
  matchTypedDate (formatDateForDisplay (isoDate year month day))
  = Some (padStart0 2 (stringOfZ day), padStart0 2 (stringOfZ month), stringOfZ year).
Proof.
  intros Hyear Hmonth Hday.
  destruct (four_digits year Hyear) as (y1 & y2 & y3 & y4 & Hy & Hy1 & Hy2 & Hy3 & Hy4 & _).
  destruct (two_digits month ltac:(lia)) as (m1 & m2 & Hm & Hm1 & Hm2 & _).
  destruct (two_digits day Hday) as (d1 & d2 & Hd & Hd1 & Hd2 & _).
  unfold isoDate. rewrite Hy, Hm, Hd.
  assert (Hshown :
    formatDateForDisplay
      (String y1 (String y2 (String y3 (String y4 ""))) ++ "-"
       ++ String m1 (String m2 "") ++ "-" ++ String d1 (String d2 ""))
    = String d1 (String d2 "") ++ "/" ++ String m1 (String m2 "") ++ "/"
      ++ String y1 (String y2 (String y3 (String y4 "")))).
  { unfold formatDateForDisplay, isDateString.
    cbv [String.append]. cbn [list_ascii_of_string].
    rewrite Hy1, Hy2, Hy3, Hy4, Hm1, Hm2, Hd1, Hd2, !Ascii.eqb_refl. cbn [andb negb].
    cbn [split].
    repeat (first [rewrite isDigit_not_hyphen by assumption | rewrite Ascii.eqb_refl];
            cbv beta iota).
    reflexivity. }
  split; [exact Hshown|]. rewrite Hshown.
  unfold matchTypedDate. cbv [String.append]. cbn [split].
  repeat (first [rewrite isDigit_not_slash by assumption | rewrite Ascii.eqb_refl];
          cbv beta iota).
  unfold isDigits. cbn [list_ascii_of_string forallb String.length].
  rewrite Hy1, Hy2, Hy3, Hy4, Hm1, Hm2, Hd1, Hd2. reflexivity.
Qed.

Lemma sliceLast_two (a : string) (x y : ascii) :
  sliceLast 2 (a ++ String x (String y "")) = String x (String y "").
Proof.
  unfold sliceLast. rewrite length_append. cbn [String.length].
  replace (String.length a + 2 - 2)%nat with (String.length a) by lia.
  induction a as [|c a IH]; [reflexivity|].
  change (String c a ++ String x (String y "")) with (String c (a ++ String x (String y ""))).
  cbn [String.length substring]. exact IH.
Qed.

(** X23.  For every day of the calendar from 1900 to 2100 the date
    picker shows the state string yyyy-mm-dd as dd/mm/yyyy.  When the input
    loses focus with that text, a host at or east of Greenwich stores the
    same state string, but every host west of Greenwich stores the state
    string of the day before, because the date is built in UTC and its
    fields are read in local time.  A day the month does not have is
    refused. *)
Theorem shown_date_read_back (tza year month day : Z) :
  (1900 <= year <= 2100)%Z -> (1 <= month <= 12)%Z -> (1 <= day <= 31)%Z ->
  let v := isoDate year month day in
  let shown := formatDateForDisplay v in
  let date := Date_UTC year (month - 1) day in
  shown = padStart0 2 (stringOfZ day) ++ "/" ++ padStart0 2 (stringOfZ month) ++ "/"
          ++ stringOfZ year /\
  (DateFromTime date <> day -> handleInputBlur (fun _ => tza) shown = None) /\
  (DateFromTime date = day ->
   typedDate shown = Some date /\
   ((0 <= tza < msPerDay)%Z -> handleInputBlur (fun _ => tza) shown = Some v) /\
   ((- msPerDay <= tza < 0)%Z ->
    exists w,
      handleInputBlur (fun _ => tza) shown = Some w /\ w <> v /\
      w = formatDateForState (fun _ => 0%Z) (date - msPerDay)%Z)).
Proof.
  intros Hyear Hmonth Hday v shown date.
  destruct (shown_date_matches year month day Hyear Hmonth Hday) as [Hshown Hmatch].
  fold v in Hshown, Hmatch. fold shown in Hshown, Hmatch.
  destruct (four_digits year Hyear) as (_ & _ & _ & _ & _ & _ & _ & _ & _ & Hparse_y).
  destruct (two_digits month ltac:(lia)) as (_ & _ & _ & _ & _ & Hparse_m).
  destruct (two_digits day Hday) as (d1 & d2 & Hd & _ & _ & Hparse_d).
  assert (Htyped : typedDate shown
                   = if (DateFromTime date =? day)%Z then Some date else None).
  { unfold typedDate. rewrite Hmatch, Hparse_d, Hparse_m, Hparse_y.
    replace ((0 <? month)%Z && (month <=? 12)%Z && (0 <? day)%Z && (day <=? 31)%Z)
      with true; [reflexivity|].
    symmetry. repeat (apply andb_true_iff; split);
      try (apply Z.ltb_lt; lia); apply Z.leb_le; lia. }
  assert (Hdate : date = (MakeDay year (month - 1) day * msPerDay)%Z).
  { unfold date, Date_UTC.
    replace ((0 <=? year)%Z && (year <=? 99)%Z) with false; [reflexivity|].
    symmetry. apply andb_false_iff. right. apply Z.leb_gt. lia. }
  set (k := MakeDay year (month - 1) day) in *.
  assert (Hfields : DateFromTime date = snd (fieldsOfDay k)).
  { rewrite Hdate.
    pose proof (fields_of_time (k * msPerDay)) as H.
    replace (Day (k * msPerDay)) with k in H
      by (symmetry; rewrite <- (Z.add_0_r (k * msPerDay)); apply Day_of_midnight;
          unfold msPerDay; lia).
    now rewrite <- H. }
  split; [exact Hshown|]. split.
  - intros Hmissing. unfold handleInputBlur. rewrite Htyped.
    replace (DateFromTime date =? day)%Z with false by (symmetry; now apply Z.eqb_neq).
    rewrite bool_decide_eq_false_2; [reflexivity|].
    rewrite Hshown, Hd. discriminate.
  - intros Hexists. rewrite Htyped. rewrite (proj2 (Z.eqb_eq _ _) Hexists).
    split; [reflexivity|].
    assert (Hexists' : DateFromTime date = day) by exact Hexists.
    rewrite Hfields in Hexists.
    destruct (day_number_facts year month day Hyear Hmonth Hday Hexists)
      as (Hk & [Hlo Hhi] & Hother).
    fold k in Hk, Hlo, Hhi, Hother.
    unfold handleInputBlur. rewrite Htyped, Hexists'.
    rewrite Z.eqb_refl. split.
    + intros Htza. f_equal. rewrite formatDateForState_day, Hdate.
      rewrite (Day_of_midnight k tza Htza). unfold isoOfDay. rewrite Hk.
      unfold v, isoDate. now replace (month - 1 + 1)%Z with month by lia.
    + intros Htza. eexists. split; [reflexivity|].
      assert (Hw : formatDateForState (fun _ => tza) date = isoOfDay (k - 1)).
      { rewrite formatDateForState_day, Hdate.
        replace (k * msPerDay + tza)%Z with ((k - 1) * msPerDay + (tza + msPerDay))%Z by lia.
        now rewrite Day_of_midnight by lia. }
      split.
      * rewrite Hw. unfold isoOfDay, v, isoDate.
        destruct (fieldsOfDay (k - 1)) as [[y' m'] d'] eqn:Hk'. cbn [snd] in *.
        destruct (two_digits d' ltac:(lia)) as (a & b & Hd' & _ & _ & Hparse').
        intros Heq.
        apply (f_equal (sliceLast 2)) in Heq.
        rewrite Hd', Hd in Heq.
        rewrite <- !append_assoc in Heq.
        rewrite !sliceLast_two in Heq.
        rewrite <- Hd', <- Hd in Heq. rewrite Heq in Hparse'. congruence.
      * rewrite Hw, formatDateForState_day. f_equal.
        replace (date - msPerDay + 0)%Z with ((k - 1) * msPerDay + 0)%Z by lia.
        symmetry. apply Day_of_midnight. unfold msPerDay. lia.
Qed.

Lemma shown_date_read_back_witness :
  (1900 <= 2024 <= 2100)%Z /\ (1 <= 3 <= 12)%Z /\ (1 <= 5 <= 31)%Z /\
  DateFromTime (Date_UTC 2024 (3 - 1) 5) = 5%Z /\
  (- msPerDay <= -6 * 3600000 < 0)%Z /\
  formatDateForDisplay (isoDate 2024 3 5) = "05/03/2024" /\
  exists w,
    handleInputBlur (fun _ => (-6 * 3600000)%Z) (formatDateForDisplay (isoDate 2024 3 5))
    = Some w /\
    w <> isoDate 2024 3 5 /\
    w = formatDateForState (fun _ => 0%Z) (Date_UTC 2024 (3 - 1) 5 - msPerDay)%Z.
Proof.
  assert (H1 : (1900 <= 2024 <= 2100)%Z) by lia.
  assert (H2 : (1 <= 3 <= 12)%Z) by lia.
  assert (H3 : (1 <= 5 <= 31)%Z) by lia.
  assert (H4 : DateFromTime (Date_UTC 2024 (3 - 1) 5) = 5%Z) by reflexivity.
  assert (H5 : (- msPerDay <= -6 * 3600000 < 0)%Z) by (unfold msPerDay; lia).
  split; [exact H1|]. split; [exact H2|]. split; [exact H3|]. split; [exact H4|].
  split; [exact H5|]. split; [reflexivity|].
  exact (proj2 (proj2 (proj2 (proj2
           (shown_date_read_back (-6 * 3600000) 2024 3 5 H1 H2 H3)) H4)) H5).
Defined.

(** ** A prefix that ends in a hyphen and digits *)



Lemma digitsValue_nonneg (l : list ascii) : (0 <= digitsValue l)%Z.
Proof.
  unfold digitsValue.
  assert (H : forall acc, (0 <= acc)%Z ->
    (0 <= fold_left (fun acc c => (10 * acc + Z.of_nat (default 0%nat (digitValue c)))%Z)
            l acc)%Z).
  { induction l as [|c l IH]; intros acc Hacc; [exact Hacc|]. cbn [fold_left].
    apply IH. lia. }
  apply H. lia.
Qed.


Section RegenerateGrowth.
Variable LocalTZA : Z -> Z.

End RegenerateGrowth.


(** ** Worked examples of the properties with a premise *)

Lemma exportCategories_rows_within_witness :
  (forall category item, rowHeight (fun _ _ => [3%nat]) category item <= 220) /\
  rowsWithin {| y := topOfContent; page := 1; canvas := [] |} /\
  rowsWithin
    (exportCategories digitsToNumber (fun _ _ => [3%nat]) (exampleDocument MD_proportional)
       {| y := topOfContent; page := 1; canvas := [] |}).
Proof.
  assert (H1 : forall category item,
             rowHeight (fun _ _ => [3%nat]) category item <= 220)
    by (intros category item; vm_compute; discriminate).
  assert (H2 : rowsWithin {| y := topOfContent; page := 1; canvas := [] |})
    by constructor.
  split; [exact H1|]. split; [exact H2|].
  exact (exportCategories_rows_within digitsToNumber (fun _ _ => [3%nat])
           (exampleDocument MD_proportional) H1 _ H2).
Defined.

Lemma preview_ticket_line_width_witness :
  (25 < String.length "Cemento gris en saco de 50 kg")%nat /\
  String.prefix (substring 0 22 "Cemento gris en saco de 50 kg" ++ "...")
    (ticketDescription "Cemento gris en saco de 50 kg") = true /\
  String.length (previewItemLine "2" "$1,250.00" "Cemento gris en saco de 50 kg") = 40%nat.
Proof.
  assert (H : (25 < String.length "Cemento gris en saco de 50 kg")%nat) by (cbn; lia).
  split; [exact H|]. split.
  - exact (proj1 (proj2 (proj2
             (preview_ticket_line_width "2" "$1,250.00" "Cemento gris en saco de 50 kg")))
             H).
  - exact (proj1 (proj2 (proj2 (proj2
             (preview_ticket_line_width "2" "$1,250.00"
                "Cemento gris en saco de 50 kg"))))).
Defined.
